(** * LangGraph service adapter: the streaming event normalizer

    A shallow embedding of
    [service-adapters/langgraph/utils.ts] (event handlers, content resolver,
    run state table) and of [LangGraphServiceAdapter.processLangGraphStream]
    ([langgraph-adapter.ts]), with the lifecycle properties of the emitted
    runtime events. *)

From Stdlib Require Import ZArith NArith Ascii String List Lia.
From stdpp Require Import base option gmap strings list pretty.

Local Open Scope string_scope.
Local Open Scope list_scope.

(** ** JavaScript values

    The payloads the adapter inspects dynamically ([chunk.content],
    [toolCall.args], metadata values) are plain JSON-like data.  [JNum] holds
    integer-valued numbers in the safe range; [NaN], fractions and exponents
    are outside the model.  An object is its list of own properties in
    insertion order, with distinct keys. *)

#[warnings="-register-all"]
Inductive JsValue : Type :=
| JUndefined
| JNull
| JBool (b : bool)
| JNum (z : Z)
| JBigInt (z : Z)
| JStr (s : string)
| JArr (items : list JsValue)
| JObj (props : list (string * JsValue)).

(** A thrown value: an [Error] with its constructor name and message. *)
Record JsError : Type := mkError { error_name : string; error_message : string }.

(** The outcome of running a piece of code: it returns or it throws. *)
Inductive Completion (A : Type) : Type :=
| Normal (a : A)
| Throw (e : JsError).
Arguments Normal {A} a.
Arguments Throw {A} e.

Definition TypeError (msg : string) : JsError := mkError "TypeError" msg.

(** [Boolean(v)], the truthiness used by [!v], [&&], [||] and [if]. *)
Definition truthy (v : JsValue) : bool :=
  match v with
  | JUndefined | JNull => false
  | JBool b => b
  | JNum z | JBigInt z => negb (Z.eqb z 0)
  | JStr s => negb (String.eqb s "")
  | JArr _ | JObj _ => true
  end.

(** Truthiness of a [string | undefined] (or [string | null]) field. *)
Definition truthy_str (o : option string) : bool :=
  match o with
  | Some s => negb (String.eqb s "")
  | None => false
  end.

(** [a ?? b] *)
Definition nullish (a b : JsValue) : JsValue :=
  match a with
  | JUndefined | JNull => b
  | _ => a
  end.

(** [typeof v] *)
Definition typeof (v : JsValue) : string :=
  match v with
  | JUndefined => "undefined"
  | JNull => "object"
  | JBool _ => "boolean"
  | JNum _ => "number"
  | JBigInt _ => "bigint"
  | JStr _ => "string"
  | JArr _ | JObj _ => "object"
  end.

Fixpoint assoc (k : string) (props : list (string * JsValue)) : option JsValue :=
  match props with
  | [] => None
  | (k', v) :: rest => if String.eqb k k' then Some v else assoc k rest
  end.

Fixpoint parse_digits (acc : N) (s : string) : option N :=
  match s with
  | EmptyString => Some acc
  | String c rest =>
      let n := N_of_ascii c in
      if (48 <=? n)%N && (n <=? 57)%N
      then parse_digits (acc * 10 + (n - 48))%N rest
      else None
  end.

(** The array index a property key denotes, if it is a canonical numeral. *)
Definition parse_index (k : string) : option N :=
  match k with
  | EmptyString => None
  | String c rest =>
      if (N_of_ascii c =? 48)%N
      then (if String.eqb rest "" then Some 0%N else None)
      else parse_digits 0 k
  end.

(** [k in v] for the keys the adapter asks about ("type", "text"), which no
    prototype defines: own properties of an object, the indices and "length"
    of an array.  On a primitive the operator throws. *)
Definition js_in (k : string) (v : JsValue) : Completion bool :=
  match v with
  | JObj props => Normal (bool_decide (is_Some (assoc k props)))
  | JArr items =>
      Normal (String.eqb k "length"
              || match parse_index k with
                 | Some i => (i <? N.of_nat (length items))%N
                 | None => false
                 end)
  | _ => Throw (TypeError "Cannot use 'in' operator to search for a key in a primitive")
  end.

(** [v.k] on a value that is neither [null] nor [undefined] (where the source
    reads a property, the value is known to be an object). *)
Definition js_get (v : JsValue) (k : string) : JsValue :=
  match v with
  | JObj props => default JUndefined (assoc k props)
  | _ => JUndefined
  end.

(** [a === b] against a string literal. *)
Definition strict_eq_str (v : JsValue) (s : string) : bool :=
  match v with
  | JStr s' => String.eqb s' s
  | _ => false
  end.

(** ** [JSON.stringify] *)

Definition hex_digit (n : N) : ascii :=
  match (n mod 16)%N with
  | 0 => "0" | 1 => "1" | 2 => "2" | 3 => "3" | 4 => "4" | 5 => "5"
  | 6 => "6" | 7 => "7" | 8 => "8" | 9 => "9" | 10 => "a" | 11 => "b"
  | 12 => "c" | 13 => "d" | 14 => "e" | _ => "f"
  end%N%char.

(** The [digits] low hexadecimal digits of [n], most significant first. *)
Fixpoint hex_field (digits : nat) (n : N) : string :=
  match digits with
  | O => ""
  | S d => hex_field d (n / 16)%N +:+ String (hex_digit n) ""
  end.

Definition dquote : ascii := ascii_of_nat 34.
Definition backslash : ascii := ascii_of_nat 92.

(** One code unit of a quoted JSON string. *)
Definition quoteJSONChar (c : ascii) : string :=
  let n := N_of_ascii c in
  if (n =? 8)%N then String backslash "b"
  else if (n =? 9)%N then String backslash "t"
  else if (n =? 10)%N then String backslash "n"
  else if (n =? 12)%N then String backslash "f"
  else if (n =? 13)%N then String backslash "r"
  else if (n =? 34)%N then String backslash (String dquote "")
  else if (n =? 92)%N then String backslash (String backslash "")
  else if (n <? 32)%N then String backslash ("u" +:+ hex_field 4 n)
  else String c "".

Fixpoint quoteJSONBody (s : string) : string :=
  match s with
  | EmptyString => ""
  | String c rest => quoteJSONChar c +:+ quoteJSONBody rest
  end.

Definition quoteJSONString (s : string) : string :=
  String dquote (quoteJSONBody s) +:+ String dquote "".

Fixpoint join (sep : string) (parts : list string) : string :=
  match parts with
  | [] => ""
  | [p] => p
  | p :: rest => p +:+ sep +:+ join sep rest
  end.

(** [SerializeJSONProperty]: [None] is the [undefined] result, which drops
    the property of an object and prints as [null] in an array.  A BigInt
    cannot be serialized. *)
Fixpoint serializeJSONProperty (v : JsValue) : Completion (option string) :=
  match v with
  | JUndefined => Normal None
  | JNull => Normal (Some "null")
  | JBool b => Normal (Some (if b then "true" else "false"))
  | JNum z => Normal (Some (pretty z))
  | JBigInt _ => Throw (TypeError "Do not know how to serialize a BigInt")
  | JStr s => Normal (Some (quoteJSONString s))
  | JArr items =>
      let fix elements (l : list JsValue) : Completion (list string) :=
        match l with
        | [] => Normal []
        | x :: rest =>
            match serializeJSONProperty x with
            | Throw e => Throw e
            | Normal o =>
                match elements rest with
                | Throw e => Throw e
                | Normal parts => Normal (default "null" o :: parts)
                end
            end
        end in
      match elements items with
      | Throw e => Throw e
      | Normal parts => Normal (Some ("[" +:+ join "," parts +:+ "]"))
      end
  | JObj props =>
      let fix members (l : list (string * JsValue)) : Completion (list string) :=
        match l with
        | [] => Normal []
        | (k, x) :: rest =>
            match serializeJSONProperty x with
            | Throw e => Throw e
            | Normal o =>
                match members rest with
                | Throw e => Throw e
                | Normal parts =>
                    Normal (match o with
                            | Some text => (quoteJSONString k +:+ ":" +:+ text) :: parts
                            | None => parts
                            end)
                end
            end
        end in
      match members props with
      | Throw e => Throw e
      | Normal parts => Normal (Some ("{" +:+ join "," parts +:+ "}"))
      end
  end.

(** [JSON.stringify(v)]: a string, or [undefined] for [undefined]. *)
Definition JSON_stringify (v : JsValue) : Completion JsValue :=
  match serializeJSONProperty v with
  | Throw e => Throw e
  | Normal (Some text) => Normal (JStr text)
  | Normal None => Normal JUndefined
  end.

(** ** The content resolver *)

(** The type guard handed to [content.find]:
    [typeof c === "object" && c !== null && "type" in c && c.type === "text"
     && "text" in c], with the short circuits of [&&]. *)
Definition isTextContent (c : JsValue) : Completion bool :=
  if negb (String.eqb (typeof c) "object") then Normal false
  else match c with
       | JNull => Normal false
       | _ =>
           match js_in "type" c with
           | Throw e => Throw e
           | Normal false => Normal false
           | Normal true =>
               if negb (strict_eq_str (js_get c "type") "text") then Normal false
               else js_in "text" c
           end
       end.

(** [Array.prototype.find] with a callback that may throw. *)
Fixpoint array_find (p : JsValue -> Completion bool) (l : list JsValue)
  : Completion (option JsValue) :=
  match l with
  | [] => Normal None
  | c :: rest =>
      match p c with
      | Throw e => Throw e
      | Normal true => Normal (Some c)
      | Normal false => array_find p rest
      end
  end.

(** [resolveMessageContent(content)] *)
Definition resolveMessageContent (content : JsValue) : Completion JsValue :=
  if negb (truthy content) then Normal JNull
  else if String.eqb (typeof content) "string" then Normal content
  else match content with
       | JArr items =>
           if negb (Nat.eqb (length items) 0) then
             match array_find isTextContent items with
             | Throw e => Throw e
             | Normal textContent =>
                 Normal (nullish (match textContent with
                                  | Some c => js_get c "text"
                                  | None => JUndefined
                                  end) JNull)
             end
           else Normal JNull
       | _ => Normal JNull
       end.

(** ** Events of the execution engine *)

(** One entry of [chunk.tool_calls]. *)
Record ToolCall : Type := mkToolCall {
  tc_id : option string;
  tc_name : option string;
  tc_args : JsValue;
}.

(** The [AIMessageChunk] of a token delta. *)
Record AIMessageChunk : Type := mkChunk {
  chunk_id : option string;
  content : JsValue;
  tool_calls : option (list ToolCall);
  response_metadata : option (gmap string JsValue);
}.

(** A [StreamEvent]; [data_chunk] is [event.data?.chunk]. *)
Record StreamEvent : Type := mkEvent {
  event : string;
  run_id : string;
  metadata : option (gmap string JsValue);
  data_chunk : option AIMessageChunk;
}.

(** [record?.[key]] on an optional string-keyed record. *)
Definition opt_get (record : option (gmap string JsValue)) (key : string) : JsValue :=
  match record with
  | Some fields => default JUndefined (fields !! key)
  | None => JUndefined
  end.

(** ** Runtime events and the sink *)

Inductive RuntimeEvent : Type :=
| TextMessageStart (messageId : string)
| TextMessageContent (messageId : string) (text : JsValue)
| TextMessageEnd (messageId : string)
| ActionExecutionStart (actionExecutionId actionName : string)
                       (parentMessageId : option string)
| ActionExecutionArgs (actionExecutionId : string) (args : JsValue)
| ActionExecutionEnd (actionExecutionId : string)
| RunError (message code : string).

(** What the sink [eventStream$] has received, oldest first. *)
Inductive SinkSignal : Type :=
| SinkNext (e : RuntimeEvent)
| SinkComplete.

(** ** Stream state *)

(** [toolCallId] and [toolCallName] are [string | null | undefined]; the code
    only tests them for truthiness, so [None] stands for both absent values. *)
Record MessageInProgress : Type := mkMessageInProgress {
  mip_id : string;
  toolCallId : option string;
  toolCallName : option string;
}.

Record StreamState : Type := mkStreamState {
  runId : string;
  messagesInProgress : gmap string MessageInProgress;
  currentNodeName : JsValue;
  hasError : bool;
}.

(** The mutable objects one invocation works on: the stream state, the sink
    and the identifier generator. *)
Record Machine : Type := mkMachine {
  streamState : StreamState;
  sink : list SinkSignal;
  uuidSupply : nat -> N;
  uuidDrawn : nat;
}.

(** Code that reads and mutates the machine and returns or throws; what it
    did before throwing stays done. *)
Definition M (A : Type) : Type := Machine -> Completion A * Machine.

Definition ret {A} (a : A) : M A := fun m => (Normal a, m).

Definition bind {A B} (c : M A) (k : A -> M B) : M B :=
  fun m =>
    match c m with
    | (Normal a, m') => k a m'
    | (Throw e, m') => (Throw e, m')
    end.

Definition throw {A} (e : JsError) : M A := fun m => (Throw e, m).

Definition lift {A} (c : Completion A) : M A := fun m => (c, m).

Notation "x <~ c ;; k" := (bind c (fun x => k))
  (at level 100, c at next level, right associativity).
Notation "c ;;; k" := (bind c (fun _ => k))
  (at level 100, right associativity).

(** [try { body } catch (error) { handler }] *)
Definition try_catch {A} (body : M A) (handler : JsError -> M A) : M A :=
  fun m =>
    match body m with
    | (Normal a, m') => (Normal a, m')
    | (Throw e, m') => handler e m'
    end.

(** [try { body } finally { final }] *)
Definition try_finally {A} (body : M A) (final : M unit) : M A :=
  fun m =>
    match body m with
    | (outcome, m') =>
        match final m' with
        | (Normal _, m'') => (outcome, m'')
        | (Throw e, m'') => (Throw e, m'')
        end
    end.

Definition getState : M StreamState := fun m => (Normal (streamState m), m).

Definition putState (st : StreamState) : M unit :=
  fun m => (Normal tt, mkMachine st (sink m) (uuidSupply m) (uuidDrawn m)).

(** Modelled from the spec: the sink ([RuntimeEventSubject], declared in
    [service-adapters/events]) only has events appended to it and is
    completed; [next] records the event. *)
Definition eventStream_next (e : RuntimeEvent) : M unit :=
  fun m => (Normal tt,
            mkMachine (streamState m) (sink m ++ [SinkNext e]) (uuidSupply m) (uuidDrawn m)).

Definition eventStream_complete : M unit :=
  fun m => (Normal tt,
            mkMachine (streamState m) (sink m ++ [SinkComplete]) (uuidSupply m) (uuidDrawn m)).

Definition sendTextMessageStart (messageId : string) : M unit :=
  eventStream_next (TextMessageStart messageId).
Definition sendTextMessageContent (messageId : string) (text : JsValue) : M unit :=
  eventStream_next (TextMessageContent messageId text).
Definition sendTextMessageEnd (messageId : string) : M unit :=
  eventStream_next (TextMessageEnd messageId).
Definition sendActionExecutionStart (actionExecutionId actionName : string)
  (parentMessageId : option string) : M unit :=
  eventStream_next (ActionExecutionStart actionExecutionId actionName parentMessageId).
Definition sendActionExecutionArgs (actionExecutionId : string) (args : JsValue) : M unit :=
  eventStream_next (ActionExecutionArgs actionExecutionId args).
Definition sendActionExecutionEnd (actionExecutionId : string) : M unit :=
  eventStream_next (ActionExecutionEnd actionExecutionId).

(** The canonical 8-4-4-4-12 text of a 128-bit identifier. *)
Definition uuid_to_string (bits : N) : string :=
  hex_field 8 (bits / 2 ^ 96) +:+ "-" +:+ hex_field 4 (bits / 2 ^ 80) +:+ "-" +:+
  hex_field 4 (bits / 2 ^ 64) +:+ "-" +:+ hex_field 4 (bits / 2 ^ 48) +:+ "-" +:+
  hex_field 12 bits.

(** Modelled from the spec: [randomUUID] of [@copilotkit/shared] generates an
    identifier; the generator is outside the adapter, so each call takes the
    next value of the machine's supply. *)
Definition randomUUID : M string :=
  fun m => (Normal (uuid_to_string (uuidSupply m (uuidDrawn m))),
            mkMachine (streamState m) (sink m) (uuidSupply m) (S (uuidDrawn m))).

(** [id || randomUUID()]: the generator runs only when [id] is falsy. *)
Definition or_randomUUID (id : option string) : M string :=
  match id with
  | Some s => if negb (String.eqb s "") then ret s else randomUUID
  | None => randomUUID
  end.

(** What the adapter imports from [service-adapters/shared]. *)
Class Externals : Type := {
  convertServiceAdapterError : JsError -> string -> JsError;
}.

(** [START] of [@langchain/langgraph]. *)
Definition START : string := "__start__".

(** ** The handlers of [utils.ts] *)

(** [console.log] and friends: debug output is not part of the machine. *)
Definition console_log : M unit := ret tt.

Definition when (b : bool) (c : M unit) : M unit := if b then c else ret tt.

(** [createStreamState()] *)
Definition createStreamState : M StreamState :=
  id <~ randomUUID ;;
  ret (mkStreamState id ∅ JUndefined false).

(** [getMessageInProgress(runId, state)]: [state.messagesInProgress.get(runId)
    || null]; a stored entry is an object, hence truthy. *)
Definition getMessageInProgress (run : string) (state : StreamState)
  : option MessageInProgress :=
  messagesInProgress state !! run.

(** [setMessageInProgress(runId, message, state)] on the machine's state. *)
Definition setMessageInProgress (run : string) (message : MessageInProgress) : M unit :=
  state <~ getState ;;
  putState (mkStreamState (runId state)
              (<[run := message]> (messagesInProgress state))
              (currentNodeName state) (hasError state)).

(** [event.metadata?.["copilotkit:emit-messages"] ?? true] *)
Definition shouldEmitMessages (ev : StreamEvent) : JsValue :=
  nullish (opt_get (metadata ev) "copilotkit:emit-messages") (JBool true).

(** [event.metadata?.["copilotkit:emit-tool-calls"] ?? true] *)
Definition shouldEmitToolCalls (ev : StreamEvent) : JsValue :=
  nullish (opt_get (metadata ev) "copilotkit:emit-tool-calls") (JBool true).

(** The [if (toolCall && shouldEmitToolCalls) { ... }] block of
    [handleChatModelStream], run with [state] as read when [currentStream]
    was bound; the result says whether the block returned from the handler.
    Where a field is read under a guard that has just found it truthy,
    [default ""] only unwraps it. *)
Definition toolCallBlock (ev : StreamEvent) (chunk : AIMessageChunk) (state : StreamState)
  : M bool :=
  let currentStream := getMessageInProgress (runId state) state in
  let hasCurrentStream := truthy_str (mip_id <$> currentStream) in
  let toolCall := tool_calls chunk ≫= head in
  match toolCall with
  | Some toolCall =>
      if truthy (shouldEmitToolCalls ev) then
        if negb hasCurrentStream && truthy_str (tc_name toolCall) then
          (* Tool call start *)
          actionExecutionId <~ or_randomUUID (tc_id toolCall) ;;
          sendActionExecutionStart actionExecutionId
            (default "" (tc_name toolCall)) (chunk_id chunk) ;;;
          id <~ or_randomUUID (chunk_id chunk) ;;
          toolCallId <~ or_randomUUID (tc_id toolCall) ;;
          setMessageInProgress (runId state)
            (mkMessageInProgress id (Some toolCallId) (tc_name toolCall)) ;;;
          ret true
        else if hasCurrentStream
                && truthy_str (currentStream ≫= toolCallId)
                && truthy (tc_args toolCall) then
          (* Tool call args *)
          args <~ lift (JSON_stringify (tc_args toolCall)) ;;
          sendActionExecutionArgs (default "" (currentStream ≫= toolCallId)) args ;;;
          ret true
        else ret false
      else ret false
  | None => ret false
  end.

(** The rest of [handleChatModelStream], from [const messageContent =
    resolveMessageContent(chunk.content)] on. *)
Definition textBlock (ev : StreamEvent) (chunk : AIMessageChunk) (state : StreamState)
  : M unit :=
  let currentStream := getMessageInProgress (runId state) state in
  let hasCurrentStream := truthy_str (mip_id <$> currentStream) in
  messageContent <~ lift (resolveMessageContent (content chunk)) ;;
  if truthy messageContent && truthy (shouldEmitMessages ev) then
    currentStream <~
      (if negb hasCurrentStream || truthy_str (currentStream ≫= toolCallId) then
         messageId <~ or_randomUUID (chunk_id chunk) ;;
         sendTextMessageStart messageId ;;;
         setMessageInProgress (runId state) (mkMessageInProgress messageId None None) ;;;
         state <~ getState ;;
         ret (getMessageInProgress (runId state) state)
       else ret currentStream) ;;
    if truthy_str (mip_id <$> currentStream) then
      sendTextMessageContent (default "" (mip_id <$> currentStream)) messageContent
    else ret tt
  else ret tt.

(** [handleChatModelStream(event, eventStream$, streamState)] *)
Definition handleChatModelStream (ev : StreamEvent) : M unit :=
  match data_chunk ev with
  | None => ret tt
  | Some chunk =>
      (* Skip if finished *)
      if truthy (opt_get (response_metadata chunk) "finish_reason") then ret tt
      else
        state <~ getState ;;
        returned <~ toolCallBlock ev chunk state ;;
        if returned : bool then ret tt
        else textBlock ev chunk state
  end.

(** [handleChatModelEnd(eventStream$, streamState)] *)
Definition handleChatModelEnd : M unit :=
  state <~ getState ;;
  let currentStream := getMessageInProgress (runId state) state in
  (if truthy_str (currentStream ≫= toolCallId) then
     sendActionExecutionEnd (default "" (currentStream ≫= toolCallId))
   else if truthy_str (mip_id <$> currentStream) then
     sendTextMessageEnd (default "" (mip_id <$> currentStream))
   else ret tt) ;;;
  state <~ getState ;;
  putState (mkStreamState (runId state)
              (delete (runId state) (messagesInProgress state))
              (currentNodeName state) (hasError state)).

(** [handleChainStart(event, streamState)] *)
Definition handleChainStart (ev : StreamEvent) : M unit :=
  let node := opt_get (metadata ev) "langgraph_node" in
  if truthy node && negb (strict_eq_str node START) then
    state <~ getState ;;
    putState (mkStreamState (runId state) (messagesInProgress state) node (hasError state))
  else ret tt.

(** The [switch (event.event)] of [handleLangGraphEvent]. *)
Definition dispatch (ev : StreamEvent) (debug : bool) : M unit :=
  if String.eqb (event ev) "on_chat_model_stream" then handleChatModelStream ev
  else if String.eqb (event ev) "on_chat_model_end" then handleChatModelEnd
  else if String.eqb (event ev) "on_custom_event" then when debug console_log
  else if String.eqb (event ev) "on_chain_start" then handleChainStart ev
  else when debug console_log.

(** The [try] block of [handleLangGraphEvent]. *)
Definition handleLangGraphEvent_body (ev : StreamEvent) (debug : bool) : M unit :=
  when debug console_log ;;;
  state <~ getState ;;
  when (negb (truthy_str (Some (runId state))) && truthy_str (Some (run_id ev)))
    (putState (mkStreamState (run_id ev) (messagesInProgress state)
                 (currentNodeName state) (hasError state))) ;;;
  dispatch ev debug.

(** [handleLangGraphEvent(event, eventStream$, streamState, debug)] *)
Definition handleLangGraphEvent `{Externals} (ev : StreamEvent) (debug : bool) : M unit :=
  try_catch (handleLangGraphEvent_body ev debug)
    (fun error =>
       when debug console_log ;;;
       (* Use CopilotKit's standard error conversion *)
       let convertedError := convertServiceAdapterError error "LangGraph" in
       eventStream_next (RunError (error_message convertedError) "LANGGRAPH_EVENT_ERROR")).

(** ** The stream driver of [langgraph-adapter.ts] *)

(** What iterating [this.agent.streamEvents(input, config)] delivers: events,
    then the end of the stream or a failure of the stream itself (creating
    the stream may fail too, which is a source that fails at once). *)
Inductive EventSource : Type :=
| SourceEnd
| SourceFail (e : JsError)
| SourceYield (ev : StreamEvent) (rest : EventSource).

(** [for await (const event of eventStream) { ... handleLangGraphEvent ... }] *)
Fixpoint forAwait `{Externals} (eventStream : EventSource) (debug : bool) : M unit :=
  match eventStream with
  | SourceEnd => ret tt
  | SourceFail e => throw e
  | SourceYield ev rest =>
      handleLangGraphEvent ev debug ;;;
      forAwait rest debug
  end.

(** [processLangGraphStream(input, config, eventStream$)], with the agent's
    answer to [streamEvents(input, config)] as [eventStream]. *)
Definition processLangGraphStream `{Externals} (eventStream : EventSource) (debug : bool)
  : M unit :=
  when debug console_log ;;;
  streamState <~ createStreamState ;;
  putState streamState ;;;
  try_finally
    (try_catch
       (forAwait eventStream debug ;;;
        when debug console_log)
       (fun error =>
          when debug console_log ;;;
          throw (convertServiceAdapterError error "LangGraph")))
    eventStream_complete.

(** The runtime events a sink log holds, in order. *)
Definition emitted (log : list SinkSignal) : list RuntimeEvent :=
  omap (fun s => match s with SinkNext e => Some e | SinkComplete => None end) log.

(** The runtime events that running [c] from [m] appends to the sink. *)
Definition emittedBy {A} (c : M A) (m : Machine) : list RuntimeEvent :=
  emitted (drop (length (sink m)) (sink (snd (c m)))).

(** ** Vocabulary of the properties *)

(** What the type guard of [find] decides: an object whose [type] is "text"
    and which has a [text] property. *)
Definition is_text_block (c : JsValue) : bool :=
  match c with
  | JObj props =>
      match assoc "type" props, assoc "text" props with
      | Some (JStr t), Some _ => String.eqb t "text"
      | _, _ => false
      end
  | _ => false
  end.



(** The kind of an entry of the run state table, as the handlers tell it:
    a truthy [toolCallId] makes a tool-call unit, otherwise a truthy [id]
    makes a text unit. *)
Definition isToolCallUnit (unit : MessageInProgress) : bool :=
  truthy_str (toolCallId unit).

Definition isTextUnit (unit : MessageInProgress) : bool :=
  negb (truthy_str (toolCallId unit)) && truthy_str (Some (mip_id unit)).

(** The open unit of the machine's run. *)
Definition currentUnit (m : Machine) : option MessageInProgress :=
  getMessageInProgress (runId (streamState m)) (streamState m).

(** [hasCurrentStream] of [handleChatModelStream]. *)
Definition unitOpen (m : Machine) : bool :=
  truthy_str (mip_id <$> currentUnit m).

Definition isActionExecution (e : RuntimeEvent) : bool :=
  match e with
  | ActionExecutionStart _ _ _ | ActionExecutionArgs _ _ | ActionExecutionEnd _ => true
  | _ => false
  end.

(** The machine after the table of its stream state is replaced. *)
Definition withTable (table : gmap string MessageInProgress) (m : Machine) : Machine :=
  mkMachine
    (mkStreamState (runId (streamState m)) table
       (currentNodeName (streamState m)) (hasError (streamState m)))
    (sink m) (uuidSupply m) (uuidDrawn m).

(** The machine after runtime events are appended to its sink. *)
Definition withEmitted (events : list RuntimeEvent) (m : Machine) : Machine :=
  mkMachine (streamState m) (sink m ++ map SinkNext events) (uuidSupply m) (uuidDrawn m).

(** The machine after [n] more identifiers were generated. *)
Definition withDrawn (n : nat) (m : Machine) : Machine :=
  mkMachine (streamState m) (sink m) (uuidSupply m) (n + uuidDrawn m).

(** The [k]-th identifier the generator hands out from [m] on. *)
Definition nextUUID (k : nat) (m : Machine) : string :=
  uuid_to_string (uuidSupply m (k + uuidDrawn m)).

(** What [content] resolves to. *)
Definition resolvedText (content : JsValue) : JsValue :=
  match content with
  | JStr s => if String.eqb s "" then JNull else JStr s
  | JArr items =>
      match find is_text_block items with
      | Some block => nullish (js_get block "text") JNull
      | None => JNull
      end
  | _ => JNull
  end.

(** [id || randomUUID()] when [k] identifiers were generated since [m]. *)
Definition idOr (id : option string) (k : nat) (m : Machine) : string :=
  if truthy_str id then default "" id else nextUUID k m.

(** How many identifiers [id || randomUUID()] generates. *)
Definition drawnFor (id : option string) : nat :=
  if truthy_str id then 0 else 1.

(** [chunk.tool_calls?.[0]] *)
Definition toolCallOf (chunk : AIMessageChunk) : option ToolCall :=
  tool_calls chunk ≫= head.

(** The delta starts a tool call: a named descriptor, tool-call emission on,
    no unit open. *)
Definition startsToolCall (ev : StreamEvent) (toolCall : ToolCall) (m : Machine) : bool :=
  truthy (shouldEmitToolCalls ev) && (negb (unitOpen m) && truthy_str (tc_name toolCall)).

(** The delta streams arguments of the open tool call. *)
Definition streamsToolArgs (ev : StreamEvent) (toolCall : ToolCall) (m : Machine) : bool :=
  truthy (shouldEmitToolCalls ev)
  && (unitOpen m && truthy_str (currentUnit m ≫= toolCallId) && truthy (tc_args toolCall)).

(** The delta carries argument data the tool-call block will stream: a
    first tool call with truthy [args], tool-call emission on. *)
Definition carriesArguments (ev : StreamEvent) (chunk : AIMessageChunk) : bool :=
  match toolCallOf chunk with
  | Some toolCall => truthy (shouldEmitToolCalls ev) && truthy (tc_args toolCall)
  | None => false
  end.

(** The machine after a tool call was started. *)
Definition toolCallStarted (toolCall : ToolCall) (chunk : AIMessageChunk) (m : Machine)
  : Machine :=
  let viaCall := drawnFor (tc_id toolCall) in
  let viaChunk := drawnFor (chunk_id chunk) in
  withTable
    (<[runId (streamState m) :=
         mkMessageInProgress (idOr (chunk_id chunk) viaCall m)
           (Some (idOr (tc_id toolCall) (viaCall + viaChunk) m))
           (tc_name toolCall)]> (messagesInProgress (streamState m)))
    (withEmitted
       [ActionExecutionStart (idOr (tc_id toolCall) 0 m)
          (default "" (tc_name toolCall)) (chunk_id chunk)]
       (withDrawn (viaCall + viaChunk + viaCall) m)).

(** The machine after a text message was started and got its first content. *)
Definition textMessageStarted (text : JsValue) (chunk : AIMessageChunk) (m : Machine)
  : Machine :=
  let messageId := idOr (chunk_id chunk) 0 m in
  withTable
    (<[runId (streamState m) := mkMessageInProgress messageId None None]>
       (messagesInProgress (streamState m)))
    (withEmitted [TextMessageStart messageId; TextMessageContent messageId text]
       (withDrawn (drawnFor (chunk_id chunk)) m)).

(** A token delta with plain string content [text], no tool-call descriptor,
    no finish marker, and message emission enabled. *)
Definition isPlainTextDelta (ev : StreamEvent) (text : string) : bool :=
  match data_chunk ev with
  | Some chunk =>
      strict_eq_str (content chunk) text
      && match toolCallOf chunk with Some _ => false | None => true end
      && negb (truthy (opt_get (response_metadata chunk) "finish_reason"))
      && truthy (shouldEmitMessages ev)
  | None => false
  end.

(** What a generation-end event emits for the open unit [unit]. *)
Definition closingEvents (unit : option MessageInProgress) : list RuntimeEvent :=
  match unit with
  | Some unit =>
      if isToolCallUnit unit then [ActionExecutionEnd (default "" (toolCallId unit))]
      else if isTextUnit unit then [TextMessageEnd (mip_id unit)]
      else []
  | None => []
  end.

(** ** The lifecycle of the open unit, as a transition system

    What one handled event does to the open unit of the run, with the
    runtime events it emits. *)
Inductive HandlerStep :
  option MessageInProgress -> list RuntimeEvent -> option MessageInProgress -> Prop :=
| step_idle unit :
    HandlerStep unit [] unit
| step_tool_start unit eventId name parent entry :
    truthy_str (mip_id <$> unit) = false ->
    isToolCallUnit entry = true ->
    truthy_str (Some (mip_id entry)) = true ->
    HandlerStep unit [ActionExecutionStart eventId name parent] (Some entry)
| step_tool_args unit args :
    truthy_str (mip_id <$> unit) = true ->
    truthy_str (unit ≫= toolCallId) = true ->
    HandlerStep unit [ActionExecutionArgs (default "" (unit ≫= toolCallId)) args] unit
| step_text_start unit messageId text :
    negb (truthy_str (mip_id <$> unit)) || truthy_str (unit ≫= toolCallId) = true ->
    truthy_str (Some messageId) = true ->
    HandlerStep unit
      [TextMessageStart messageId; TextMessageContent messageId text]
      (Some (mkMessageInProgress messageId None None))
| step_text_content unit text :
    truthy_str (mip_id <$> unit) = true ->
    truthy_str (unit ≫= toolCallId) = false ->
    HandlerStep unit [TextMessageContent (default "" (mip_id <$> unit)) text] unit
| step_close unit :
    HandlerStep unit (closingEvents unit) None.

(** The machine after [handleLangGraphEvent] has adopted the event's run id,
    which it does when the state has none. *)
Definition adoptRunId (ev : StreamEvent) (m : Machine) : Machine :=
  if negb (truthy_str (Some (runId (streamState m)))) && truthy_str (Some (run_id ev)) then
    mkMachine
      (mkStreamState (run_id ev) (messagesInProgress (streamState m))
         (currentNodeName (streamState m)) (hasError (streamState m)))
      (sink m) (uuidSupply m) (uuidDrawn m)
  else m.

(** How the source stream ends: [None] for a normal end. *)
Fixpoint sourceFailure (eventStream : EventSource) : option JsError :=
  match eventStream with
  | SourceEnd => None
  | SourceFail e => Some e
  | SourceYield _ rest => sourceFailure rest
  end.

(** How often the sink was completed. *)
Definition completions (log : list SinkSignal) : nat :=
  length (List.filter (fun s => match s with SinkComplete => true | SinkNext _ => false end) log).

(** Reading a trace with the text message that is open, if any: a
    TextMessageStart must find none open, a TextMessageEnd closes the open
    one and must carry its id.  [None] when the trace breaks that. *)
Fixpoint scanText (open : option string) (trace : list RuntimeEvent)
  : option (option string) :=
  match trace with
  | [] => Some open
  | TextMessageStart messageId :: rest =>
      match open with
      | Some _ => None
      | None => scanText (Some messageId) rest
      end
  | TextMessageEnd messageId :: rest =>
      match open with
      | Some openId => if String.eqb openId messageId then scanText None rest else None
      | None => scanText None rest
      end
  | _ :: rest => scanText open rest
  end.

(** What a handler did when it returned, what when it threw. *)
Definition HandlerOutcome {A} (m : Machine) (result : Completion A * Machine) : Prop :=
  match result with
  | (Normal _, m') =>
      exists evs : list RuntimeEvent,
        sink m' = sink m ++ map SinkNext evs
        /\ runId (streamState m') = runId (streamState m)
        /\ HandlerStep (currentUnit m) evs (currentUnit m')
  | (Throw _, m') => m' = m
  end.

(** The open text message a reading of the trace tracks is the open unit. *)
Definition tracksUnit (open : option string) (unit : option MessageInProgress) : Prop :=
  match open with
  | Some messageId =>
      exists entry, unit = Some entry /\ isTextUnit entry = true /\ mip_id entry = messageId
  | None => True
  end.

(** The error event [handleLangGraphEvent] reports for a caught [error]. *)
Definition runErrorFor `{Externals} (error : JsError) : RuntimeEvent :=
  RunError (error_message (convertServiceAdapterError error "LangGraph"))
    "LANGGRAPH_EVENT_ERROR".

(** ** Sample inputs *)

Definition sampleExternals : Externals :=
  {| convertServiceAdapterError error adapter :=
       mkError "CopilotKitLowLevelError" (adapter +:+ ": " +:+ error_message error) |}.

(** A machine in its first run, nothing open, nothing emitted; the generator
    hands out 0, 1, 2, ... *)
Definition sampleMachine : Machine :=
  mkMachine (mkStreamState "run-1" ∅ JUndefined false) [] N.of_nat 0.

Definition tokenDelta (chunk : AIMessageChunk) : StreamEvent :=
  mkEvent "on_chat_model_stream" "run-1" None (Some chunk).

Definition textDelta (text : string) : StreamEvent :=
  tokenDelta (mkChunk None (JStr text) None None).

Definition toolCallDelta (toolCall : ToolCall) : StreamEvent :=
  tokenDelta (mkChunk None (JStr "") (Some [toolCall]) None).

Definition generationEnd : StreamEvent :=
  mkEvent "on_chat_model_end" "run-1" None None.

(** The text [{"query":"cats"}]. *)
Definition json_query_cats : string :=
  "{" +:+ String dquote "query" +:+ String dquote ":"
  +:+ String dquote "cats" +:+ String dquote "}".

Definition argsQueryCats : JsValue := JObj [("query", JStr "cats")].

Definition suppressedToolCallDelta : StreamEvent :=
  mkEvent "on_chat_model_stream" "run-1"
    (Some {[ "copilotkit:emit-tool-calls" := JBool false ]})
    (Some (mkChunk None (JStr "")
             (Some [mkToolCall (Some "call_1") (Some "search") argsQueryCats]) None)).

(** A machine whose run has a tool-call unit open. *)
Definition toolUnitMachine : Machine :=
  mkMachine
    (mkStreamState "run-1"
       {[ "run-1" := mkMessageInProgress "msg-1" (Some "call_1") (Some "search") ]}
       JUndefined false)
    [] N.of_nat 0.

(** A machine whose run has a text unit open. *)
Definition textUnitMachine : Machine :=
  mkMachine
    (mkStreamState "run-1" {[ "run-1" := mkMessageInProgress "msg-1" None None ]}
       JUndefined false)
    [] N.of_nat 0.

(** Text content together with argument data of the open tool call. *)
Definition textWithArgsDelta : StreamEvent :=
  tokenDelta (mkChunk None (JStr "hi") (Some [mkToolCall None None argsQueryCats]) None).

(** Text content on the delta that carries the finish marker. *)
Definition finishedTextDelta : StreamEvent :=
  tokenDelta (mkChunk None (JStr "hi") None (Some {[ "finish_reason" := JStr "stop" ]})).

(** Argument data [JSON.stringify] cannot serialize. *)
Definition bigIntArgsDelta : StreamEvent :=
  toolCallDelta (mkToolCall None None (JObj [("limit", JBigInt 10)])).

(** Two text messages, one after the other. *)
Definition twoMessagesSource : EventSource :=
  SourceYield (textDelta "a")
    (SourceYield generationEnd (SourceYield (textDelta "b") SourceEnd)).

(** ** Vocabulary of the further properties *)

(** What a handler may touch: it keeps the run id, the error flag and the
    generator's supply, only draws further identifiers, only appends runtime
    events to the sink, and leaves the entries of other runs alone. *)
Definition Footprint (m m' : Machine) : Prop :=
  runId (streamState m') = runId (streamState m)
  /\ hasError (streamState m') = hasError (streamState m)
  /\ uuidSupply m' = uuidSupply m
  /\ uuidDrawn m <= uuidDrawn m'
  /\ (exists evs : list RuntimeEvent, sink m' = sink m ++ map SinkNext evs)
  /\ (forall key : string,
        key <> runId (streamState m) ->
        messagesInProgress (streamState m') !! key
        = messagesInProgress (streamState m) !! key).

(** The node name a chain-start event records: [handleLangGraphEvent]
    reaches [handleChainStart] for the discriminant "on_chain_start", and
    that records a truthy [langgraph_node] other than [START]. *)
Definition recordsNode (ev : StreamEvent) : option JsValue :=
  let node := opt_get (metadata ev) "langgraph_node" in
  if String.eqb (event ev) "on_chain_start"
     && (truthy node && negb (strict_eq_str node START))
  then Some node else None.

(** A source that delivers [evs] and goes on as [tail]. *)
Fixpoint yieldAll (evs : list StreamEvent) (tail : EventSource) : EventSource :=
  match evs with
  | [] => tail
  | ev :: rest => SourceYield ev (yieldAll rest tail)
  end.

(** The end of a source, normal or not. *)
Definition isSourceEnd (eventStream : EventSource) : bool :=
  match eventStream with
  | SourceYield _ _ => false
  | _ => true
  end.

(** The discriminants with a unit lifecycle handler. *)
Definition isLifecycleEvent (ev : StreamEvent) : bool :=
  String.eqb (event ev) "on_chat_model_stream" || String.eqb (event ev) "on_chat_model_end".

(** The machine with another node name recorded. *)
Definition withNode (node : JsValue) (m : Machine) : Machine :=
  mkMachine
    (mkStreamState (runId (streamState m)) (messagesInProgress (streamState m))
       node (hasError (streamState m)))
    (sink m) (uuidSupply m) (uuidDrawn m).

(** A chain-start event on the node [name]. *)
Definition chainStart (name : string) : StreamEvent :=
  mkEvent "on_chain_start" "run-1" (Some {[ "langgraph_node" := JStr name ]}) None.

(** An event of the engine that the adapter has no handler for. *)
Definition customEvent : StreamEvent :=
  mkEvent "on_custom_event" "run-7" None None.

(** A machine whose stream state has no run id yet, with a unit of another
    run in its table. *)
Definition unsetRunMachine : Machine :=
  mkMachine
    (mkStreamState ""
       {[ "run-0" := mkMessageInProgress "msg-0" None None ]} JUndefined false)
    [] N.of_nat 0.

(** The stream state in which [processLangGraphStream] starts its loop. *)
Definition freshStart (m : Machine) : Machine :=
  mkMachine (mkStreamState (nextUUID 0 m) ∅ JUndefined false)
    (sink m) (uuidSupply m) (S (uuidDrawn m)).

(** An event that carries no run id. *)
Definition hasNoRunId (ev : StreamEvent) : bool := String.eqb (run_id ev) "".

(** ** Reading traces

    A reader of a trace steps through the runtime events with a state of
    its own and stops with [None] at an event it does not accept. *)
Fixpoint scanWith {S : Type} (step : S -> RuntimeEvent -> option S) (s : S)
  (trace : list RuntimeEvent) : option S :=
  match trace with
  | [] => Some s
  | e :: rest =>
      match step s e with
      | Some s' => scanWith step s' rest
      | None => None
      end
  end.

(** The id of the open unit when it is a text unit. *)
Definition textIdOf (unit : option MessageInProgress) : option string :=
  match unit with
  | Some entry => if isTextUnit entry then Some (mip_id entry) else None
  | None => None
  end.

(** The reader of text messages: a message starts when none is open; content
    and end belong to the open message; no tool-call event comes while a
    message is open. *)
Definition textStep (open : option string) (e : RuntimeEvent) : option (option string) :=
  match e with
  | TextMessageStart messageId =>
      match open with
      | Some _ => None
      | None => Some (Some messageId)
      end
  | TextMessageContent messageId _ =>
      match open with
      | Some openId => if String.eqb openId messageId then Some open else None
      | None => None
      end
  | TextMessageEnd messageId =>
      match open with
      | Some openId => if String.eqb openId messageId then Some None else None
      | None => None
      end
  | ActionExecutionStart _ _ _ | ActionExecutionArgs _ _ | ActionExecutionEnd _ =>
      match open with
      | Some _ => None
      | None => Some None
      end
  | RunError _ _ => Some open
  end.

(** What may lie between the start of the text message [messageId] and a
    later event of it: its content and error reports. *)
Definition insideTextMessage (messageId : string) (e : RuntimeEvent) : bool :=
  match e with
  | TextMessageContent id _ => String.eqb messageId id
  | RunError _ _ => true
  | _ => false
  end.

(** The message a content or end event belongs to. *)
Definition textMessageOf (e : RuntimeEvent) : option string :=
  match e with
  | TextMessageContent messageId _ | TextMessageEnd messageId => Some messageId
  | _ => None
  end.

(** The reader of units: a tool call starts only when no unit is open. *)
Definition unitStep (open : bool) (e : RuntimeEvent) : option bool :=
  match e with
  | ActionExecutionStart _ _ _ => if open then None else Some true
  | TextMessageStart _ => Some true
  | TextMessageEnd _ | ActionExecutionEnd _ => Some false
  | _ => Some open
  end.

Definition isEnd (e : RuntimeEvent) : bool :=
  match e with
  | TextMessageEnd _ | ActionExecutionEnd _ => true
  | _ => false
  end.

(** The reader of call ids: arguments and end of one tool call carry one
    id; a start or an end of any unit makes the id unknown again. *)
Definition callStep (known : option string) (e : RuntimeEvent) : option (option string) :=
  match e with
  | ActionExecutionArgs callId _ =>
      match known with
      | Some knownId => if String.eqb knownId callId then Some (Some callId) else None
      | None => Some (Some callId)
      end
  | ActionExecutionEnd callId =>
      match known with
      | Some knownId => if String.eqb knownId callId then Some None else None
      | None => Some None
      end
  | ActionExecutionStart _ _ _ | TextMessageStart _ | TextMessageEnd _ => Some None
  | _ => Some known
  end.

(** A start or an end of a unit. *)
Definition isBoundary (e : RuntimeEvent) : bool :=
  match e with
  | TextMessageStart _ | TextMessageEnd _
  | ActionExecutionStart _ _ _ | ActionExecutionEnd _ => true
  | _ => false
  end.

(** The call id of an arguments or end event. *)
Definition callIdOf (e : RuntimeEvent) : option string :=
  match e with
  | ActionExecutionArgs callId _ | ActionExecutionEnd callId => Some callId
  | _ => None
  end.

(** Three text messages' worth of events interleaved with a tool call:
    text, end, tool call with arguments twice, end, text. *)
Definition mixedSource : EventSource :=
  yieldAll
    [textDelta "a"; textDelta "b"; generationEnd;
     toolCallDelta (mkToolCall None (Some "search") (JObj []));
     toolCallDelta (mkToolCall None (Some "search") argsQueryCats);
     toolCallDelta (mkToolCall None (Some "search") argsQueryCats);
     generationEnd;
     toolCallDelta (mkToolCall (Some "call_2") (Some "lookup") (JObj []));
     generationEnd]
    SourceEnd.

(** A token delta that carries nothing to emit: no chunk, or the finish
    marker, or no tool-call descriptor and content that resolves to nothing
    truthy. *)
Definition carriesNothing (ev : StreamEvent) : bool :=
  match data_chunk ev with
  | None => true
  | Some chunk =>
      truthy (opt_get (response_metadata chunk) "finish_reason")
      || (match toolCallOf chunk with Some _ => false | None => true end
          && match resolveMessageContent (content chunk) with
             | Normal text => negb (truthy text)
             | Throw _ => false
             end)
  end.

Definition isTextMessage (e : RuntimeEvent) : bool :=
  match e with
  | TextMessageStart _ | TextMessageContent _ _ | TextMessageEnd _ => true
  | _ => false
  end.

Definition nonEmpty (s : string) : bool := negb (String.eqb s "").

(** What the consumer of the sink can rely on for a single event: ids are
    not empty, a started action has a name, arguments are a JSON text,
    content is truthy, and an error has the adapter's code. *)
Definition wellFormedEvent (e : RuntimeEvent) : bool :=
  match e with
  | TextMessageStart messageId | TextMessageEnd messageId => nonEmpty messageId
  | TextMessageContent messageId text => nonEmpty messageId && truthy text
  | ActionExecutionStart callId name _ => nonEmpty callId && nonEmpty name
  | ActionExecutionArgs callId args =>
      nonEmpty callId && match args with JStr _ => true | _ => false end
  | ActionExecutionEnd callId => nonEmpty callId
  | RunError _ code => String.eqb code "LANGGRAPH_EVENT_ERROR"
  end.

(** A delta with message emission switched off. *)
Definition mutedTextDelta : StreamEvent :=
  mkEvent "on_chat_model_stream" "run-1"
    (Some {[ "copilotkit:emit-messages" := JBool false ]})
    (Some (mkChunk None (JStr "hidden") None None)).

(** ** The adapter of [langgraph-adapter.ts] and the input conversion *)

(** What the adapter takes from LangChain and from
    [service-adapters/langchain/utils]: the message and tool types, the two
    converters (which may return [undefined], here [None], and may throw),
    and [isSystemMessage] with the [content] of a message. *)
Class LangChain : Type := {
  Message : Type;
  ActionInput : Type;
  BaseMessage : Type;
  DynamicStructuredTool : Type;
  convertMessageToLangChainMessage : Message -> Completion (option BaseMessage);
  convertActionInputToLangChainTool : ActionInput -> Completion (option DynamicStructuredTool);
  isSystemMessage : BaseMessage -> bool;
  message_content : BaseMessage -> JsValue;
}.

(** Sequencing of code that only returns or throws. *)
Definition andThen {A B} (c : Completion A) (k : A -> Completion B) : Completion B :=
  match c with
  | Normal a => k a
  | Throw e => Throw e
  end.

(** [try { body } catch (error) { handler }] for such code. *)
Definition catching {A} (body : Completion A) (handler : JsError -> Completion A)
  : Completion A :=
  match body with
  | Normal a => Normal a
  | Throw e => handler e
  end.

(** [array.length] on an array that may be [null] (here [None]), as the
    tests pass it. *)
Definition array_length {A} (array : option (list A)) : Completion nat :=
  match array with
  | Some items => Normal (length items)
  | None => Throw (TypeError "Cannot read properties of null (reading 'length')")
  end.

(** [items.map(f)]: [f] runs on the elements in order; the first throw ends
    the loop. *)
Fixpoint map_each {A B} (f : A -> Completion B) (items : list A) : Completion (list B) :=
  match items with
  | [] => Normal []
  | x :: rest =>
      andThen (f x) (fun y =>
      andThen (map_each f rest) (fun ys => Normal (y :: ys)))
  end.

(** [array.map(f)] on an array that may be [null]. *)
Definition array_map {A B} (f : A -> Completion B) (array : option (list A))
  : Completion (list B) :=
  match array with
  | Some items => map_each f items
  | None => Throw (TypeError "Cannot read properties of null (reading 'map')")
  end.

(** [.filter((x) => x !== undefined)] *)
Definition filter_defined {A} (items : list (option A)) : list A := omap id items.

(** [LangGraphInput] *)
Record LangGraphInput `{LangChain} : Type := mkLangGraphInput {
  input_messages : list BaseMessage;
  input_tools : list DynamicStructuredTool;
}.
Arguments mkLangGraphInput {_} _ _.

(** [convertCopilotKitToLangGraphInput({ messages, actions, debug })] *)
Definition convertCopilotKitToLangGraphInput `{Externals} `{LangChain}
  (messages : option (list Message)) (actions : option (list ActionInput)) (debug : bool)
  : Completion LangGraphInput :=
  andThen
    (if debug then
       (* console.log(..., messages.length, ..., actions.length, ...) *)
       andThen (array_length messages) (fun _ =>
       andThen (array_length actions) (fun _ => Normal tt))
     else Normal tt)
    (fun _ =>
       catching
         (andThen (array_map convertMessageToLangChainMessage messages) (fun converted =>
          let convertedMessages := filter_defined converted in
          let langChainMessages := convertedMessages in
          andThen (array_map convertActionInputToLangChainTool actions) (fun convertedTools =>
          let tools := filter_defined convertedTools in
          Normal (mkLangGraphInput langChainMessages tools))))
         (fun error =>
            (* Use CopilotKit's standard error conversion for input conversion errors *)
            Throw (convertServiceAdapterError error "LangGraph"))).

Inductive SystemPromptStrategy : Type := passthrough | inject.

(** The stream config [{ version: "v2", configurable? }], with
    [configurable.copilotkit_instructions] when it is set. *)
Record StreamConfig : Type := mkStreamConfig {
  version : string;
  copilotkit_instructions : option JsValue;
}.

(** The adapter: its agent, as the events [agent.streamEvents(input, config)]
    delivers, and its two settings. *)
Record LangGraphServiceAdapter `{LangChain} : Type := mkAdapter {
  agent : LangGraphInput -> StreamConfig -> EventSource;
  adapter_debug : bool;
  systemPromptStrategy : SystemPromptStrategy;
}.
Arguments mkAdapter {_} _ _ _.

(** [LangGraphServiceAdapterConfig] *)
Record LangGraphServiceAdapterConfig `{LangChain} : Type := mkAdapterConfig {
  config_agent : LangGraphInput -> StreamConfig -> EventSource;
  config_debug : option bool;
  config_systemPromptStrategy : option SystemPromptStrategy;
}.
Arguments mkAdapterConfig {_} _ _ _.

(** [new LangGraphServiceAdapter(config)] *)
Definition newLangGraphServiceAdapter `{LangChain} (config : LangGraphServiceAdapterConfig)
  : LangGraphServiceAdapter :=
  mkAdapter (config_agent config)
    (default false (config_debug config))
    (default passthrough (config_systemPromptStrategy config)).

(** The fields of [CopilotRuntimeChatCompletionRequest] that [process]
    reads, without the event source. *)
Record ChatCompletionRequest `{LangChain} : Type := mkRequest {
  request_messages : option (list Message);
  request_actions : option (list ActionInput);
  request_threadId : option string;
  request_runId : option string;
}.
Arguments mkRequest {_} _ _ _ _.

(** [CopilotRuntimeChatCompletionResponse] *)
Record ChatCompletionResponse : Type := mkResponse {
  response_threadId : string;
  response_runId : option string;
}.

(** The [filter] callback loop of the "inject" strategy, with the variable
    [copilotkitInstructions] it assigns: the messages kept and the final
    value of the variable. *)
Fixpoint filterSystemMessages `{LangChain} (copilotkitInstructions : JsValue)
  (messages : list BaseMessage) : list BaseMessage * JsValue :=
  match messages with
  | [] => ([], copilotkitInstructions)
  | msg :: rest =>
      if isSystemMessage msg then
        (* copilotkitInstructions = msg.content; return false *)
        filterSystemMessages (message_content msg) rest
      else
        let (kept, instructions) := filterSystemMessages copilotkitInstructions rest in
        (msg :: kept, instructions)
  end.

(** What a successful [process] leaves behind: its response, and the input
    and config that the callback handed to [eventSource.stream] closes
    over. *)
Record ProcessOutcome `{LangChain} : Type := mkOutcome {
  response : ChatCompletionResponse;
  streamInput : LangGraphInput;
  streamConfig : StreamConfig;
}.
Arguments mkOutcome {_} _ _ _.

(** [process(request)].  Modelled from the spec: [eventSource.stream]
    (declared in [service-adapters/events]) takes the callback and runs it
    later, when the sink exists; the model returns what the callback will
    run on. *)
Definition process `{Externals} `{LangChain}
  (adapter : LangGraphServiceAdapter) (request : ChatCompletionRequest) : M ProcessOutcome :=
  try_catch
    ((* First, convert the entire input to LangChain format. *)
     langGraphInput <~ lift (convertCopilotKitToLangGraphInput
                               (request_messages request) (request_actions request)
                               (adapter_debug adapter)) ;;
     (* Decide which strategy to use for handling the system prompt. *)
     prepared <~
       match systemPromptStrategy adapter with
       | inject =>
           let (filteredMessages, copilotkitInstructions) :=
             filterSystemMessages (JStr "") (input_messages langGraphInput) in
           when (adapter_debug adapter) console_log ;;;
           ret (mkLangGraphInput filteredMessages (input_tools langGraphInput),
                mkStreamConfig "v2" (Some copilotkitInstructions))
       | passthrough =>
           when (adapter_debug adapter) console_log ;;;
           ret (langGraphInput, mkStreamConfig "v2" None)
       end ;;
     (* Process event stream: eventSource.stream(callback) *)
     threadId <~ or_randomUUID (request_threadId request) ;;
     ret (mkOutcome (mkResponse threadId (request_runId request))
            (fst prepared) (snd prepared)))
    (fun error => throw (convertServiceAdapterError error "LangGraph")).

(** The callback [process] hands to [eventSource.stream], run on the sink. *)
Definition streamCallback `{Externals} `{LangChain}
  (adapter : LangGraphServiceAdapter) (outcome : ProcessOutcome) : M unit :=
  processLangGraphStream (agent adapter (streamInput outcome) (streamConfig outcome))
    (adapter_debug adapter).

(** The content of the last system message, the empty string without one. *)
Definition lastSystemContent `{LangChain} (messages : list BaseMessage) : JsValue :=
  match find isSystemMessage (rev messages) with
  | Some msg => message_content msg
  | None => JStr ""
  end.

(** The conversion of one message when it returns. *)
Definition convertedMessage `{LangChain} (msg : Message) : option BaseMessage :=
  match convertMessageToLangChainMessage msg with
  | Normal converted => converted
  | Throw _ => None
  end.

Definition convertedTool `{LangChain} (action : ActionInput) : option DynamicStructuredTool :=
  match convertActionInputToLangChainTool action with
  | Normal converted => converted
  | Throw _ => None
  end.

Definition returnsNormally {A} (c : Completion A) : bool :=
  match c with
  | Normal _ => true
  | Throw _ => false
  end.

(** ** Sample messages *)

(** Messages as a role and a text; an empty role is a message the converter
    does not know (it returns [undefined]), the role "broken" one it throws
    on.  Actions are their names. *)
Definition sampleLangChain : LangChain :=
  {| Message := string * string;
     ActionInput := string;
     BaseMessage := string * string;
     DynamicStructuredTool := string;
     convertMessageToLangChainMessage msg :=
       if String.eqb (fst msg) "" then Normal None
       else if String.eqb (fst msg) "broken" then Throw (mkError "Error" "Unknown message")
       else Normal (Some msg);
     convertActionInputToLangChainTool action := Normal (Some action);
     isSystemMessage msg := String.eqb (fst msg) "system";
     message_content msg := JStr (snd msg) |}.

Definition sampleAdapter (strategy : SystemPromptStrategy)
  : @LangGraphServiceAdapter sampleLangChain :=
  @mkAdapter sampleLangChain (fun _ _ => twoMessagesSource) false strategy.

Definition sampleRequest : @ChatCompletionRequest sampleLangChain :=
  @mkRequest sampleLangChain
    (Some [("system", "Be brief."); ("user", "Hello"); ("", "?");
           ("system", "Be kind."); ("user", "Bye")])
    (Some ["search"]) None (Some "client-run").

Definition brokenRequest : @ChatCompletionRequest sampleLangChain :=
  @mkRequest sampleLangChain
    (Some [("user", "Hello"); ("broken", "?"); ("user", "Bye")])
    (Some ["search"]) (Some "thread-1") None.

(** ** Results *)

(** ** The content resolver *)

Lemma isTextContent_total (c : JsValue) : isTextContent c = Normal (is_text_block c).
Proof.
  destruct c as [| |b|z|z|s|items|props]; try reflexivity.
  unfold isTextContent, is_text_block; cbn.
  destruct (assoc "type" props) as [t|] eqn:Ht; cbn; [|reflexivity].
  destruct t; cbn; try reflexivity.
  destruct (String.eqb s "text"); cbn; destruct (assoc "text" props); reflexivity.
Qed.

Lemma array_find_total (items : list JsValue) :
  array_find isTextContent items = Normal (find is_text_block items).
Proof.
  induction items as [|c rest IH]; [reflexivity|].
  cbn [array_find find]. rewrite isTextContent_total.
  destruct (is_text_block c); [reflexivity|exact IH].
Qed.

(** The resolver in closed form: it always returns, and what. *)
Lemma resolveMessageContent_run (content : JsValue) :
  resolveMessageContent content = Normal (resolvedText content).
Proof.
  destruct content as [| |b|z|z|s|items|props]; try reflexivity.
  - unfold resolveMessageContent; cbn. destruct b; reflexivity.
  - unfold resolveMessageContent; cbn. destruct (Z.eqb z 0); reflexivity.
  - unfold resolveMessageContent; cbn. destruct (Z.eqb z 0); reflexivity.
  - unfold resolveMessageContent; cbn. destruct (String.eqb s ""); reflexivity.
  - unfold resolveMessageContent, resolvedText; cbn [truthy negb typeof].
    destruct items as [|c rest]; [reflexivity|].
    change (String.eqb "object" "string") with false; cbn [length Nat.eqb negb].
    rewrite array_find_total. destruct (find is_text_block (c :: rest)); reflexivity.
Qed.

(** C3 (amended): the content resolver returns a non-empty plain string
    as it is; the empty string, like [null] and an absent content, is falsy
    and resolves to [null]. *)
Theorem resolve_plain_string (s : string) :
  truthy (JStr s) = true ->
  resolveMessageContent (JStr s) = Normal (JStr s)
  /\ resolveMessageContent (JStr "") = Normal JNull
  /\ resolveMessageContent JNull = Normal JNull
  /\ resolveMessageContent JUndefined = Normal JNull.
Proof.
  intros Hs. repeat split; try reflexivity.
  rewrite resolveMessageContent_run. cbn in *.
  destruct (String.eqb s ""); [discriminate|reflexivity].
Qed.

Lemma resolve_plain_string_witness :
  truthy (JStr "hello") = true
  /\ (resolveMessageContent (JStr "hello") = Normal (JStr "hello")
      /\ resolveMessageContent (JStr "") = Normal JNull
      /\ resolveMessageContent JNull = Normal JNull
      /\ resolveMessageContent JUndefined = Normal JNull).
Proof. split; [reflexivity | apply (resolve_plain_string "hello"); reflexivity]. Defined.

(** C3 as stated fails: resolving the empty string gives [null], not the
    empty string. *)
Lemma resolve_empty_string_is_null :
  resolveMessageContent (JStr "") = Normal JNull
  /\ resolveMessageContent (JStr "") <> Normal (JStr "").
Proof. split; [reflexivity | discriminate]. Qed.





(** ** Running the monadic code *)

Lemma hex_field_nonempty d n : hex_field (S d) n <> "".
Proof. cbn [hex_field]. destruct (hex_field d (n / 16)); discriminate. Qed.

Lemma uuid_to_string_nonempty bits : uuid_to_string bits <> "".
Proof.
  unfold uuid_to_string.
  pose proof (hex_field_nonempty 7 (bits / 2 ^ 96)) as H.
  destruct (hex_field 8 (bits / 2 ^ 96)); [congruence|discriminate].
Qed.

Lemma uuid_truthy bits : negb (String.eqb (uuid_to_string bits) "") = true.
Proof. apply negb_true_iff, String.eqb_neq, uuid_to_string_nonempty. Qed.

Lemma idOr_truthy id k m : negb (String.eqb (idOr id k m) "") = true.
Proof.
  unfold idOr, nextUUID. destruct id as [s|]; cbn; [|apply uuid_truthy].
  destruct (negb (String.eqb s "")) eqn:Hs; [exact Hs|apply uuid_truthy].
Qed.

Lemma or_randomUUID_run id m :
  or_randomUUID id m = (Normal (idOr id 0 m), withDrawn (drawnFor id) m).
Proof.
  destruct m as [st log supply drawn].
  unfold or_randomUUID, idOr, drawnFor, nextUUID, withDrawn, randomUUID, ret.
  destruct id as [s|]; cbn; [|reflexivity].
  destruct (negb (String.eqb s "")); reflexivity.
Qed.

Lemma bind_run {A B} (c : M A) (k : A -> M B) m a m' :
  c m = (Normal a, m') -> bind c k m = k a m'.
Proof. intros H. unfold bind. rewrite H. reflexivity. Qed.

Lemma toolCallBlock_run ev chunk m :
  toolCallBlock ev chunk (streamState m) m =
  match toolCallOf chunk with
  | Some toolCall =>
      if startsToolCall ev toolCall m then (Normal true, toolCallStarted toolCall chunk m)
      else if streamsToolArgs ev toolCall m then
        match JSON_stringify (tc_args toolCall) with
        | Normal args =>
            (Normal true,
             withEmitted
               [ActionExecutionArgs (default "" (currentUnit m ≫= toolCallId)) args] m)
        | Throw e => (Throw e, m)
        end
      else (Normal false, m)
  | None => (Normal false, m)
  end.
Proof.
  unfold toolCallBlock, toolCallOf, startsToolCall, streamsToolArgs, unitOpen, currentUnit.
  destruct (tool_calls chunk ≫= head) as [toolCall|]; [|reflexivity].
  destruct (truthy (shouldEmitToolCalls ev)); [|reflexivity]. cbn [andb].
  destruct (negb _ && truthy_str (tc_name toolCall)) eqn:Hstart.
  - rewrite (bind_run _ _ _ _ _ (or_randomUUID_run _ _)).
    unfold sendActionExecutionStart, eventStream_next.
    unfold bind at 1.
    rewrite (bind_run _ _ _ _ _ (or_randomUUID_run _ _)).
    rewrite (bind_run _ _ _ _ _ (or_randomUUID_run _ _)).
    destruct m as [[run table node err] log supply drawn].
    unfold setMessageInProgress, bind, getState, putState, ret, toolCallStarted, withTable,
      withEmitted, withDrawn, idOr, nextUUID; cbn.
    replace (drawnFor (chunk_id chunk) + (drawnFor (tc_id toolCall) + drawn))
      with (drawnFor (tc_id toolCall) + drawnFor (chunk_id chunk) + drawn) by lia.
    replace (drawnFor (tc_id toolCall)
             + (drawnFor (tc_id toolCall) + drawnFor (chunk_id chunk) + drawn))
      with (drawnFor (tc_id toolCall) + drawnFor (chunk_id chunk)
            + drawnFor (tc_id toolCall) + drawn) by lia.
    reflexivity.
  - destruct (_ && truthy (tc_args toolCall)) eqn:Hargs; [|reflexivity].
    unfold bind at 1, lift.
    destruct (JSON_stringify (tc_args toolCall)) as [args|e]; reflexivity.
Qed.

Lemma emitted_app (l1 l2 : list SinkSignal) : emitted (l1 ++ l2) = emitted l1 ++ emitted l2.
Proof. unfold emitted. apply omap_app. Qed.

Lemma emitted_next (evs : list RuntimeEvent) : emitted (map SinkNext evs) = evs.
Proof. induction evs as [|e evs IH]; [reflexivity|]. cbn. f_equal. exact IH. Qed.

Lemma emittedBy_sink {A} (c : M A) (m : Machine) (evs : list RuntimeEvent) :
  sink (snd (c m)) = sink m ++ map SinkNext evs -> emittedBy c m = evs.
Proof.
  intros H. unfold emittedBy. rewrite H, drop_app_length. apply emitted_next.
Qed.

Lemma textBlock_run ev chunk m :
  textBlock ev chunk (streamState m) m =
  let text := resolvedText (content chunk) in
  if truthy text && truthy (shouldEmitMessages ev) then
    if negb (unitOpen m) || truthy_str (currentUnit m ≫= toolCallId) then
      (Normal tt, textMessageStarted text chunk m)
    else
      (Normal tt,
       withEmitted [TextMessageContent (default "" (mip_id <$> currentUnit m)) text] m)
  else (Normal tt, m).
Proof.
  unfold textBlock, unitOpen, currentUnit.
  rewrite resolveMessageContent_run. unfold bind at 1, lift. cbn zeta.
  destruct (truthy (resolvedText (content chunk)) && truthy (shouldEmitMessages ev));
    [|reflexivity].
  destruct (negb _ || _) eqn:Hopen.
  - unfold bind at 1.
    rewrite (bind_run _ _ _ _ _ (or_randomUUID_run _ _)).
    destruct m as [[run table node err] log supply drawn].
    unfold sendTextMessageStart, sendTextMessageContent, eventStream_next,
      setMessageInProgress, getMessageInProgress, bind, getState, putState, ret,
      textMessageStarted, withTable, withEmitted, withDrawn; cbn.
    rewrite lookup_insert_eq; cbn.
    rewrite idOr_truthy; cbn. rewrite <- app_assoc. reflexivity.
  - apply orb_false_iff in Hopen as [Hid _]. apply negb_false_iff in Hid.
    unfold bind, ret. rewrite Hid. reflexivity.
Qed.

Lemma handleChatModelStream_run ev chunk m :
  data_chunk ev = Some chunk ->
  truthy (opt_get (response_metadata chunk) "finish_reason") = false ->
  handleChatModelStream ev m =
  match toolCallBlock ev chunk (streamState m) m with
  | (Normal true, m') => (Normal tt, m')
  | (Normal false, m') => textBlock ev chunk (streamState m) m'
  | (Throw e, m') => (Throw e, m')
  end.
Proof.
  intros Hchunk Hfin. unfold handleChatModelStream. rewrite Hchunk, Hfin.
  unfold bind at 1, getState. unfold bind.
  destruct (toolCallBlock ev chunk (streamState m) m) as [[[|]|e] m']; reflexivity.
Qed.


Lemma handleChatModelEnd_run (m : Machine) :
  handleChatModelEnd m =
  (Normal tt,
   withTable (delete (runId (streamState m)) (messagesInProgress (streamState m)))
     (withEmitted
(closingEvents (currentUnit m)) m)).
Proof.
  destruct m as [[run table node err] log supply drawn].
  unfold handleChatModelEnd, closingEvents, currentUnit, isToolCallUnit, isTextUnit,
    withTable, withEmitted,
    getMessageInProgress, sendActionExecutionEnd, sendTextMessageEnd, eventStream_next,
    bind, ret, getState, putState.
  cbn.
  destruct (table !! run) as [[id tcid tcname]|]; cbn.
  - destruct (truthy_str tcid); cbn; [reflexivity|].
    destruct (negb (String.eqb id "")); cbn; [reflexivity|].
    rewrite app_nil_r; reflexivity.
  - rewrite app_nil_r; reflexivity.
Qed.

(** C8: a generation-end event emits "tool-call ended" with the call id when
    the entry of the run in the table is a tool-call unit, else "text
    message ended" with the unit's id when it is a text unit, and nothing
    when the run has no entry; it never throws, and in every case the run
    has no entry in the table afterwards. *)
Theorem handleChatModelEnd_closes_unit (m : Machine) (entry : option MessageInProgress) :
  messagesInProgress (streamState m) !! runId (streamState m) = entry ->
  handleChatModelEnd m
  = (Normal tt,
     withTable (delete (runId (streamState m)) (messagesInProgress (streamState m)))
       (withEmitted
          match entry with
          | Some unit =>
              if isToolCallUnit unit then [ActionExecutionEnd (default "" (toolCallId unit))]
              else if isTextUnit unit then [TextMessageEnd (mip_id unit)]
              else []
          | None => []
          end m))
  /\ emittedBy handleChatModelEnd m
     = match entry with
       | Some unit =>
           if isToolCallUnit unit then [ActionExecutionEnd (default "" (toolCallId unit))]
           else if isTextUnit unit then [TextMessageEnd (mip_id unit)]
           else []
       | None => []
       end
  /\ messagesInProgress (streamState (snd (handleChatModelEnd m))) !! runId (streamState m)
     = None.
Proof.
  intros <-.
  assert (Hrun : handleChatModelEnd m
                 = (Normal tt,
                    withTable
                      (delete (runId (streamState m)) (messagesInProgress (streamState m)))
                      (withEmitted
                         (closingEvents
                            (messagesInProgress (streamState m) !! runId (streamState m)))
                         m)))
    by apply handleChatModelEnd_run.
  split; [exact Hrun|]. split.
  - apply emittedBy_sink. rewrite Hrun. reflexivity.
  - rewrite Hrun. cbn. apply lookup_delete_eq.
Qed.

Lemma handleChatModelEnd_closes_unit_witness :
  (messagesInProgress (streamState toolUnitMachine) !! runId (streamState toolUnitMachine)
   = Some (mkMessageInProgress "msg-1" (Some "call_1") (Some "search"))
   /\ emittedBy handleChatModelEnd toolUnitMachine = [ActionExecutionEnd "call_1"]
   /\ messagesInProgress (streamState (snd (handleChatModelEnd toolUnitMachine))) !! "run-1"
      = None)
  /\ (messagesInProgress (streamState textUnitMachine) !! runId (streamState textUnitMachine)
      = Some (mkMessageInProgress "msg-1" None None)
      /\ emittedBy handleChatModelEnd textUnitMachine = [TextMessageEnd "msg-1"]
      /\ messagesInProgress (streamState (snd (handleChatModelEnd textUnitMachine))) !! "run-1"
         = None)
  /\ (messagesInProgress (streamState sampleMachine) !! runId (streamState sampleMachine)
      = None
      /\ emittedBy handleChatModelEnd sampleMachine = []
      /\ messagesInProgress (streamState (snd (handleChatModelEnd sampleMachine))) !! "run-1"
         = None).
Proof.
  split; [|split]; (split; [reflexivity|]).
  - apply (handleChatModelEnd_closes_unit toolUnitMachine
             (Some (mkMessageInProgress "msg-1" (Some "call_1") (Some "search")))).
    reflexivity.
  - apply (handleChatModelEnd_closes_unit textUnitMachine
             (Some (mkMessageInProgress "msg-1" None None))).
    reflexivity.
  - apply (handleChatModelEnd_closes_unit sampleMachine None). reflexivity.
Defined.

Lemma currentUnit_withEmitted evs m : currentUnit (withEmitted evs m) = currentUnit m.
Proof. reflexivity. Qed.

Lemma currentUnit_withTable table m :
  currentUnit (withTable table m) = table !! runId (streamState m).
Proof. reflexivity. Qed.

Lemma currentUnit_textMessageStarted text chunk m :
  currentUnit (textMessageStarted text chunk m)
  = Some (mkMessageInProgress (idOr (chunk_id chunk) 0 m) None None).
Proof.
  unfold textMessageStarted. rewrite currentUnit_withTable. cbn.
  apply lookup_insert_eq.
Qed.

Lemma plain_text_delta_run ev text m :
  isPlainTextDelta ev text = true ->
  truthy (JStr text) = true ->
  exists chunk,
    data_chunk ev = Some chunk
    /\ handleChatModelStream ev m =
       if negb (unitOpen m) || truthy_str (currentUnit m ≫= toolCallId) then
         (Normal tt, textMessageStarted (JStr text) chunk m)
       else
         (Normal tt,
          withEmitted
            [TextMessageContent (default "" (mip_id <$> currentUnit m)) (JStr text)] m).
Proof.
  unfold isPlainTextDelta. intros Hdelta Htext.
  destruct (data_chunk ev) as [chunk|] eqn:Hchunk; [|discriminate].
  apply andb_true_iff in Hdelta as [Hdelta Hemit].
  apply andb_true_iff in Hdelta as [Hdelta Hfin].
  apply andb_true_iff in Hdelta as [Hcontent Hcall].
  apply negb_true_iff in Hfin.
  exists chunk. split; [reflexivity|].
  rewrite (handleChatModelStream_run ev chunk m Hchunk Hfin), toolCallBlock_run.
  destruct (toolCallOf chunk); [discriminate|].
  rewrite textBlock_run.
  destruct (content chunk) as [| | | | |s| |]; try discriminate.
  apply String.eqb_eq in Hcontent as ->.
  cbn zeta. cbn in Htext. unfold resolvedText.
  apply negb_true_iff in Htext. rewrite Htext. cbn [truthy]. rewrite Htext, Hemit.
  reflexivity.
Qed.

(** The scenario of three plain text deltas and a generation end, step by
    step. *)
Lemma plain_text_run_abc (e1 e2 e3 : StreamEvent) (m : Machine) :
  currentUnit m = None ->
  isPlainTextDelta e1 "a" = true ->
  isPlainTextDelta e2 "b" = true ->
  isPlainTextDelta e3 "c" = true ->
  exists (messageId : string) (m1 m2 m3 : Machine),
    handleChatModelStream e1 m = (Normal tt, m1)
    /\ handleChatModelStream e2 m1 = (Normal tt, m2)
    /\ handleChatModelStream e3 m2 = (Normal tt, m3)
    /\ runId (streamState m3) = runId (streamState m)
    /\ sink (snd (handleChatModelEnd m3))
       = sink m ++ map SinkNext
           [TextMessageStart messageId;
            TextMessageContent messageId (JStr "a");
            TextMessageContent messageId (JStr "b");
            TextMessageContent messageId (JStr "c");
            TextMessageEnd messageId]
    /\ currentUnit (snd (handleChatModelEnd m3)) = None.
Proof.
  intros Hnone H1 H2 H3.
  destruct (plain_text_delta_run e1 "a" m H1 eq_refl) as (c1 & Hc1 & Hrun1).
  unfold unitOpen in Hrun1. rewrite Hnone in Hrun1. cbn in Hrun1.
  set (m1 := textMessageStarted (JStr "a") c1 m) in *.
  assert (Hu1 : currentUnit m1 = Some (mkMessageInProgress (idOr (chunk_id c1) 0 m) None None))
    by apply currentUnit_textMessageStarted.
  destruct (plain_text_delta_run e2 "b" m1 H2 eq_refl) as (c2 & Hc2 & Hrun2).
  unfold unitOpen in Hrun2. rewrite Hu1 in Hrun2. cbn in Hrun2.
  rewrite idOr_truthy in Hrun2. cbn in Hrun2.
  set (m2 := withEmitted _ m1) in *.
  destruct (plain_text_delta_run e3 "c" m2 H3 eq_refl) as (c3 & Hc3 & Hrun3).
  unfold unitOpen in Hrun3. subst m2. rewrite currentUnit_withEmitted, Hu1 in Hrun3.
  cbn in Hrun3. rewrite idOr_truthy in Hrun3. cbn in Hrun3.
  eexists _, _, _, _. split; [exact Hrun1|]. split; [exact Hrun2|]. split; [exact Hrun3|].
  rewrite handleChatModelEnd_run. cbn [snd]. split; [reflexivity|]. split.
  - rewrite !currentUnit_withEmitted, Hu1.
    unfold closingEvents, isToolCallUnit, isTextUnit; cbn. rewrite idOr_truthy. cbn.
    unfold m1, textMessageStarted. cbn. rewrite <- !app_assoc. reflexivity.
  - rewrite currentUnit_withTable. cbn. apply lookup_delete_eq.
Qed.

(** C1: for a run with no open unit, three token deltas with plain string
    content "a", "b", "c" (no tool-call descriptor, no finish marker, message
    emission enabled) and then a generation end emit exactly
    TextMessageStart, TextMessageContent "a", "b", "c", TextMessageEnd, in
    that order, all with one messageId. *)
Theorem text_scenario_lifecycle (e1 e2 e3 : StreamEvent) (m : Machine) :
  currentUnit m = None ->
  isPlainTextDelta e1 "a" = true ->
  isPlainTextDelta e2 "b" = true ->
  isPlainTextDelta e3 "c" = true ->
  exists (messageId : string) (m' : Machine),
    (handleChatModelStream e1 ;;; handleChatModelStream e2 ;;;
     handleChatModelStream e3 ;;; handleChatModelEnd) m = (Normal tt, m')
    /\ sink m' = sink m ++ map SinkNext
                   [TextMessageStart messageId;
                    TextMessageContent messageId (JStr "a");
                    TextMessageContent messageId (JStr "b");
                    TextMessageContent messageId (JStr "c");
                    TextMessageEnd messageId]
    /\ currentUnit m' = None.
Proof.
  intros Hnone H1 H2 H3.
  destruct (plain_text_run_abc e1 e2 e3 m Hnone H1 H2 H3)
    as (messageId & m1 & m2 & m3 & Hrun1 & Hrun2 & Hrun3 & _ & Hsink & Hclosed).
  exists messageId, (snd (handleChatModelEnd m3)). split; [|split; assumption].
  rewrite (bind_run _ _ _ _ _ Hrun1), (bind_run _ _ _ _ _ Hrun2), (bind_run _ _ _ _ _ Hrun3).
  rewrite handleChatModelEnd_run. reflexivity.
Qed.

Lemma text_scenario_lifecycle_witness :
  currentUnit sampleMachine = None
  /\ isPlainTextDelta (textDelta "a") "a" = true
  /\ isPlainTextDelta (textDelta "b") "b" = true
  /\ isPlainTextDelta (textDelta "c") "c" = true
  /\ exists (messageId : string) (m' : Machine),
      (handleChatModelStream (textDelta "a") ;;; handleChatModelStream (textDelta "b") ;;;
       handleChatModelStream (textDelta "c") ;;; handleChatModelEnd) sampleMachine
      = (Normal tt, m')
      /\ sink m' = sink sampleMachine ++ map SinkNext
                     [TextMessageStart messageId;
                      TextMessageContent messageId (JStr "a");
                      TextMessageContent messageId (JStr "b");
                      TextMessageContent messageId (JStr "c");
                      TextMessageEnd messageId]
      /\ currentUnit m' = None.
Proof.
  split; [reflexivity|]. split; [reflexivity|]. split; [reflexivity|].
  split; [reflexivity|].
  apply (text_scenario_lifecycle (textDelta "a") (textDelta "b") (textDelta "c")
           sampleMachine); reflexivity.
Defined.

Lemma emittedBy_run {A} (c : M A) (m m' : Machine) (o : Completion A)
  (evs : list RuntimeEvent) :
  c m = (o, m') -> sink m' = sink m ++ map SinkNext evs -> emittedBy c m = evs.
Proof. intros Hrun Hsink. apply emittedBy_sink. rewrite Hrun. exact Hsink. Qed.

Lemma sink_unchanged (m : Machine) : sink m = sink m ++ map SinkNext [].
Proof. symmetry. apply app_nil_r. Qed.

(** On an engine-supplied call id the tool-call scenario shares that id. *)
Lemma tool_call_scenario_supplied_id :
  emittedBy
    (handleChatModelStream (toolCallDelta (mkToolCall (Some "call_1") (Some "search") JUndefined)) ;;;
     handleChatModelStream (toolCallDelta (mkToolCall None None argsQueryCats)) ;;;
     handleChatModelEnd) sampleMachine
  = [ActionExecutionStart "call_1" "search" None;
     ActionExecutionArgs "call_1" (JStr json_query_cats);
     ActionExecutionEnd "call_1"].
Proof. vm_compute. reflexivity. Qed.

(** C2: when the engine supplies no call id, the "tool-call started" event
    and the run state table get two different generated ids, so the
    arguments and end events do not carry the actionExecutionId of the start
    event (the claim holds only for a supplied id, as in the lemma above). *)
Theorem tool_call_generated_id_not_shared :
  let start := toolCallDelta (mkToolCall None (Some "search") (JObj [])) in
  let args := toolCallDelta (mkToolCall None (Some "search") argsQueryCats) in
  emittedBy (handleChatModelStream start ;;; handleChatModelStream args ;;; handleChatModelEnd)
    sampleMachine
  = [ActionExecutionStart "00000000-0000-0000-0000-000000000000" "search" None;
     ActionExecutionArgs "00000000-0000-0000-0000-000000000002" (JStr json_query_cats);
     ActionExecutionEnd "00000000-0000-0000-0000-000000000002"]
  /\ currentUnit (snd (handleChatModelStream start sampleMachine))
     = Some (mkMessageInProgress "00000000-0000-0000-0000-000000000001"
               (Some "00000000-0000-0000-0000-000000000002") (Some "search"))
  /\ "00000000-0000-0000-0000-000000000000" <> "00000000-0000-0000-0000-000000000002".
Proof. split; [|split]; [vm_compute; reflexivity..|discriminate]. Qed.

(** The start of a tool call in general: the event takes the first
    generated id, the table entry a later one. *)
Lemma tool_call_start_run ev chunk toolCall m :
  data_chunk ev = Some chunk ->
  truthy (opt_get (response_metadata chunk) "finish_reason") = false ->
  toolCallOf chunk = Some toolCall ->
  startsToolCall ev toolCall m = true ->
  handleChatModelStream ev m = (Normal tt, toolCallStarted toolCall chunk m).
Proof.
  intros Hchunk Hfin Hcall Hstart.
  rewrite (handleChatModelStream_run ev chunk m Hchunk Hfin), toolCallBlock_run, Hcall, Hstart.
  reflexivity.
Qed.

(** Without a supplied call id the start event and the table entry take
    different draws of the generator. *)
Lemma tool_call_start_generated_ids ev chunk toolCall m :
  data_chunk ev = Some chunk ->
  truthy (opt_get (response_metadata chunk) "finish_reason") = false ->
  toolCallOf chunk = Some toolCall ->
  startsToolCall ev toolCall m = true ->
  tc_id toolCall = None ->
  emittedBy (handleChatModelStream ev) m
  = [ActionExecutionStart (nextUUID 0 m) (default "" (tc_name toolCall)) (chunk_id chunk)]
  /\ (currentUnit (snd (handleChatModelStream ev m)) ≫= toolCallId)
     = Some (nextUUID (1 + drawnFor (chunk_id chunk)) m).
Proof.
  intros Hchunk Hfin Hcall Hstart Hid.
  pose proof (tool_call_start_run ev chunk toolCall m Hchunk Hfin Hcall Hstart) as Hrun.
  split.
  - apply (emittedBy_run _ _ _ _ _ Hrun). unfold toolCallStarted, idOr. rewrite Hid.
    reflexivity.
  - rewrite Hrun. cbn [snd]. unfold toolCallStarted. rewrite currentUnit_withTable. cbn.
    rewrite lookup_insert_eq. cbn. unfold idOr. rewrite Hid. reflexivity.
Qed.

(** With tool-call emission off, or without a descriptor, a token delta that
    is not a finish marker goes straight to the text block. *)
Lemma stream_without_tool_call ev chunk m :
  data_chunk ev = Some chunk ->
  truthy (opt_get (response_metadata chunk) "finish_reason") = false ->
  truthy (shouldEmitToolCalls ev) = false \/ toolCallOf chunk = None ->
  handleChatModelStream ev m = textBlock ev chunk (streamState m) m.
Proof.
  intros Hchunk Hfin Hoff.
  rewrite (handleChatModelStream_run ev chunk m Hchunk Hfin), toolCallBlock_run.
  destruct (toolCallOf chunk) as [toolCall|]; [|reflexivity].
  destruct Hoff as [Hoff|Hnone]; [|discriminate].
  unfold startsToolCall, streamsToolArgs. rewrite Hoff. reflexivity.
Qed.

(** C6: a token delta whose metadata sets copilotkit:emit-tool-calls to
    false emits no ActionExecutionStart, ActionExecutionArgs or
    ActionExecutionEnd and records no tool-call unit (the table is unchanged
    or gets a text unit), whatever descriptor it carries; both flags are
    true when the metadata or the key is absent. *)
Theorem tool_calls_suppressed (ev : StreamEvent) (m : Machine) :
  opt_get (metadata ev) "copilotkit:emit-tool-calls" = JBool false ->
  (exists m' : Machine,
      handleChatModelStream ev m = (Normal tt, m')
      /\ Forall (fun e => isActionExecution e = false) (emittedBy (handleChatModelStream ev) m)
      /\ (messagesInProgress (streamState m') = messagesInProgress (streamState m)
          \/ exists messageId : string,
              messagesInProgress (streamState m')
              = <[runId (streamState m) := mkMessageInProgress messageId None None]>
                  (messagesInProgress (streamState m))))
  /\ shouldEmitToolCalls (mkEvent (event ev) (run_id ev) None (data_chunk ev)) = JBool true
  /\ shouldEmitMessages (mkEvent (event ev) (run_id ev) None (data_chunk ev)) = JBool true
  /\ (forall fields : gmap string JsValue,
        shouldEmitToolCalls
          (mkEvent (event ev) (run_id ev)
             (Some (delete "copilotkit:emit-tool-calls" fields)) (data_chunk ev)) = JBool true
        /\ shouldEmitMessages
          (mkEvent (event ev) (run_id ev)
             (Some (delete "copilotkit:emit-messages" fields)) (data_chunk ev)) = JBool true).
Proof.
  intros Hflag. split; [|split; [reflexivity|split; [reflexivity|]]].
  - assert (Hoff : truthy (shouldEmitToolCalls ev) = false)
      by (unfold shouldEmitToolCalls; rewrite Hflag; reflexivity).
    assert (Hidle : forall m0, handleChatModelStream ev m = (Normal tt, m0) -> m0 = m ->
              exists m' : Machine,
                handleChatModelStream ev m = (Normal tt, m')
                /\ Forall (fun e => isActionExecution e = false)
                     (emittedBy (handleChatModelStream ev) m)
                /\ (messagesInProgress (streamState m') = messagesInProgress (streamState m)
                    \/ exists messageId : string,
                        messagesInProgress (streamState m')
                        = <[runId (streamState m) := mkMessageInProgress messageId None None]>
                            (messagesInProgress (streamState m)))).
    { intros m0 Hrun ->. exists m. split; [exact Hrun|]. split; [|left; reflexivity].
      rewrite (emittedBy_run _ _ _ _ [] Hrun (sink_unchanged m)). constructor. }
    destruct (data_chunk ev) as [chunk|] eqn:Hchunk.
    2:{ apply (Hidle m); [|reflexivity]. unfold handleChatModelStream. rewrite Hchunk.
        reflexivity. }
    destruct (truthy (opt_get (response_metadata chunk) "finish_reason")) eqn:Hfin.
    { apply (Hidle m); [|reflexivity]. unfold handleChatModelStream. rewrite Hchunk, Hfin.
      reflexivity. }
    pose proof (stream_without_tool_call ev chunk m Hchunk Hfin (or_introl Hoff)) as Hrun.
    rewrite textBlock_run in Hrun. cbn zeta in Hrun.
    destruct (truthy (resolvedText (content chunk)) && truthy (shouldEmitMessages ev)).
    2:{ apply (Hidle m); [exact Hrun|reflexivity]. }
    destruct (negb (unitOpen m) || truthy_str (currentUnit m ≫= toolCallId)).
    + eexists. split; [exact Hrun|]. split.
      * rewrite (emittedBy_run _ _ _ _ _ Hrun eq_refl). repeat constructor.
      * right. eexists. reflexivity.
    + eexists. split; [exact Hrun|]. split; [|left; reflexivity].
      rewrite (emittedBy_run _ _ _ _ _ Hrun eq_refl). repeat constructor.
  - intros fields. unfold shouldEmitToolCalls, shouldEmitMessages; cbn.
    rewrite !lookup_delete_eq. split; reflexivity.
Qed.

Lemma tool_calls_suppressed_witness :
  opt_get (metadata suppressedToolCallDelta) "copilotkit:emit-tool-calls" = JBool false
  /\ exists m' : Machine,
      handleChatModelStream suppressedToolCallDelta sampleMachine = (Normal tt, m')
      /\ Forall (fun e => isActionExecution e = false)
           (emittedBy (handleChatModelStream suppressedToolCallDelta) sampleMachine)
      /\ (messagesInProgress (streamState m') = messagesInProgress (streamState sampleMachine)
          \/ exists messageId : string,
              messagesInProgress (streamState m')
              = <[runId (streamState sampleMachine) := mkMessageInProgress messageId None None]>
                  (messagesInProgress (streamState sampleMachine))).
Proof.
  split; [reflexivity|].
  apply (tool_calls_suppressed suppressedToolCallDelta sampleMachine). reflexivity.
Defined.

(** C10 (amended): with a tool-call unit open for the run (its entry has a
    truthy id and a truthy toolCallId), a token delta
    - with content that resolves to a non-empty text, message emission
      enabled, no finish marker and no argument data to stream, emits
      TextMessageStart and TextMessageContent and overwrites the run's entry
      with a new text unit;
    - with the finish marker emits nothing and changes nothing;
    - with argument data to stream and no finish marker emits exactly one
      ActionExecutionArgs with the unit's call id and leaves the entry in
      place, or throws, nothing emitted and nothing changed, when the
      arguments cannot be serialized;
    - in every other case (no chunk; no argument data and no text to emit)
      emits nothing and changes nothing;
    and in no case emits an ActionExecutionEnd or a TextMessageEnd, so the
    superseded tool call is left without an end. *)
Theorem kind_change_leaves_tool_call_unended
  (ev : StreamEvent) (unit : MessageInProgress) (m : Machine) :
  messagesInProgress (streamState m) !! runId (streamState m) = Some unit ->
  truthy_str (Some (mip_id unit)) = true ->
  isToolCallUnit unit = true ->
  (forall (chunk : AIMessageChunk) (text : JsValue),
      data_chunk ev = Some chunk ->
      truthy (opt_get (response_metadata chunk) "finish_reason") = false ->
      carriesArguments ev chunk = false ->
      resolveMessageContent (content chunk) = Normal text ->
      truthy text = true ->
      truthy (shouldEmitMessages ev) = true ->
      exists (messageId : string) (m' : Machine),
        handleChatModelStream ev m = (Normal tt, m')
        /\ emittedBy (handleChatModelStream ev) m
           = [TextMessageStart messageId; TextMessageContent messageId text]
        /\ messagesInProgress (streamState m')
           = <[runId (streamState m) := mkMessageInProgress messageId None None]>
               (messagesInProgress (streamState m)))
  /\ (forall chunk : AIMessageChunk,
        data_chunk ev = Some chunk ->
        truthy (opt_get (response_metadata chunk) "finish_reason") = true ->
        handleChatModelStream ev m = (Normal tt, m))
  /\ (forall (chunk : AIMessageChunk) (toolCall : ToolCall),
        data_chunk ev = Some chunk ->
        truthy (opt_get (response_metadata chunk) "finish_reason") = false ->
        toolCallOf chunk = Some toolCall ->
        carriesArguments ev chunk = true ->
        handleChatModelStream ev m
        = match JSON_stringify (tc_args toolCall) with
          | Normal args =>
              (Normal tt,
               withEmitted [ActionExecutionArgs (default "" (toolCallId unit)) args] m)
          | Throw e => (Throw e, m)
          end)
  /\ (data_chunk ev = None -> handleChatModelStream ev m = (Normal tt, m))
  /\ (forall chunk : AIMessageChunk,
        data_chunk ev = Some chunk ->
        carriesArguments ev chunk = false ->
        truthy (resolvedText (content chunk)) && truthy (shouldEmitMessages ev) = false ->
        handleChatModelStream ev m = (Normal tt, m))
  /\ Forall (fun e => isEnd e = false) (emittedBy (handleChatModelStream ev) m).
Proof.
  intros Hentry Hid Htool.
  assert (Hunit : currentUnit m = Some unit) by exact Hentry.
  assert (Hopen : unitOpen m = true) by (unfold unitOpen; rewrite Hunit; exact Hid).
  assert (Hcall : truthy_str (currentUnit m ≫= toolCallId) = true)
    by (rewrite Hunit; exact Htool).
  assert (Hnothing : forall m0 : Machine,
             handleChatModelStream ev m = (Normal tt, m0) -> m0 = m ->
             Forall (fun e => isEnd e = false) (emittedBy (handleChatModelStream ev) m)).
  { intros m0 Hrun ->. rewrite (emittedBy_run _ _ _ _ [] Hrun (sink_unchanged m)).
    constructor. }
  assert (Hfinished : forall chunk : AIMessageChunk,
             data_chunk ev = Some chunk ->
             truthy (opt_get (response_metadata chunk) "finish_reason") = true ->
             handleChatModelStream ev m = (Normal tt, m)).
  { intros chunk Hchunk Hfin. unfold handleChatModelStream. rewrite Hchunk, Hfin.
    reflexivity. }
  assert (Hnone : data_chunk ev = None -> handleChatModelStream ev m = (Normal tt, m)).
  { intros Hchunk. unfold handleChatModelStream. rewrite Hchunk. reflexivity. }
  assert (Hargs : forall (chunk : AIMessageChunk) (toolCall : ToolCall),
             data_chunk ev = Some chunk ->
             truthy (opt_get (response_metadata chunk) "finish_reason") = false ->
             toolCallOf chunk = Some toolCall ->
             carriesArguments ev chunk = true ->
             handleChatModelStream ev m
             = match JSON_stringify (tc_args toolCall) with
               | Normal args =>
                   (Normal tt,
                    withEmitted [ActionExecutionArgs (default "" (toolCallId unit)) args] m)
               | Throw e => (Throw e, m)
               end).
  { intros chunk toolCall Hchunk Hfin Hfirst Hcarries.
    unfold carriesArguments in Hcarries. rewrite Hfirst in Hcarries.
    apply andb_true_iff in Hcarries as [Hemit Hdata].
    rewrite (handleChatModelStream_run ev chunk m Hchunk Hfin), toolCallBlock_run, Hfirst.
    unfold startsToolCall, streamsToolArgs. rewrite Hopen, Hcall, Hemit, Hdata, Hunit.
    cbn. destruct (JSON_stringify (tc_args toolCall)); reflexivity. }
  assert (Htext : forall chunk : AIMessageChunk,
             data_chunk ev = Some chunk ->
             truthy (opt_get (response_metadata chunk) "finish_reason") = false ->
             carriesArguments ev chunk = false ->
             handleChatModelStream ev m
             = if truthy (resolvedText (content chunk)) && truthy (shouldEmitMessages ev)
               then (Normal tt, textMessageStarted (resolvedText (content chunk)) chunk m)
               else (Normal tt, m)).
  { intros chunk Hchunk Hfin Hcarries.
    assert (Hblock : textBlock ev chunk (streamState m) m
              = if truthy (resolvedText (content chunk)) && truthy (shouldEmitMessages ev)
                then (Normal tt, textMessageStarted (resolvedText (content chunk)) chunk m)
                else (Normal tt, m)).
    { rewrite textBlock_run. cbn zeta. rewrite Hopen, Hcall. reflexivity. }
    rewrite (handleChatModelStream_run ev chunk m Hchunk Hfin), toolCallBlock_run.
    unfold carriesArguments in Hcarries.
    destruct (toolCallOf chunk) as [toolCall|]; [|exact Hblock].
    unfold startsToolCall, streamsToolArgs. rewrite Hopen, Hcall. cbn [negb andb].
    rewrite andb_false_r. cbn [andb]. rewrite Hcarries. exact Hblock. }
  split; [|split; [exact Hfinished|split; [exact Hargs|split; [exact Hnone|split]]]].
  - intros chunk text Hchunk Hfin Hcarries Hres Htruthy Hemit.
    rewrite resolveMessageContent_run in Hres. injection Hres as <-.
    pose proof (Htext chunk Hchunk Hfin Hcarries) as Hrun.
    rewrite Htruthy, Hemit in Hrun. cbn [andb] in Hrun.
    exists (idOr (chunk_id chunk) 0 m),
      (textMessageStarted (resolvedText (content chunk)) chunk m).
    split; [exact Hrun|]. split; [|reflexivity].
    apply (emittedBy_run _ _ _ _ _ Hrun). reflexivity.
  - intros chunk Hchunk Hcarries Hquiet.
    destruct (truthy (opt_get (response_metadata chunk) "finish_reason")) eqn:Hfin;
      [exact (Hfinished chunk Hchunk Hfin)|].
    rewrite (Htext chunk Hchunk Hfin Hcarries), Hquiet. reflexivity.
  - destruct (data_chunk ev) as [chunk|] eqn:Hchunk; [|exact (Hnothing m (Hnone eq_refl) eq_refl)].
    destruct (truthy (opt_get (response_metadata chunk) "finish_reason")) eqn:Hfin;
      [exact (Hnothing m (Hfinished chunk eq_refl Hfin) eq_refl)|].
    destruct (carriesArguments ev chunk) eqn:Hcarries.
    + assert (Hfirst : exists toolCall, toolCallOf chunk = Some toolCall).
      { unfold carriesArguments in Hcarries.
        destruct (toolCallOf chunk) as [toolCall|]; [eexists; reflexivity|discriminate]. }
      destruct Hfirst as [toolCall Hfirst].
      pose proof (Hargs chunk toolCall eq_refl Hfin Hfirst Hcarries) as Hrun.
      destruct (JSON_stringify (tc_args toolCall)) as [args|e].
      * rewrite (emittedBy_run _ _ _ _ _ Hrun eq_refl). repeat constructor.
      * rewrite (emittedBy_run _ _ _ _ [] Hrun (sink_unchanged m)). constructor.
    + pose proof (Htext chunk eq_refl Hfin Hcarries) as Hrun.
      destruct (truthy (resolvedText (content chunk)) && truthy (shouldEmitMessages ev)).
      * rewrite (emittedBy_run _ _ _ _ _ Hrun eq_refl). repeat constructor.
      * exact (Hnothing m Hrun eq_refl).
Qed.

Lemma kind_change_leaves_tool_call_unended_witness :
  messagesInProgress (streamState toolUnitMachine) !! runId (streamState toolUnitMachine)
  = Some (mkMessageInProgress "msg-1" (Some "call_1") (Some "search"))
  /\ (exists (messageId : string) (m' : Machine),
         handleChatModelStream (textDelta "hi") toolUnitMachine = (Normal tt, m')
         /\ emittedBy (handleChatModelStream (textDelta "hi")) toolUnitMachine
            = [TextMessageStart messageId; TextMessageContent messageId (JStr "hi")]
         /\ messagesInProgress (streamState m')
            = <["run-1" := mkMessageInProgress messageId None None]>
                (messagesInProgress (streamState toolUnitMachine)))
  /\ handleChatModelStream finishedTextDelta toolUnitMachine = (Normal tt, toolUnitMachine)
  /\ handleChatModelStream textWithArgsDelta toolUnitMachine
     = (Normal tt,
        withEmitted [ActionExecutionArgs "call_1" (JStr json_query_cats)] toolUnitMachine)
  /\ handleChatModelStream bigIntArgsDelta toolUnitMachine
     = (Throw (TypeError "Do not know how to serialize a BigInt"), toolUnitMachine)
  /\ Forall (fun e => isEnd e = false)
       (emittedBy (handleChatModelStream (textDelta "hi")) toolUnitMachine).
Proof.
  assert (Hentry : messagesInProgress (streamState toolUnitMachine)
                     !! runId (streamState toolUnitMachine)
                   = Some (mkMessageInProgress "msg-1" (Some "call_1") (Some "search")))
    by reflexivity.
  split; [exact Hentry|]. split; [|split; [|split; [|split]]].
  - destruct (kind_change_leaves_tool_call_unended (textDelta "hi") _ toolUnitMachine
                Hentry eq_refl eq_refl) as (Htext & _).
    apply (Htext (mkChunk None (JStr "hi") None None) (JStr "hi")); reflexivity.
  - destruct (kind_change_leaves_tool_call_unended finishedTextDelta _ toolUnitMachine
                Hentry eq_refl eq_refl) as (_ & Hfinished & _).
    apply (Hfinished
             (mkChunk None (JStr "hi") None (Some {[ "finish_reason" := JStr "stop" ]})));
      reflexivity.
  - destruct (kind_change_leaves_tool_call_unended textWithArgsDelta _ toolUnitMachine
                Hentry eq_refl eq_refl) as (_ & _ & Hargs & _).
    apply (Hargs (mkChunk None (JStr "hi") (Some [mkToolCall None None argsQueryCats]) None)
             (mkToolCall None None argsQueryCats)); reflexivity.
  - destruct (kind_change_leaves_tool_call_unended bigIntArgsDelta _ toolUnitMachine
                Hentry eq_refl eq_refl) as (_ & _ & Hargs & _).
    apply (Hargs (mkChunk None (JStr "")
                    (Some [mkToolCall None None (JObj [("limit", JBigInt 10)])]) None)
             (mkToolCall None None (JObj [("limit", JBigInt 10)]))); reflexivity.
  - apply (kind_change_leaves_tool_call_unended (textDelta "hi") _ toolUnitMachine
             Hentry eq_refl eq_refl).
Defined.

(** C10 as stated fails: with a tool-call unit open, a delta whose text
    content comes with argument data of the call emits only
    ActionExecutionArgs, and one that carries the finish marker emits
    nothing; neither starts a text message or touches the entry. *)
Lemma kind_change_needs_text_step :
  (exists unit, currentUnit toolUnitMachine = Some unit /\ isToolCallUnit unit = true)
  /\ (resolveMessageContent (JStr "hi") = Normal (JStr "hi")
      /\ truthy (shouldEmitMessages textWithArgsDelta) = true
      /\ emittedBy (handleChatModelStream textWithArgsDelta) toolUnitMachine
         = [ActionExecutionArgs "call_1" (JStr json_query_cats)]
      /\ (forall messageId,
            ~ In (TextMessageStart messageId)
                (emittedBy (handleChatModelStream textWithArgsDelta) toolUnitMachine))
      /\ currentUnit (snd (handleChatModelStream textWithArgsDelta toolUnitMachine))
         = currentUnit toolUnitMachine)
  /\ (truthy (shouldEmitMessages finishedTextDelta) = true
      /\ emittedBy (handleChatModelStream finishedTextDelta) toolUnitMachine = []
      /\ currentUnit (snd (handleChatModelStream finishedTextDelta toolUnitMachine))
         = currentUnit toolUnitMachine).
Proof.
  assert (Hargs : emittedBy (handleChatModelStream textWithArgsDelta) toolUnitMachine
                  = [ActionExecutionArgs "call_1" (JStr json_query_cats)])
    by (vm_compute; reflexivity).
  split; [eexists; split; reflexivity|].
  split; [|repeat split; vm_compute; reflexivity].
  split; [reflexivity|]. split; [reflexivity|]. split; [exact Hargs|].
  split; [|vm_compute; reflexivity].
  intros messageId. rewrite Hargs. intros [Hin|[]]. discriminate.
Qed.

(** ** The handlers as steps of the transition system *)

Lemma outcome_idle {A} (m : Machine) (a : A) : HandlerOutcome m (Normal a, m).
Proof. exists []. split; [apply sink_unchanged|]. split; [reflexivity|constructor]. Qed.

Lemma currentUnit_toolCallStarted toolCall chunk m :
  exists entry,
    currentUnit (toolCallStarted toolCall chunk m) = Some entry
    /\ isToolCallUnit entry = true
    /\ truthy_str (Some (mip_id entry)) = true.
Proof.
  eexists. split; [|split].
  - unfold toolCallStarted. rewrite currentUnit_withTable. cbn. apply lookup_insert_eq.
  - cbn. apply idOr_truthy.
  - cbn. apply idOr_truthy.
Qed.

Lemma handleChatModelStream_step ev m : HandlerOutcome m (handleChatModelStream ev m).
Proof.
  unfold handleChatModelStream.
  destruct (data_chunk ev) as [chunk|] eqn:Hchunk; [|apply outcome_idle].
  destruct (truthy (opt_get (response_metadata chunk) "finish_reason")) eqn:Hfin;
    [apply outcome_idle|].
  pose proof (handleChatModelStream_run ev chunk m Hchunk Hfin) as Hrun.
  unfold handleChatModelStream in Hrun. rewrite Hchunk, Hfin in Hrun. rewrite Hrun.
  clear Hrun.
  assert (Htext : HandlerOutcome m (textBlock ev chunk (streamState m) m)).
  { rewrite textBlock_run. cbn zeta.
    destruct (truthy (resolvedText (content chunk)) && truthy (shouldEmitMessages ev));
      [|apply outcome_idle].
    destruct (negb (unitOpen m) || truthy_str (currentUnit m ≫= toolCallId)) eqn:Hopen.
    - eexists. split; [reflexivity|]. split; [reflexivity|].
      rewrite currentUnit_textMessageStarted.
      apply step_text_start; [exact Hopen|apply idOr_truthy].
    - apply orb_false_iff in Hopen as [Hid Hcall]. apply negb_false_iff in Hid.
      eexists. split; [reflexivity|]. split; [reflexivity|].
      rewrite currentUnit_withEmitted. apply step_text_content; assumption. }
  rewrite toolCallBlock_run.
  destruct (toolCallOf chunk) as [toolCall|]; [|exact Htext].
  destruct (startsToolCall ev toolCall m) eqn:Hstart.
  - unfold startsToolCall in Hstart.
    apply andb_true_iff in Hstart as [_ Hstart].
    apply andb_true_iff in Hstart as [Hclosed _]. apply negb_true_iff in Hclosed.
    destruct (currentUnit_toolCallStarted toolCall chunk m) as (entry & Hentry & Hkind & Hid).
    eexists. split; [reflexivity|]. split; [reflexivity|].
    rewrite Hentry. apply step_tool_start; assumption.
  - destruct (streamsToolArgs ev toolCall m) eqn:Hargs; [|exact Htext].
    unfold streamsToolArgs in Hargs.
    apply andb_true_iff in Hargs as [_ Hargs].
    apply andb_true_iff in Hargs as [Hargs _].
    apply andb_true_iff in Hargs as [Hopen Hcall].
    destruct (JSON_stringify (tc_args toolCall)) as [args|e]; [|reflexivity].
    eexists. split; [reflexivity|]. split; [reflexivity|].
    rewrite currentUnit_withEmitted. apply step_tool_args; assumption.
Qed.

Lemma handleChatModelEnd_step m : HandlerOutcome m (handleChatModelEnd m).
Proof.
  rewrite handleChatModelEnd_run.
  eexists. split; [reflexivity|]. split; [reflexivity|].
  rewrite currentUnit_withTable. cbn. rewrite lookup_delete_eq. constructor.
Qed.

Lemma handleChainStart_step ev m : HandlerOutcome m (handleChainStart ev m).
Proof.
  unfold handleChainStart.
  destruct (truthy _ && negb _); [|apply outcome_idle].
  exists []. cbn. split; [symmetry; apply app_nil_r|]. split; [reflexivity|constructor].
Qed.

Lemma dispatch_step ev debug m : HandlerOutcome m (dispatch ev debug m).
Proof.
  unfold dispatch.
  destruct (String.eqb (event ev) "on_chat_model_stream"); [apply handleChatModelStream_step|].
  destruct (String.eqb (event ev) "on_chat_model_end"); [apply handleChatModelEnd_step|].
  destruct (String.eqb (event ev) "on_custom_event"); [destruct debug; apply outcome_idle|].
  destruct (String.eqb (event ev) "on_chain_start"); [apply handleChainStart_step|].
  destruct debug; apply outcome_idle.
Qed.

Lemma handleLangGraphEvent_body_run ev debug m :
  handleLangGraphEvent_body ev debug m = dispatch ev debug (adoptRunId ev m).
Proof.
  unfold handleLangGraphEvent_body, adoptRunId.
  destruct debug; cbn; destruct (negb _ && _); reflexivity.
Qed.

Section Dispatcher.
Context `{Externals}.


Lemma handleLangGraphEvent_run ev debug m :
  handleLangGraphEvent ev debug m =
  match dispatch ev debug (adoptRunId ev m) with
  | (Normal a, m') => (Normal a, m')
  | (Throw e, m') => (Normal tt, withEmitted [runErrorFor e] m')
  end.
Proof.
  unfold handleLangGraphEvent, try_catch. rewrite handleLangGraphEvent_body_run.
  destruct (dispatch ev debug (adoptRunId ev m)) as [[a|e] m']; [reflexivity|].
  destruct debug; reflexivity.
Qed.

Lemma sink_adoptRunId ev m : sink (adoptRunId ev m) = sink m.
Proof. unfold adoptRunId. destruct (negb _ && _); reflexivity. Qed.

(** One event through the dispatcher: it always returns; either a handler
    step happened or one error was reported and the unit is as before. *)
Lemma handleLangGraphEvent_step ev debug m :
  exists (evs : list RuntimeEvent) (m' : Machine),
    handleLangGraphEvent ev debug m = (Normal tt, m')
    /\ sink m' = sink m ++ map SinkNext evs
    /\ runId (streamState m') = runId (streamState (adoptRunId ev m))
    /\ (HandlerStep (currentUnit (adoptRunId ev m)) evs (currentUnit m')
        \/ (exists e, evs = [runErrorFor e])
           /\ currentUnit m' = currentUnit (adoptRunId ev m)).
Proof.
  rewrite handleLangGraphEvent_run.
  pose proof (dispatch_step ev debug (adoptRunId ev m)) as Hstep.
  destruct (dispatch ev debug (adoptRunId ev m)) as [[[]|e] m']; cbn in Hstep.
  - destruct Hstep as (evs & Hsink & Hrun & Hunit).
    exists evs, m'. rewrite Hsink, sink_adoptRunId. auto.
  - subst m'. eexists [runErrorFor e], _. split; [reflexivity|].
    cbn. rewrite sink_adoptRunId. split; [reflexivity|]. split; [reflexivity|].
    right. split; [eexists; reflexivity | reflexivity].
Qed.

Lemma forAwait_run (eventStream : EventSource) debug m :
  exists (evs : list RuntimeEvent) (m' : Machine),
    forAwait eventStream debug m
    = (match sourceFailure eventStream with
       | Some e => Throw e
       | None => Normal tt
       end, m')
    /\ sink m' = sink m ++ map SinkNext evs.
Proof.
  revert m. induction eventStream as [|e|ev rest IH]; intros m.
  - exists [], m. split; [reflexivity|apply sink_unchanged].
  - exists [], m. split; [reflexivity|apply sink_unchanged].
  - destruct (handleLangGraphEvent_step ev debug m) as (evs1 & m1 & Hrun1 & Hsink1 & _).
    destruct (IH m1) as (evs2 & m2 & Hrun2 & Hsink2).
    exists (evs1 ++ evs2), m2. split.
    + cbn [forAwait sourceFailure]. rewrite (bind_run _ _ _ _ _ Hrun1). exact Hrun2.
    + rewrite Hsink2, Hsink1, map_app, app_assoc. reflexivity.
Qed.

End Dispatcher.

(** C7: when the handler of an event throws, the dispatcher catches the
    exception, emits exactly one RunError for that event, with the message
    of the converted error and the code LANGGRAPH_EVENT_ERROR, and returns
    normally, so the loop goes on with the events that follow. *)
Theorem handler_exception_contained `{Externals}
  (ev : StreamEvent) (debug : bool) (m m1 : Machine) (e : JsError) :
  handleLangGraphEvent_body ev debug m = (Throw e, m1) ->
  handleLangGraphEvent ev debug m = (Normal tt, withEmitted [runErrorFor e] m1)
  /\ emittedBy (handleLangGraphEvent ev debug) m = [runErrorFor e]
  /\ forall rest : EventSource,
      forAwait (SourceYield ev rest) debug m
      = forAwait rest debug (withEmitted [runErrorFor e] m1).
Proof.
  intros Hthrow.
  assert (Hrun : handleLangGraphEvent ev debug m = (Normal tt, withEmitted [runErrorFor e] m1)).
  { unfold handleLangGraphEvent, try_catch. rewrite Hthrow. destruct debug; reflexivity. }
  split; [exact Hrun|]. split.
  - apply (emittedBy_run _ _ _ _ _ Hrun).
    rewrite handleLangGraphEvent_body_run in Hthrow.
    pose proof (dispatch_step ev debug (adoptRunId ev m)) as Hstep.
    rewrite Hthrow in Hstep. cbn in Hstep. subst m1.
    cbn. rewrite sink_adoptRunId. reflexivity.
  - intros rest. cbn [forAwait]. rewrite (bind_run _ _ _ _ _ Hrun). reflexivity.
Qed.

Lemma handler_exception_contained_witness :
  handleLangGraphEvent_body bigIntArgsDelta false toolUnitMachine
  = (Throw (TypeError "Do not know how to serialize a BigInt"), toolUnitMachine)
  /\ @emittedBy unit (@handleLangGraphEvent sampleExternals bigIntArgsDelta false) toolUnitMachine
     = [RunError "LangGraph: Do not know how to serialize a BigInt" "LANGGRAPH_EVENT_ERROR"].
Proof.
  split; [reflexivity|].
  apply (@handler_exception_contained sampleExternals bigIntArgsDelta false toolUnitMachine
           toolUnitMachine (TypeError "Do not know how to serialize a BigInt")).
  reflexivity.
Defined.

Lemma completions_app l1 l2 : completions (l1 ++ l2) = completions l1 + completions l2.
Proof. unfold completions. rewrite List.filter_app, length_app. reflexivity. Qed.

Lemma completions_next evs : completions (map SinkNext evs) = 0.
Proof. induction evs as [|e evs IH]; [reflexivity|exact IH]. Qed.

(** C9: every invocation of the stream driver completes the sink exactly
    once, as its last signal, whether the source ends normally or fails; a
    failure of the source itself comes back to the caller as the converted
    error, with the sink already completed, while a normal end returns
    normally. *)
Theorem sink_completed_exactly_once `{Externals}
  (eventStream : EventSource) (debug : bool) (m : Machine) :
  exists evs : list RuntimeEvent,
    sink (snd (processLangGraphStream eventStream debug m))
    = sink m ++ map SinkNext evs ++ [SinkComplete]
    /\ completions (sink (snd (processLangGraphStream eventStream debug m)))
       = S (completions (sink m))
    /\ fst (processLangGraphStream eventStream debug m)
       = match sourceFailure eventStream with
         | Some e => Throw (convertServiceAdapterError e "LangGraph")
         | None => Normal tt
         end.
Proof.
  set (m0 := mkMachine
               (mkStreamState (nextUUID 0 m) ∅ JUndefined false)
               (sink m) (uuidSupply m) (S (uuidDrawn m))).
  destruct (forAwait_run eventStream debug m0) as (evs & m' & Hrun & Hsink).
  change (sink m0) with (sink m) in Hsink.
  assert (Hprocess :
    processLangGraphStream eventStream debug m
    = (match sourceFailure eventStream with
       | Some e => Throw (convertServiceAdapterError e "LangGraph")
       | None => Normal tt
       end,
       mkMachine (streamState m') (sink m' ++ [SinkComplete]) (uuidSupply m') (uuidDrawn m'))).
  { assert (Hstart :
      processLangGraphStream eventStream debug m
      = try_finally
          (try_catch (forAwait eventStream debug ;;; when debug console_log)
             (fun error =>
                when debug console_log ;;;
                throw (convertServiceAdapterError error "LangGraph")))
          eventStream_complete m0)
      by (destruct debug; reflexivity).
    rewrite Hstart. unfold try_finally, try_catch, bind. rewrite Hrun.
    destruct (sourceFailure eventStream); destruct debug; reflexivity. }
  rewrite Hprocess. cbn [fst snd sink].
  exists evs. rewrite Hsink. split; [|split].
  - rewrite <- app_assoc. reflexivity.
  - rewrite !completions_app, completions_next.
    change (completions [SinkComplete]) with 1. lia.
  - reflexivity.
Qed.

Lemma scanText_app open trace1 trace2 :
  scanText open (trace1 ++ trace2) = scanText open trace1 ≫= fun open' => scanText open' trace2.
Proof.
  revert open. induction trace1 as [|e rest IH]; intros open; [reflexivity|].
  destruct e; cbn [scanText app]; try apply IH.
  - destruct open; [reflexivity|apply IH].
  - destruct open as [openId|]; [|apply IH].
    destruct (String.eqb openId messageId); [apply IH|reflexivity].
Qed.

Lemma tracksUnit_text_open open unit :
  tracksUnit (Some open) unit ->
  truthy_str (mip_id <$> unit) = true /\ truthy_str (unit ≫= toolCallId) = false
  /\ closingEvents unit = [TextMessageEnd open].
Proof.
  intros (entry & -> & Htext & <-). unfold isTextUnit in Htext.
  apply andb_true_iff in Htext as [Hcall Hid]. apply negb_true_iff in Hcall.
  cbn. unfold isToolCallUnit, isTextUnit. rewrite Hcall. cbn in *. rewrite Hid. auto.
Qed.

Lemma scanText_closing unit :
  scanText None (closingEvents unit) = Some None.
Proof.
  destruct unit as [entry|]; [|reflexivity]. cbn.
  destruct (isToolCallUnit entry); [reflexivity|].
  destruct (isTextUnit entry); reflexivity.
Qed.

Lemma scanText_step open unit evs unit' :
  HandlerStep unit evs unit' ->
  tracksUnit open unit ->
  exists open', scanText open evs = Some open' /\ tracksUnit open' unit'.
Proof.
  intros Hstep Htrack.
  destruct Hstep as [unit|unit eventId name parent entry Hclosed Hkind Hid
                    |unit args Hopen Hcall|unit messageId text Hfree Hid
                    |unit text Hopen Hcall|unit].
  - exists open. split; [reflexivity|exact Htrack].
  - destruct open as [openId|].
    + apply tracksUnit_text_open in Htrack as (Hopen & _). congruence.
    + exists None. split; [reflexivity|exact I].
  - exists open. split; [reflexivity|exact Htrack].
  - destruct open as [openId|].
    + apply tracksUnit_text_open in Htrack as (Hopen & Hcall & _).
      rewrite Hopen, Hcall in Hfree. discriminate.
    + exists (Some messageId). split; [reflexivity|].
      eexists. split; [reflexivity|]. split; [|reflexivity].
      unfold isTextUnit. cbn in *. exact Hid.
  - exists open. split; [reflexivity|exact Htrack].
  - exists None. split; [|exact I].
    destruct open as [openId|]; [|apply scanText_closing].
    apply tracksUnit_text_open in Htrack as (_ & _ & ->).
    cbn. rewrite String.eqb_refl. reflexivity.
Qed.

Lemma scanText_between open before a between b after result :
  scanText open (before ++ TextMessageStart a :: between ++ TextMessageStart b :: after)
  = Some result ->
  In (TextMessageEnd a) between.
Proof.
  rewrite scanText_app.
  destruct (scanText open before) as [open1|]; [|discriminate].
  cbn [mbind option_bind scanText].
  destruct open1; [discriminate|].
  clear. induction between as [|e rest IH]; [discriminate|].
  destruct e; cbn [scanText app]; intros Hscan;
    try (right; apply IH; exact Hscan); try discriminate.
  destruct (String.eqb a messageId) eqn:Heq; [|discriminate].
  apply String.eqb_eq in Heq as ->. left. reflexivity.
Qed.

Section Invocation.
Context `{Externals}.

Lemma adoptRunId_idle ev m :
  truthy_str (Some (runId (streamState m))) = true -> adoptRunId ev m = m.
Proof. intros Hrun. unfold adoptRunId. rewrite Hrun. reflexivity. Qed.

Lemma forAwait_scanText (eventStream : EventSource) debug m open :
  truthy_str (Some (runId (streamState m))) = true ->
  tracksUnit open (currentUnit m) ->
  exists (evs : list RuntimeEvent) (open' : option string),
    sink (snd (forAwait eventStream debug m)) = sink m ++ map SinkNext evs
    /\ scanText open evs = Some open'.
Proof.
  revert m open. induction eventStream as [|e|ev rest IH]; intros m open Hrun Htrack.
  - exists [], open. split; [apply sink_unchanged|reflexivity].
  - exists [], open. split; [apply sink_unchanged|reflexivity].
  - destruct (handleLangGraphEvent_step ev debug m)
      as (evs1 & m1 & Hrun1 & Hsink1 & Hid1 & Hstep).
    rewrite (adoptRunId_idle ev m Hrun) in Hid1, Hstep.
    assert (Hscan1 : exists open1, scanText open evs1 = Some open1
                                   /\ tracksUnit open1 (currentUnit m1)).
    { destruct Hstep as [Hstep|[[e ->] Hsame]].
      - apply (scanText_step open _ _ _ Hstep Htrack).
      - exists open. split; [reflexivity|]. rewrite Hsame. exact Htrack. }
    destruct Hscan1 as (open1 & Hscan1 & Htrack1).
    rewrite <- Hid1 in Hrun.
    destruct (IH m1 open1 Hrun Htrack1) as (evs2 & open2 & Hsink2 & Hscan2).
    exists (evs1 ++ evs2), open2. split.
    + cbn [forAwait]. rewrite (bind_run _ _ _ _ _ Hrun1).
      rewrite Hsink2, Hsink1, map_app, app_assoc. reflexivity.
    + rewrite scanText_app, Hscan1. exact Hscan2.
Qed.

Lemma processLangGraphStream_scanText (eventStream : EventSource) debug m :
  exists open, scanText None (emittedBy (processLangGraphStream eventStream debug) m) = Some open.
Proof.
  set (m0 := mkMachine
               (mkStreamState (nextUUID 0 m) ∅ JUndefined false)
               (sink m) (uuidSupply m) (S (uuidDrawn m))).
  destruct (forAwait_scanText eventStream debug m0 None) as (evs & open & Hsink & Hscan).
  { cbn. apply uuid_truthy. }
  { exact I. }
  exists open. rewrite <- Hscan. f_equal.
  unfold emittedBy.
  assert (Hstart :
    processLangGraphStream eventStream debug m
    = try_finally
        (try_catch (forAwait eventStream debug ;;; when debug console_log)
           (fun error =>
              when debug console_log ;;;
              throw (convertServiceAdapterError error "LangGraph")))
        eventStream_complete m0)
    by (destruct debug; reflexivity).
  rewrite Hstart. unfold try_finally, try_catch, bind.
  destruct (forAwait eventStream debug m0) as [[[]|e] m'] eqn:Hrun; cbn [snd] in Hsink.
  - destruct debug; cbn; change (sink m0) with (sink m) in Hsink;
      rewrite Hsink, <- app_assoc, drop_app_length, emitted_app, emitted_next;
      apply app_nil_r.
  - destruct debug; cbn; change (sink m0) with (sink m) in Hsink;
      rewrite Hsink, <- app_assoc, drop_app_length, emitted_app, emitted_next;
      apply app_nil_r.
Qed.

End Invocation.

Section Routing.
Context `{Externals}.

Lemma handleLangGraphEvent_token_delta ev debug m m' :
  event ev = "on_chat_model_stream" ->
  truthy_str (Some (runId (streamState m))) = true ->
  handleChatModelStream ev m = (Normal tt, m') ->
  handleLangGraphEvent ev debug m = (Normal tt, m').
Proof.
  intros Hkind Hrun Hhandler.
  rewrite handleLangGraphEvent_run, (adoptRunId_idle ev m Hrun).
  unfold dispatch. rewrite Hkind.
  change (String.eqb "on_chat_model_stream" "on_chat_model_stream") with true.
  cbv iota. rewrite Hhandler. reflexivity.
Qed.

Lemma handleLangGraphEvent_generation_end ev debug m :
  event ev = "on_chat_model_end" ->
  truthy_str (Some (runId (streamState m))) = true ->
  handleLangGraphEvent ev debug m = handleChatModelEnd m.
Proof.
  intros Hkind Hrun.
  rewrite handleLangGraphEvent_run, (adoptRunId_idle ev m Hrun).
  unfold dispatch. rewrite Hkind.
  change (String.eqb "on_chat_model_end" "on_chat_model_stream") with false.
  change (String.eqb "on_chat_model_end" "on_chat_model_end") with true.
  cbv iota. rewrite handleChatModelEnd_run. reflexivity.
Qed.

End Routing.

(** The same scenario through the dispatcher and the driver: one invocation
    whose source delivers the three deltas and the generation end. *)
Lemma text_scenario_invocation `{Externals}
  (e1 e2 e3 e4 : StreamEvent) (debug : bool) (m : Machine) :
  event e1 = "on_chat_model_stream" -> isPlainTextDelta e1 "a" = true ->
  event e2 = "on_chat_model_stream" -> isPlainTextDelta e2 "b" = true ->
  event e3 = "on_chat_model_stream" -> isPlainTextDelta e3 "c" = true ->
  event e4 = "on_chat_model_end" ->
  exists messageId : string,
    sink (snd (processLangGraphStream
                 (SourceYield e1 (SourceYield e2 (SourceYield e3 (SourceYield e4 SourceEnd))))
                 debug m))
    = sink m ++ map SinkNext
        [TextMessageStart messageId;
         TextMessageContent messageId (JStr "a");
         TextMessageContent messageId (JStr "b");
         TextMessageContent messageId (JStr "c");
         TextMessageEnd messageId]
      ++ [SinkComplete].
Proof.
  intros K1 H1 K2 H2 K3 H3 K4.
  set (m0 := mkMachine
               (mkStreamState (nextUUID 0 m) ∅ JUndefined false)
               (sink m) (uuidSupply m) (S (uuidDrawn m))).
  assert (Hid0 : truthy_str (Some (runId (streamState m0))) = true) by apply uuid_truthy.
  destruct (plain_text_run_abc e1 e2 e3 m0 (lookup_empty _) H1 H2 H3)
    as (messageId & m1 & m2 & m3 & Hrun1 & Hrun2 & Hrun3 & Hid3 & Hsink & _).
  assert (Hid1 : truthy_str (Some (runId (streamState m1))) = true).
  { pose proof (handleChatModelStream_step e1 m0) as Hstep. rewrite Hrun1 in Hstep.
    destruct Hstep as (_ & _ & -> & _). exact Hid0. }
  assert (Hid2 : truthy_str (Some (runId (streamState m2))) = true).
  { pose proof (handleChatModelStream_step e2 m1) as Hstep. rewrite Hrun2 in Hstep.
    destruct Hstep as (_ & _ & -> & _). exact Hid1. }
  rewrite <- Hid3 in Hid0.
  exists messageId.
  assert (Hstart :
    processLangGraphStream
      (SourceYield e1 (SourceYield e2 (SourceYield e3 (SourceYield e4 SourceEnd)))) debug m
    = try_finally
        (try_catch
           (forAwait
              (SourceYield e1 (SourceYield e2 (SourceYield e3 (SourceYield e4 SourceEnd))))
              debug ;;; when debug console_log)
           (fun error =>
              when debug console_log ;;;
              throw (convertServiceAdapterError error "LangGraph")))
        eventStream_complete m0)
    by (destruct debug; reflexivity).
  rewrite Hstart. unfold try_finally, try_catch. unfold bind at 1. cbn [forAwait].
  rewrite (bind_run _ _ _ _ _ (handleLangGraphEvent_token_delta e1 debug m0 m1 K1 ltac:(apply uuid_truthy) Hrun1)).
  rewrite (bind_run _ _ _ _ _ (handleLangGraphEvent_token_delta e2 debug m1 m2 K2 Hid1 Hrun2)).
  rewrite (bind_run _ _ _ _ _ (handleLangGraphEvent_token_delta e3 debug m2 m3 K3 Hid2 Hrun3)).
  unfold bind at 1. rewrite (handleLangGraphEvent_generation_end e4 debug m3 K4 Hid0).
  rewrite handleChatModelEnd_run in *. cbn [snd] in Hsink.
  destruct debug; cbn; cbn in Hsink; rewrite Hsink; change (sink m0) with (sink m);
    rewrite <- !app_assoc; reflexivity.
Qed.

Lemma closingEvents_no_start unit messageId :
  ~ In (TextMessageStart messageId) (closingEvents unit).
Proof.
  unfold closingEvents. destruct unit as [entry|]; [|intros []].
  destruct (isToolCallUnit entry); [intros [|[]]; discriminate|].
  destruct (isTextUnit entry); [intros [|[]]; discriminate|intros []].
Qed.

Lemma step_text_start_inv unit evs unit' messageId :
  HandlerStep unit evs unit' ->
  In (TextMessageStart messageId) evs ->
  negb (truthy_str (mip_id <$> unit)) || truthy_str (unit ≫= toolCallId) = true.
Proof.
  intros Hstep Hin.
  destruct Hstep as [unit|unit eventId name parent entry Hclosed Hkind Hid
                    |unit args Hopen Hcall|unit startId text Hfree Hid
                    |unit text Hopen Hcall|unit].
  - destruct Hin.
  - destruct Hin as [Hin|[]]; discriminate.
  - destruct Hin as [Hin|[]]; discriminate.
  - exact Hfree.
  - destruct Hin as [Hin|[]]; discriminate.
  - destruct (closingEvents_no_start _ _ Hin).
Qed.

Lemma text_start_needs_no_text_unit ev m messageId :
  In (TextMessageStart messageId) (emittedBy (handleChatModelStream ev) m) ->
  unitOpen m = false
  \/ exists unit, currentUnit m = Some unit /\ isToolCallUnit unit = true.
Proof.
  pose proof (handleChatModelStream_step ev m) as Hstep.
  destruct (handleChatModelStream ev m) as [[[]|e] m'] eqn:Hrun; cbn in Hstep.
  - destruct Hstep as (evs & Hsink & _ & Hstep).
    rewrite (emittedBy_run _ _ _ _ _ Hrun Hsink). intros Hin.
    pose proof (step_text_start_inv _ _ _ _ Hstep Hin) as Hfree.
    unfold unitOpen.
    destruct (truthy_str (mip_id <$> currentUnit m)); [|left; reflexivity].
    right. cbn in Hfree. destruct (currentUnit m) as [unit|]; [|discriminate].
    exists unit. split; [reflexivity|exact Hfree].
  - subst m'. rewrite (emittedBy_run _ _ _ _ [] Hrun (sink_unchanged m)). intros [].
Qed.

(** C5: in the events one invocation emits, between any two TextMessageStart
    there is the TextMessageEnd of the first (so never two starts without an
    intervening end or kind change); and a token delta emits
    TextMessageStart only when the run has no open unit or its open unit is a
    tool-call unit. *)
Theorem no_double_text_start `{Externals}
  (eventStream : EventSource) (debug : bool) (m : Machine)
  (before between after : list RuntimeEvent) (a b : string) :
  emittedBy (processLangGraphStream eventStream debug) m
  = before ++ TextMessageStart a :: between ++ TextMessageStart b :: after ->
  In (TextMessageEnd a) between
  /\ forall (ev : StreamEvent) (m0 : Machine) (messageId : string),
      In (TextMessageStart messageId) (emittedBy (handleChatModelStream ev) m0) ->
      unitOpen m0 = false
      \/ exists unit, currentUnit m0 = Some unit /\ isToolCallUnit unit = true.
Proof.
  intros Htrace. split; [|apply text_start_needs_no_text_unit].
  destruct (processLangGraphStream_scanText eventStream debug m) as (open & Hscan).
  rewrite Htrace in Hscan. exact (scanText_between _ _ _ _ _ _ _ Hscan).
Qed.

Lemma no_double_text_start_witness :
  @emittedBy unit (@processLangGraphStream sampleExternals twoMessagesSource false) sampleMachine
  = [] ++ TextMessageStart "00000000-0000-0000-0000-000000000001"
       :: [TextMessageContent "00000000-0000-0000-0000-000000000001" (JStr "a");
           TextMessageEnd "00000000-0000-0000-0000-000000000001"]
       ++ TextMessageStart "00000000-0000-0000-0000-000000000002"
       :: [TextMessageContent "00000000-0000-0000-0000-000000000002" (JStr "b")]
  /\ In (TextMessageEnd "00000000-0000-0000-0000-000000000001")
       [TextMessageContent "00000000-0000-0000-0000-000000000001" (JStr "a");
        TextMessageEnd "00000000-0000-0000-0000-000000000001"].
Proof.
  split; [vm_compute; reflexivity|].
  apply (@no_double_text_start sampleExternals twoMessagesSource false sampleMachine
           [] [TextMessageContent "00000000-0000-0000-0000-000000000001" (JStr "a");
               TextMessageEnd "00000000-0000-0000-0000-000000000001"]
           [TextMessageContent "00000000-0000-0000-0000-000000000002" (JStr "b")]
           "00000000-0000-0000-0000-000000000001" "00000000-0000-0000-0000-000000000002").
  vm_compute; reflexivity.
Defined.

(** ** What the handlers leave alone *)

Ltac footprint_split :=
  unfold Footprint; split; [|split; [|split; [|split; [|split]]]].

Lemma footprint_refl (m : Machine) : Footprint m m.
Proof.
  footprint_split; try (intros; reflexivity). exists []. apply sink_unchanged.
Qed.

Lemma footprint_trans (m1 m2 m3 : Machine) :
  Footprint m1 m2 -> Footprint m2 m3 -> Footprint m1 m3.
Proof.
  intros (Hrun1 & Herr1 & Hsup1 & Hdrawn1 & (evs1 & Hsink1) & Hframe1)
         (Hrun2 & Herr2 & Hsup2 & Hdrawn2 & (evs2 & Hsink2) & Hframe2).
  footprint_split; try congruence; try lia.
  - exists (evs1 ++ evs2). rewrite Hsink2, Hsink1, map_app, app_assoc. reflexivity.
  - intros key Hkey. rewrite Hframe2, Hframe1; [reflexivity|exact Hkey|congruence].
Qed.

(** Emitting, drawing identifiers and rewriting the run's own entry stay
    within the footprint. *)
Lemma footprint_own_entry (m : Machine) (table : gmap string MessageInProgress)
  (evs : list RuntimeEvent) (n : nat) :
  (forall key : string,
      key <> runId (streamState m) ->
      table !! key = messagesInProgress (streamState m) !! key) ->
  Footprint m (withTable table (withEmitted evs (withDrawn n m))).
Proof.
  intros Hframe. footprint_split; cbn; try reflexivity; try lia; [|exact Hframe].
  exists evs. reflexivity.
Qed.

Lemma footprint_emitted (m : Machine) (evs : list RuntimeEvent) :
  Footprint m (withEmitted evs m).
Proof.
  footprint_split; cbn; try (intros; reflexivity); try lia. exists evs. reflexivity.
Qed.

Lemma handleChatModelStream_footprint ev m :
  Footprint m (snd (handleChatModelStream ev m))
  /\ currentNodeName (streamState (snd (handleChatModelStream ev m)))
     = currentNodeName (streamState m).
Proof.
  unfold handleChatModelStream.
  destruct (data_chunk ev) as [chunk|] eqn:Hchunk; [|split; [apply footprint_refl|reflexivity]].
  destruct (truthy (opt_get (response_metadata chunk) "finish_reason")) eqn:Hfin;
    [split; [apply footprint_refl|reflexivity]|].
  pose proof (handleChatModelStream_run ev chunk m Hchunk Hfin) as Hrun.
  unfold handleChatModelStream in Hrun. rewrite Hchunk, Hfin in Hrun. rewrite Hrun.
  clear Hrun.
  assert (Htext : Footprint m (snd (textBlock ev chunk (streamState m) m))
                  /\ currentNodeName (streamState (snd (textBlock ev chunk (streamState m) m)))
                     = currentNodeName (streamState m)).
  { rewrite textBlock_run. cbn zeta.
    destruct (truthy (resolvedText (content chunk)) && truthy (shouldEmitMessages ev));
      [|split; [apply footprint_refl|reflexivity]].
    destruct (negb (unitOpen m) || truthy_str (currentUnit m ≫= toolCallId)).
    - split; [|reflexivity]. apply footprint_own_entry.
      intros key Hkey. apply lookup_insert_ne. congruence.
    - split; [apply footprint_emitted|reflexivity]. }
  rewrite toolCallBlock_run.
  destruct (toolCallOf chunk) as [toolCall|]; [|exact Htext].
  destruct (startsToolCall ev toolCall m).
  - split; [|reflexivity]. apply footprint_own_entry.
    intros key Hkey. apply lookup_insert_ne. congruence.
  - destruct (streamsToolArgs ev toolCall m); [|exact Htext].
    destruct (JSON_stringify (tc_args toolCall)) as [args|e].
    + split; [apply footprint_emitted|reflexivity].
    + split; [apply footprint_refl|reflexivity].
Qed.

Lemma handleChatModelEnd_footprint m :
  Footprint m (snd (handleChatModelEnd m))
  /\ currentNodeName (streamState (snd (handleChatModelEnd m)))
     = currentNodeName (streamState m).
Proof.
  rewrite handleChatModelEnd_run. split; [|reflexivity].
  apply (footprint_own_entry m _ _ 0).
  intros key Hkey. apply lookup_delete_ne. congruence.
Qed.

Lemma dispatch_footprint ev debug m :
  Footprint m (snd (dispatch ev debug m))
  /\ currentNodeName (streamState (snd (dispatch ev debug m)))
     = default (currentNodeName (streamState m)) (recordsNode ev).
Proof.
  unfold dispatch, recordsNode.
  destruct (String.eqb (event ev) "on_chat_model_stream") eqn:Hstream.
  { apply String.eqb_eq in Hstream. rewrite Hstream. apply handleChatModelStream_footprint. }
  destruct (String.eqb (event ev) "on_chat_model_end") eqn:Hend.
  { apply String.eqb_eq in Hend. rewrite Hend. apply handleChatModelEnd_footprint. }
  destruct (String.eqb (event ev) "on_custom_event") eqn:Hcustom.
  { apply String.eqb_eq in Hcustom. rewrite Hcustom.
    destruct debug; split; try apply footprint_refl; reflexivity. }
  destruct (String.eqb (event ev) "on_chain_start") eqn:Hchain.
  - unfold handleChainStart. cbn [andb].
    destruct (truthy _ && negb _); [|split; [apply footprint_refl|reflexivity]].
    split; [|reflexivity].
    footprint_split; cbn; try (intros; reflexivity); try lia.
    exists []. symmetry; apply app_nil_r.
  - destruct debug; split; try apply footprint_refl; reflexivity.
Qed.

Section DispatcherFootprint.
Context `{Externals}.

Lemma handleLangGraphEvent_footprint ev debug m :
  fst (handleLangGraphEvent ev debug m) = Normal tt
  /\ Footprint (adoptRunId ev m) (snd (handleLangGraphEvent ev debug m))
  /\ currentNodeName (streamState (snd (handleLangGraphEvent ev debug m)))
     = default (currentNodeName (streamState m)) (recordsNode ev).
Proof.
  rewrite handleLangGraphEvent_run.
  pose proof (dispatch_footprint ev debug (adoptRunId ev m)) as [Hfoot Hnode].
  assert (Hsame : currentNodeName (streamState (adoptRunId ev m))
                  = currentNodeName (streamState m))
    by (unfold adoptRunId; destruct (negb _ && _); reflexivity).
  rewrite Hsame in Hnode.
  pose proof (dispatch_step ev debug (adoptRunId ev m)) as Hstep.
  destruct (dispatch ev debug (adoptRunId ev m)) as [[[]|e] m']; cbn [fst snd] in *.
  - auto.
  - cbn in Hstep. subst m'. split; [reflexivity|]. split; [apply footprint_emitted|].
    exact Hnode.
Qed.

(** X1: whatever the event and the state, the dispatcher returns normally,
    and all it does to the sink is append runtime events: it never completes
    the sink and never drops or reorders what was sent. *)
Theorem dispatcher_returns_and_appends (ev : StreamEvent) (debug : bool) (m : Machine) :
  exists (evs : list RuntimeEvent) (m' : Machine),
    handleLangGraphEvent ev debug m = (Normal tt, m')
    /\ sink m' = sink m ++ map SinkNext evs
    /\ completions (sink m') = completions (sink m).
Proof.
  destruct (handleLangGraphEvent_footprint ev debug m)
    as (Hreturn & (_ & _ & _ & _ & (evs & Hsink) & _) & _).
  rewrite sink_adoptRunId in Hsink.
  exists evs, (snd (handleLangGraphEvent ev debug m)). split; [|split].
  - destruct (handleLangGraphEvent ev debug m) as [o m']. cbn in Hreturn. subst o.
    reflexivity.
  - exact Hsink.
  - rewrite Hsink, completions_app, completions_next. lia.
Qed.

(** X2: an event is handled within its run: the entries of all other runs
    stay as they are, and the error flag is not touched. *)
Theorem other_runs_untouched (ev : StreamEvent) (debug : bool) (m : Machine) (key : string) :
  key <> runId (streamState (adoptRunId ev m)) ->
  messagesInProgress (streamState (snd (handleLangGraphEvent ev debug m))) !! key
  = messagesInProgress (streamState m) !! key
  /\ hasError (streamState (snd (handleLangGraphEvent ev debug m)))
     = hasError (streamState m).
Proof.
  intros Hkey.
  destruct (handleLangGraphEvent_footprint ev debug m)
    as (_ & (_ & Herr & _ & _ & _ & Hframe) & _).
  rewrite (Hframe key Hkey), Herr.
  unfold adoptRunId. destruct (negb _ && _); split; reflexivity.
Qed.

(** X3: events without a lifecycle handler (custom events, unknown kinds,
    chain starts) emit nothing and touch no unit; all they can change is the
    adopted run id and, for a chain start, the recorded node. *)
Theorem other_events_only_track_node (ev : StreamEvent) (debug : bool) (m : Machine) :
  isLifecycleEvent ev = false ->
  handleLangGraphEvent ev debug m
  = (Normal tt,
     withNode (default (currentNodeName (streamState m)) (recordsNode ev)) (adoptRunId ev m)).
Proof.
  unfold isLifecycleEvent. intros Hkind. apply orb_false_iff in Hkind as [Hstream Hend].
  rewrite handleLangGraphEvent_run. unfold dispatch, recordsNode.
  rewrite Hstream, Hend.
  assert (Hnode : currentNodeName (streamState (adoptRunId ev m))
                  = currentNodeName (streamState m))
    by (unfold adoptRunId; destruct (negb _ && _); reflexivity).
  assert (Hkeep : withNode (currentNodeName (streamState m)) (adoptRunId ev m)
                  = adoptRunId ev m).
  { rewrite <- Hnode. destruct (adoptRunId ev m) as [[run table node err] log supply drawn].
    reflexivity. }
  destruct (String.eqb (event ev) "on_custom_event") eqn:Hcustom.
  { apply String.eqb_eq in Hcustom. rewrite Hcustom.
    change (String.eqb "on_custom_event" "on_chain_start") with false.
    cbn [andb default]. rewrite Hkeep. destruct debug; reflexivity. }
  destruct (String.eqb (event ev) "on_chain_start").
  - unfold handleChainStart. cbn [andb].
    destruct (truthy _ && negb _); cbn [default]; [reflexivity|].
    rewrite Hkeep. reflexivity.
  - cbn [andb default]. rewrite Hkeep. destruct debug; reflexivity.
Qed.

End DispatcherFootprint.

Lemma other_runs_untouched_witness :
  "run-0" <> runId (streamState (adoptRunId (textDelta "a") unsetRunMachine))
  /\ messagesInProgress
       (streamState (snd (@handleLangGraphEvent sampleExternals (textDelta "a") false
                            unsetRunMachine))) !! "run-0"
     = Some (mkMessageInProgress "msg-0" None None).
Proof.
  assert (Hother : "run-0" <> runId (streamState (adoptRunId (textDelta "a") unsetRunMachine)))
    by discriminate.
  split; [exact Hother|].
  exact (proj1 (@other_runs_untouched sampleExternals (textDelta "a") false unsetRunMachine
                  "run-0" Hother)).
Defined.

Lemma other_events_only_track_node_witness :
  isLifecycleEvent (chainStart "agent") = false
  /\ @handleLangGraphEvent sampleExternals (chainStart "agent") false toolUnitMachine
     = (Normal tt, withNode (JStr "agent") toolUnitMachine).
Proof.
  split; [reflexivity|].
  apply (@other_events_only_track_node sampleExternals (chainStart "agent") false
           toolUnitMachine).
  reflexivity.
Defined.

Section LoopFootprint.
Context `{Externals}.

Lemma forAwait_footprint (eventStream : EventSource) debug m :
  truthy_str (Some (runId (streamState m))) = true ->
  Footprint m (snd (forAwait eventStream debug m)).
Proof.
  revert m. induction eventStream as [|e|ev rest IH]; intros m Hrun.
  - apply footprint_refl.
  - apply footprint_refl.
  - destruct (handleLangGraphEvent_footprint ev debug m) as (Hreturn & Hfoot & _).
    rewrite (adoptRunId_idle ev m Hrun) in Hfoot.
    cbn [forAwait]. unfold bind.
    destruct (handleLangGraphEvent ev debug m) as [o m1]. cbn [fst snd] in *. subst o.
    apply (footprint_trans m m1); [exact Hfoot|].
    apply IH. destruct Hfoot as (-> & _). exact Hrun.
Qed.

(** The loop of the driver, entered with the stream state just created. *)
Lemma processLangGraphStream_loop (eventStream : EventSource) debug m :
  processLangGraphStream eventStream debug m
  = try_finally
      (try_catch (forAwait eventStream debug ;;; when debug console_log)
         (fun error =>
            when debug console_log ;;;
            throw (convertServiceAdapterError error "LangGraph")))
      eventStream_complete (freshStart m).
Proof. destruct debug; reflexivity. Qed.

Lemma processLangGraphStream_state (eventStream : EventSource) debug m :
  streamState (snd (processLangGraphStream eventStream debug m))
  = streamState (snd (forAwait eventStream debug (freshStart m))).
Proof.
  rewrite processLangGraphStream_loop. unfold try_finally, try_catch, bind.
  destruct (forAwait eventStream debug (freshStart m)) as [[[]|e] m'];
    destruct debug; reflexivity.
Qed.

(** X4: the run id of an invocation is the identifier generated when its
    stream state is created: it is never empty, so no event's [run_id] is
    ever adopted; the invocation works on that one table entry only and
    never raises the error flag. *)
Theorem invocation_keeps_generated_run_id
  (eventStream : EventSource) (debug : bool) (m : Machine) :
  let final := streamState (snd (processLangGraphStream eventStream debug m)) in
  runId final = nextUUID 0 m
  /\ runId final <> ""
  /\ hasError final = false
  /\ forall key : string, key <> runId final -> messagesInProgress final !! key = None.
Proof.
  cbn zeta. rewrite processLangGraphStream_state.
  assert (Hrun : truthy_str (Some (runId (streamState (freshStart m)))) = true)
    by apply uuid_truthy.
  destruct (forAwait_footprint eventStream debug (freshStart m) Hrun)
    as (Hid & Herr & _ & _ & _ & Hframe).
  rewrite Hid, Herr. split; [reflexivity|]. split; [apply uuid_to_string_nonempty|].
  split; [reflexivity|].
  intros key Hkey. rewrite (Hframe key Hkey). apply lookup_empty.
Qed.

Lemma forAwait_yieldAll (evs : list StreamEvent) (tail : EventSource) debug m :
  exists m1 : Machine,
    forAwait (yieldAll evs tail) debug m = forAwait tail debug m1
    /\ m1 = snd (forAwait (yieldAll evs SourceEnd) debug m).
Proof.
  revert m. induction evs as [|ev rest IH]; intros m.
  - exists m. split; reflexivity.
  - destruct (handleLangGraphEvent_footprint ev debug m) as (Hreturn & _).
    cbn [yieldAll forAwait]. unfold bind.
    destruct (handleLangGraphEvent ev debug m) as [o m0]. cbn in Hreturn. subst o.
    apply IH.
Qed.

Lemma forAwait_source_end (tail : EventSource) debug m :
  isSourceEnd tail = true -> snd (forAwait tail debug m) = m.
Proof. destruct tail; [reflexivity..|discriminate]. Qed.

Lemma forAwait_no_run_id (evs : list StreamEvent) debug m :
  runId (streamState m) = "" ->
  Forall (fun ev => hasNoRunId ev = true) evs ->
  runId (streamState (snd (forAwait (yieldAll evs SourceEnd) debug m))) = "".
Proof.
  intros Hrun Hevs. revert m Hrun.
  induction Hevs as [|ev rest Hev _ IH]; intros m Hrun; [exact Hrun|].
  destruct (handleLangGraphEvent_footprint ev debug m) as (Hreturn & (Hid & _) & _).
  cbn [yieldAll forAwait]. unfold bind.
  destruct (handleLangGraphEvent ev debug m) as [o m0]. cbn [fst snd] in *. subst o.
  apply IH. rewrite Hid. unfold adoptRunId, hasNoRunId in *.
  rewrite Hrun. cbn. rewrite Hev. exact Hrun.
Qed.

(** X5: first writer wins: a stream state without a run id adopts the run id
    of the first event that carries one, and no later event changes it. *)
Theorem first_run_id_is_adopted
  (before after : list StreamEvent) (ev : StreamEvent) (tail : EventSource)
  (debug : bool) (m : Machine) :
  runId (streamState m) = "" ->
  Forall (fun e => hasNoRunId e = true) before ->
  hasNoRunId ev = false ->
  runId (streamState
           (snd (forAwait (yieldAll before (SourceYield ev (yieldAll after tail))) debug m)))
  = run_id ev.
Proof.
  intros Hrun Hbefore Hev.
  destruct (forAwait_yieldAll before (SourceYield ev (yieldAll after tail)) debug m)
    as (m1 & -> & Hm1).
  pose proof (forAwait_no_run_id before debug m Hrun Hbefore) as Hrun1.
  rewrite <- Hm1 in Hrun1. clear Hm1.
  destruct (handleLangGraphEvent_footprint ev debug m1) as (Hreturn & (Hid & _) & _).
  cbn [forAwait]. unfold bind.
  destruct (handleLangGraphEvent ev debug m1) as [o m2]. cbn [fst snd] in *. subst o.
  assert (Hadopted : runId (streamState m2) = run_id ev).
  { rewrite Hid. unfold adoptRunId, hasNoRunId in *. rewrite Hrun1. cbn. rewrite Hev.
    reflexivity. }
  assert (Htruthy : truthy_str (Some (runId (streamState m2))) = true).
  { rewrite Hadopted. unfold hasNoRunId in Hev. cbn. rewrite Hev. reflexivity. }
  destruct (forAwait_footprint (yieldAll after tail) debug m2 Htruthy) as (-> & _).
  exact Hadopted.
Qed.

Lemma forAwait_keeps_node (evs : list StreamEvent) debug m :
  Forall (fun ev => recordsNode ev = None) evs ->
  currentNodeName (streamState (snd (forAwait (yieldAll evs SourceEnd) debug m)))
  = currentNodeName (streamState m).
Proof.
  intros Hevs. revert m.
  induction Hevs as [|ev rest Hev _ IH]; intros m; [reflexivity|].
  destruct (handleLangGraphEvent_footprint ev debug m) as (Hreturn & _ & Hnode).
  cbn [yieldAll forAwait]. unfold bind.
  destruct (handleLangGraphEvent ev debug m) as [o m0]. cbn [fst snd] in *. subst o.
  rewrite IH, Hnode, Hev. reflexivity.
Qed.

(** X6: the recorded node is the one of the last chain start that names a
    node other than [START]; every other event, whatever it does to the
    units, leaves the recorded node as it is. *)
Theorem last_chain_start_is_recorded
  (before after : list StreamEvent) (ev : StreamEvent) (node : JsValue) (tail : EventSource)
  (debug : bool) (m : Machine) :
  recordsNode ev = Some node ->
  Forall (fun e => recordsNode e = None) after ->
  isSourceEnd tail = true ->
  currentNodeName
    (streamState
       (snd (forAwait (yieldAll before (SourceYield ev (yieldAll after tail))) debug m)))
  = node.
Proof.
  intros Hev Hafter Htail.
  destruct (forAwait_yieldAll before (SourceYield ev (yieldAll after tail)) debug m)
    as (m1 & -> & _).
  destruct (handleLangGraphEvent_footprint ev debug m1) as (Hreturn & _ & Hnode).
  cbn [forAwait]. unfold bind.
  destruct (handleLangGraphEvent ev debug m1) as [o m2]. cbn [fst snd] in *. subst o.
  destruct (forAwait_yieldAll after tail debug m2) as (m3 & -> & ->).
  rewrite (forAwait_source_end tail debug _ Htail), (forAwait_keeps_node after debug m2 Hafter).
  rewrite Hnode, Hev. reflexivity.
Qed.

End LoopFootprint.

Lemma first_run_id_is_adopted_witness :
  runId (streamState unsetRunMachine) = ""
  /\ hasNoRunId (textDelta "a") = false
  /\ runId (streamState
              (snd (@forAwait sampleExternals
                      (yieldAll [mkEvent "on_custom_event" "" None None]
                         (SourceYield (textDelta "a") (yieldAll [customEvent] SourceEnd)))
                      false unsetRunMachine)))
     = "run-1".
Proof.
  split; [reflexivity|]. split; [reflexivity|].
  apply (@first_run_id_is_adopted sampleExternals
           [mkEvent "on_custom_event" "" None None] [customEvent] (textDelta "a") SourceEnd
           false unsetRunMachine);
    [reflexivity|repeat constructor|reflexivity].
Defined.

Lemma last_chain_start_is_recorded_witness :
  recordsNode (chainStart "tools") = Some (JStr "tools")
  /\ recordsNode (chainStart START) = None
  /\ currentNodeName
       (streamState
          (snd (@forAwait sampleExternals
                  (yieldAll [chainStart "agent"]
                     (SourceYield (chainStart "tools")
                        (yieldAll [chainStart START; textDelta "a"] SourceEnd)))
                  false sampleMachine)))
     = JStr "tools".
Proof.
  split; [reflexivity|]. split; [reflexivity|].
  apply (@last_chain_start_is_recorded sampleExternals
           [chainStart "agent"] [chainStart START; textDelta "a"] (chainStart "tools")
           (JStr "tools") SourceEnd false sampleMachine);
    [reflexivity|repeat constructor|reflexivity].
Defined.

(** ** Traces of an invocation *)

Lemma scanWith_app {S : Type} (step : S -> RuntimeEvent -> option S) (s : S)
  (trace1 trace2 : list RuntimeEvent) :
  scanWith step s (trace1 ++ trace2)
  = scanWith step s trace1 ≫= fun s' => scanWith step s' trace2.
Proof.
  revert s. induction trace1 as [|e rest IH]; intros s; [reflexivity|].
  cbn [scanWith app]. destruct (step s e); [apply IH|reflexivity].
Qed.

Section Scanning.
Context `{Externals}.
Variable S : Type.
Variable step : S -> RuntimeEvent -> option S.
Variable Inv : S -> option MessageInProgress -> Prop.
Hypothesis step_handler :
  forall (s : S) (unit : option MessageInProgress) (evs : list RuntimeEvent)
         (unit' : option MessageInProgress),
    HandlerStep unit evs unit' -> Inv s unit ->
    exists s', scanWith step s evs = Some s' /\ Inv s' unit'.
Hypothesis step_error : forall (s : S) (message code : string),
    step s (RunError message code) = Some s.

Lemma forAwait_scanWith (eventStream : EventSource) debug m (s : S) :
  truthy_str (Some (runId (streamState m))) = true ->
  Inv s (currentUnit m) ->
  exists (evs : list RuntimeEvent) (s' : S),
    sink (snd (forAwait eventStream debug m)) = sink m ++ map SinkNext evs
    /\ scanWith step s evs = Some s'.
Proof.
  revert m s. induction eventStream as [|e|ev rest IH]; intros m s Hrun Hinv.
  - exists [], s. split; [apply sink_unchanged|reflexivity].
  - exists [], s. split; [apply sink_unchanged|reflexivity].
  - destruct (handleLangGraphEvent_step ev debug m)
      as (evs1 & m1 & Hrun1 & Hsink1 & Hid1 & Hstep).
    rewrite (adoptRunId_idle ev m Hrun) in Hid1, Hstep.
    assert (Hscan1 : exists s1, scanWith step s evs1 = Some s1 /\ Inv s1 (currentUnit m1)).
    { destruct Hstep as [Hstep|[[e ->] Hsame]].
      - apply (step_handler s _ _ _ Hstep Hinv).
      - exists s. split; [|rewrite Hsame; exact Hinv].
        unfold runErrorFor. cbn. rewrite step_error. reflexivity. }
    destruct Hscan1 as (s1 & Hscan1 & Hinv1).
    rewrite <- Hid1 in Hrun.
    destruct (IH m1 s1 Hrun Hinv1) as (evs2 & s2 & Hsink2 & Hscan2).
    exists (evs1 ++ evs2), s2. split.
    + cbn [forAwait]. rewrite (bind_run _ _ _ _ _ Hrun1).
      rewrite Hsink2, Hsink1, map_app, app_assoc. reflexivity.
    + rewrite scanWith_app, Hscan1. exact Hscan2.
Qed.

Lemma invocation_scanWith (eventStream : EventSource) debug m (s : S) :
  Inv s None ->
  exists s', scanWith step s (emittedBy (processLangGraphStream eventStream debug) m) = Some s'.
Proof.
  intros Hinv.
  destruct (forAwait_scanWith eventStream debug (freshStart m) s) as (evs & s' & Hsink & Hscan).
  { apply uuid_truthy. }
  { exact Hinv. }
  exists s'. rewrite <- Hscan. f_equal.
  unfold emittedBy. rewrite processLangGraphStream_loop.
  unfold try_finally, try_catch, bind.
  change (sink (freshStart m)) with (sink m) in Hsink.
  destruct (forAwait eventStream debug (freshStart m)) as [[[]|e] m'] eqn:Hrun;
    cbn [snd] in Hsink; destruct debug; cbn;
    rewrite Hsink, <- app_assoc, drop_app_length, emitted_app, emitted_next;
    apply app_nil_r.
Qed.

End Scanning.

Lemma textIdOf_closed (unit : option MessageInProgress) :
  negb (truthy_str (mip_id <$> unit)) || truthy_str (unit ≫= toolCallId) = true ->
  textIdOf unit = None.
Proof.
  destruct unit as [entry|]; [|reflexivity]. cbn. unfold isTextUnit. cbn.
  destruct (truthy_str (toolCallId entry)); [reflexivity|].
  rewrite orb_false_r. intros Hclosed. apply negb_true_iff in Hclosed. rewrite Hclosed.
  reflexivity.
Qed.

Lemma textIdOf_text (unit : option MessageInProgress) :
  truthy_str (mip_id <$> unit) = true ->
  truthy_str (unit ≫= toolCallId) = false ->
  textIdOf unit = Some (default "" (mip_id <$> unit)).
Proof.
  destruct unit as [entry|]; [|discriminate]. cbn. unfold isTextUnit. cbn.
  intros -> ->. reflexivity.
Qed.

Lemma textIdOf_closing (unit : option MessageInProgress) :
  scanWith textStep (textIdOf unit) (closingEvents unit) = Some None.
Proof.
  destruct unit as [entry|]; [|reflexivity]. cbn.
  unfold isTextUnit, isToolCallUnit.
  destruct (truthy_str (toolCallId entry)); [reflexivity|]. cbn.
  destruct (negb (String.eqb (mip_id entry) "")); [|reflexivity].
  cbn. rewrite String.eqb_refl. reflexivity.
Qed.

Lemma textStep_handler (open : option string) (unit : option MessageInProgress)
  (evs : list RuntimeEvent) (unit' : option MessageInProgress) :
  HandlerStep unit evs unit' ->
  open = textIdOf unit ->
  exists open', scanWith textStep open evs = Some open' /\ open' = textIdOf unit'.
Proof.
  intros Hstep ->.
  destruct Hstep as [unit|unit eventId name parent entry Hclosed Hkind Hid
                    |unit args Hopen Hcall|unit messageId text Hfree Hid
                    |unit text Hopen Hcall|unit].
  - eexists. split; reflexivity.
  - rewrite (textIdOf_closed unit) by (rewrite Hclosed; reflexivity).
    exists None. split; [reflexivity|].
    cbn. unfold isTextUnit. unfold isToolCallUnit in Hkind. rewrite Hkind. reflexivity.
  - rewrite (textIdOf_closed unit) by (rewrite Hcall; apply orb_true_r).
    exists None. split; reflexivity.
  - rewrite (textIdOf_closed unit Hfree).
    exists (Some messageId). split.
    + cbn. rewrite String.eqb_refl. reflexivity.
    + cbn. unfold isTextUnit. cbn in *. rewrite Hid. reflexivity.
  - rewrite (textIdOf_text unit Hopen Hcall).
    eexists. split; [|reflexivity]. cbn. rewrite String.eqb_refl. reflexivity.
  - exists None. split; [apply textIdOf_closing|reflexivity].
Qed.

(** Reading back from an event of an open text message to its start. *)
Lemma textStep_back (open : option string) (before : list RuntimeEvent) (messageId : string) :
  scanWith textStep open before = Some (Some messageId) ->
  (open = Some messageId
   /\ Forall (fun e => insideTextMessage messageId e = true) before)
  \/ exists pre mid : list RuntimeEvent,
      before = pre ++ TextMessageStart messageId :: mid
      /\ Forall (fun e => insideTextMessage messageId e = true) mid.
Proof.
  revert open. induction before as [|e rest IH]; intros open Hscan.
  - injection Hscan as ->. left. split; [reflexivity|constructor].
  - cbn [scanWith] in Hscan.
    destruct (textStep open e) as [open1|] eqn:Hstep; [|discriminate].
    destruct (IH open1 Hscan) as [[-> Hinside]|(pre & mid & -> & Hinside)].
    2:{ right. exists (e :: pre), mid. split; [reflexivity|exact Hinside]. }
    destruct e; cbn in Hstep.
    + destruct open; [discriminate|]. injection Hstep as ->.
      right. exists [], rest. split; [reflexivity|exact Hinside].
    + destruct open as [openId|]; [|discriminate].
      destruct (String.eqb openId messageId0) eqn:Heq; [|discriminate].
      injection Hstep as ->. apply String.eqb_eq in Heq as <-.
      left. split; [reflexivity|]. constructor; [|exact Hinside].
      cbn. apply String.eqb_refl.
    + destruct open as [openId|]; [|discriminate].
      destruct (String.eqb openId messageId0); discriminate.
    + destruct open; discriminate.
    + destruct open; discriminate.
    + destruct open; discriminate.
    + injection Hstep as ->. left. split; [reflexivity|].
      constructor; [reflexivity|exact Hinside].
Qed.

Lemma textStep_accepts (open : option string) (e : RuntimeEvent) (messageId : string)
  (result : option string) :
  textMessageOf e = Some messageId ->
  textStep open e = Some result ->
  open = Some messageId.
Proof.
  destruct e; try discriminate; cbn; intros [= ->];
    (destruct open as [openId|]; [|discriminate]);
    (destruct (String.eqb openId messageId) eqn:Heq; [|discriminate]);
    apply String.eqb_eq in Heq as ->; reflexivity.
Qed.

(** X7: text messages are well bracketed in the trace of an invocation:
    every TextMessageContent and TextMessageEnd belongs to a message that
    was started with the same messageId, and between that start and the event
    lie only contents of this message and error reports --- no end, no other
    start, no tool-call event. *)
Theorem text_message_is_contiguous `{Externals}
  (eventStream : EventSource) (debug : bool) (m : Machine)
  (before after : list RuntimeEvent) (e : RuntimeEvent) (messageId : string) :
  emittedBy (processLangGraphStream eventStream debug) m = before ++ e :: after ->
  textMessageOf e = Some messageId ->
  exists pre mid : list RuntimeEvent,
    before = pre ++ TextMessageStart messageId :: mid
    /\ Forall (fun e' => insideTextMessage messageId e' = true) mid.
Proof.
  intros Htrace Hevent.
  destruct (invocation_scanWith _ textStep (fun open unit => open = textIdOf unit)
              textStep_handler (fun _ _ _ => eq_refl) eventStream debug m None eq_refl)
    as (final & Hscan).
  rewrite Htrace, scanWith_app in Hscan.
  destruct (scanWith textStep None before) as [open|] eqn:Hbefore; [|discriminate].
  cbn [mbind option_bind scanWith] in Hscan.
  destruct (textStep open e) as [open1|] eqn:Hstep; [|discriminate].
  rewrite (textStep_accepts open e messageId open1 Hevent Hstep) in Hbefore.
  destruct (textStep_back None before messageId Hbefore) as [[Hopen _]|Hfound];
    [discriminate|exact Hfound].
Qed.

Lemma text_message_is_contiguous_witness :
  textMessageOf (TextMessageEnd (nextUUID 1 sampleMachine)) = Some (nextUUID 1 sampleMachine)
  /\ exists pre mid : list RuntimeEvent,
      [TextMessageStart (nextUUID 1 sampleMachine);
       TextMessageContent (nextUUID 1 sampleMachine) (JStr "a");
       TextMessageContent (nextUUID 1 sampleMachine) (JStr "b")]
      = pre ++ TextMessageStart (nextUUID 1 sampleMachine) :: mid
      /\ Forall (fun e' => insideTextMessage (nextUUID 1 sampleMachine) e' = true) mid.
Proof.
  split; [reflexivity|].
  apply (@text_message_is_contiguous sampleExternals mixedSource false sampleMachine
           [TextMessageStart (nextUUID 1 sampleMachine);
            TextMessageContent (nextUUID 1 sampleMachine) (JStr "a");
            TextMessageContent (nextUUID 1 sampleMachine) (JStr "b")]
           [ActionExecutionStart (nextUUID 2 sampleMachine) "search" None;
            ActionExecutionArgs (nextUUID 4 sampleMachine) (JStr json_query_cats);
            ActionExecutionArgs (nextUUID 4 sampleMachine) (JStr json_query_cats);
            ActionExecutionEnd (nextUUID 4 sampleMachine);
            ActionExecutionStart "call_2" "lookup" None;
            ActionExecutionEnd "call_2"]
           (TextMessageEnd (nextUUID 1 sampleMachine)) (nextUUID 1 sampleMachine));
    [vm_compute; reflexivity|reflexivity].
Defined.

Lemma unitStep_closing (open : bool) (unit : option MessageInProgress) :
  (open = true -> truthy_str (mip_id <$> unit) = true) ->
  scanWith unitStep open (closingEvents unit) = Some false.
Proof.
  intros Hopen. destruct unit as [entry|]; cbn.
  - destruct (isToolCallUnit entry) eqn:Hcall; [reflexivity|].
    destruct (isTextUnit entry) eqn:Htext; [reflexivity|].
    destruct open; [|reflexivity].
    unfold isTextUnit, isToolCallUnit in *. rewrite Hcall in Htext. cbn in *.
    rewrite (Hopen eq_refl) in Htext. discriminate.
  - destruct open; [|reflexivity]. discriminate (Hopen eq_refl).
Qed.

Lemma unitStep_handler (open : bool) (unit : option MessageInProgress)
  (evs : list RuntimeEvent) (unit' : option MessageInProgress) :
  HandlerStep unit evs unit' ->
  (open = true -> truthy_str (mip_id <$> unit) = true) ->
  exists open', scanWith unitStep open evs = Some open'
                /\ (open' = true -> truthy_str (mip_id <$> unit') = true).
Proof.
  intros Hstep Hinv.
  destruct Hstep as [unit|unit eventId name parent entry Hclosed Hkind Hid
                    |unit args Hopen Hcall|unit messageId text Hfree Hid
                    |unit text Hopen Hcall|unit].
  - exists open. split; [reflexivity|exact Hinv].
  - destruct open; [rewrite (Hinv eq_refl) in Hclosed; discriminate|].
    exists true. split; [reflexivity|]. intros _. exact Hid.
  - exists open. split; [reflexivity|exact Hinv].
  - exists true. split; [reflexivity|]. intros _. exact Hid.
  - exists open. split; [reflexivity|exact Hinv].
  - exists false. split; [apply unitStep_closing; exact Hinv|discriminate].
Qed.

Lemma unitStep_between (between after : list RuntimeEvent)
  (callId name : string) (parent : option string) (result : bool) :
  scanWith unitStep true (between ++ ActionExecutionStart callId name parent :: after)
  = Some result ->
  Exists (fun e => isEnd e = true) between.
Proof.
  assert (Hgen : forall open : bool,
            scanWith unitStep open (between ++ ActionExecutionStart callId name parent :: after)
            = Some result ->
            open = false \/ Exists (fun e => isEnd e = true) between).
  { induction between as [|e rest IH]; intros open Hscan.
    - cbn in Hscan. destruct open; [discriminate|left; reflexivity].
    - cbn [app scanWith] in Hscan.
      destruct (unitStep open e) as [open1|] eqn:Hstep; [|discriminate].
      destruct (IH open1 Hscan) as [->|Hlater]; [|right; right; exact Hlater].
      destruct e; cbn in Hstep; try discriminate;
        try (right; left; reflexivity);
        try (injection Hstep as <-; left; reflexivity).
      destruct open; [discriminate|left; reflexivity]. }
  intros Hscan. destruct (Hgen true Hscan) as [Hno|Hfound]; [discriminate|exact Hfound].
Qed.

(** X8: one tool call at a time: in the trace of an invocation a tool call
    starts only when no unit is open, so between two ActionExecutionStart
    events there is always the end of a unit (an ActionExecutionEnd or a
    TextMessageEnd). *)
Theorem tool_calls_start_one_at_a_time `{Externals}
  (eventStream : EventSource) (debug : bool) (m : Machine)
  (before between after : list RuntimeEvent)
  (id1 name1 id2 name2 : string) (parent1 parent2 : option string) :
  emittedBy (processLangGraphStream eventStream debug) m
  = before ++ ActionExecutionStart id1 name1 parent1
      :: between ++ ActionExecutionStart id2 name2 parent2 :: after ->
  Exists (fun e => isEnd e = true) between.
Proof.
  intros Htrace.
  destruct (invocation_scanWith _ unitStep
              (fun open unit => open = true -> truthy_str (mip_id <$> unit) = true)
              unitStep_handler (fun _ _ _ => eq_refl) eventStream debug m false)
    as (final & Hscan); [discriminate|].
  rewrite Htrace, scanWith_app in Hscan.
  destruct (scanWith unitStep false before) as [open|]; [|discriminate].
  cbn [mbind option_bind scanWith unitStep] in Hscan.
  destruct open; [discriminate|].
  exact (unitStep_between _ _ _ _ _ _ Hscan).
Qed.

Lemma tool_calls_start_one_at_a_time_witness :
  Exists (fun e => isEnd e = true)
    [ActionExecutionArgs (nextUUID 4 sampleMachine) (JStr json_query_cats);
     ActionExecutionArgs (nextUUID 4 sampleMachine) (JStr json_query_cats);
     ActionExecutionEnd (nextUUID 4 sampleMachine)].
Proof.
  apply (@tool_calls_start_one_at_a_time sampleExternals mixedSource false sampleMachine
           [TextMessageStart (nextUUID 1 sampleMachine);
            TextMessageContent (nextUUID 1 sampleMachine) (JStr "a");
            TextMessageContent (nextUUID 1 sampleMachine) (JStr "b");
            TextMessageEnd (nextUUID 1 sampleMachine)]
           [ActionExecutionArgs (nextUUID 4 sampleMachine) (JStr json_query_cats);
            ActionExecutionArgs (nextUUID 4 sampleMachine) (JStr json_query_cats);
            ActionExecutionEnd (nextUUID 4 sampleMachine)]
           [ActionExecutionEnd "call_2"]
           (nextUUID 2 sampleMachine) "search" "call_2" "lookup" None None).
  vm_compute; reflexivity.
Defined.

Lemma callStep_closing (known : option string) (unit : option MessageInProgress) :
  (forall callId, known = Some callId ->
     unit ≫= toolCallId = Some callId /\ truthy_str (Some callId) = true) ->
  scanWith callStep known (closingEvents unit) = Some None.
Proof.
  intros Hinv. destruct known as [callId|].
  - destruct (Hinv callId eq_refl) as [Hcall Htruthy].
    destruct unit as [entry|]; [|discriminate]. cbn in Hcall.
    cbn. unfold isToolCallUnit. rewrite Hcall, Htruthy. cbn.
    rewrite String.eqb_refl. reflexivity.
  - destruct unit as [entry|]; [|reflexivity]. cbn.
    destruct (isToolCallUnit entry); [reflexivity|].
    destruct (isTextUnit entry); reflexivity.
Qed.

Lemma callStep_handler (known : option string) (unit : option MessageInProgress)
  (evs : list RuntimeEvent) (unit' : option MessageInProgress) :
  HandlerStep unit evs unit' ->
  (forall callId, known = Some callId ->
     unit ≫= toolCallId = Some callId /\ truthy_str (Some callId) = true) ->
  exists known',
    scanWith callStep known evs = Some known'
    /\ (forall callId, known' = Some callId ->
          unit' ≫= toolCallId = Some callId /\ truthy_str (Some callId) = true).
Proof.
  intros Hstep Hinv.
  destruct Hstep as [unit|unit eventId name parent entry Hclosed Hkind Hid
                    |unit args Hopen Hcall|unit messageId text Hfree Hid
                    |unit text Hopen Hcall|unit].
  - exists known. split; [reflexivity|exact Hinv].
  - exists None. split; [reflexivity|discriminate].
  - destruct (unit ≫= toolCallId) as [callId|] eqn:Hrecorded; [|discriminate].
    exists (Some callId). split.
    + cbn. destruct known as [knownId|]; [|reflexivity].
      destruct (Hinv knownId eq_refl) as [[= ->] _]. rewrite String.eqb_refl. reflexivity.
    + intros callId' [= <-]. split; [reflexivity|exact Hcall].
  - exists None. split; [reflexivity|discriminate].
  - exists known. split; [reflexivity|exact Hinv].
  - exists None. split; [apply callStep_closing; exact Hinv|discriminate].
Qed.

Lemma callStep_inside (known : string) (mid : list RuntimeEvent) (result : option string) :
  Forall (fun e => isBoundary e = false) mid ->
  scanWith callStep (Some known) mid = Some result ->
  result = Some known.
Proof.
  induction 1 as [|e rest He _ IH]; cbn [scanWith]; [congruence|].
  destruct e; try discriminate; cbn; try exact IH.
  destruct (String.eqb known actionExecutionId) eqn:Heq; [|discriminate].
  apply String.eqb_eq in Heq as <-. exact IH.
Qed.

(** X9: the events of one tool call agree on its id: in the trace of an
    invocation, an ActionExecutionArgs and a later ActionExecutionArgs or
    ActionExecutionEnd with no start or end of a unit between them carry the
    same actionExecutionId. *)
Theorem tool_call_events_share_id `{Externals}
  (eventStream : EventSource) (debug : bool) (m : Machine)
  (before mid after : list RuntimeEvent) (callId laterId : string) (args : JsValue)
  (e : RuntimeEvent) :
  emittedBy (processLangGraphStream eventStream debug) m
  = before ++ ActionExecutionArgs callId args :: mid ++ e :: after ->
  Forall (fun e' => isBoundary e' = false) mid ->
  callIdOf e = Some laterId ->
  laterId = callId.
Proof.
  intros Htrace Hmid Hlater.
  destruct (invocation_scanWith _ callStep
              (fun known unit =>
                 forall callId, known = Some callId ->
                   unit ≫= toolCallId = Some callId /\ truthy_str (Some callId) = true)
              callStep_handler (fun _ _ _ => eq_refl) eventStream debug m None)
    as (final & Hscan); [discriminate|].
  rewrite Htrace, scanWith_app in Hscan.
  destruct (scanWith callStep None before) as [known|]; [|discriminate].
  cbn [mbind option_bind scanWith] in Hscan.
  destruct (callStep known (ActionExecutionArgs callId args)) as [known1|] eqn:Hargs;
    [|discriminate].
  assert (known1 = Some callId) as ->.
  { cbn in Hargs. destruct known as [knownId|]; [|congruence].
    destruct (String.eqb knownId callId); congruence. }
  rewrite scanWith_app in Hscan.
  destruct (scanWith callStep (Some callId) mid) as [known2|] eqn:Hinside; [|discriminate].
  rewrite (callStep_inside callId mid known2 Hmid Hinside) in Hscan.
  cbn [mbind option_bind scanWith] in Hscan.
  destruct e; try discriminate; cbn in Hlater; injection Hlater as ->; cbn in Hscan.
  - destruct (String.eqb callId laterId) eqn:Heq; [|discriminate].
    apply String.eqb_eq in Heq. congruence.
  - destruct (String.eqb callId laterId) eqn:Heq; [|discriminate].
    apply String.eqb_eq in Heq. congruence.
Qed.

Lemma tool_call_events_share_id_witness :
  callIdOf (ActionExecutionEnd (nextUUID 4 sampleMachine)) = Some (nextUUID 4 sampleMachine)
  /\ nextUUID 4 sampleMachine = nextUUID 4 sampleMachine.
Proof.
  split; [reflexivity|].
  apply (@tool_call_events_share_id sampleExternals mixedSource false sampleMachine
           [TextMessageStart (nextUUID 1 sampleMachine);
            TextMessageContent (nextUUID 1 sampleMachine) (JStr "a");
            TextMessageContent (nextUUID 1 sampleMachine) (JStr "b");
            TextMessageEnd (nextUUID 1 sampleMachine);
            ActionExecutionStart (nextUUID 2 sampleMachine) "search" None]
           [ActionExecutionArgs (nextUUID 4 sampleMachine) (JStr json_query_cats)]
           [ActionExecutionStart "call_2" "lookup" None; ActionExecutionEnd "call_2"]
           (nextUUID 4 sampleMachine) (nextUUID 4 sampleMachine) (JStr json_query_cats)
           (ActionExecutionEnd (nextUUID 4 sampleMachine)));
    [vm_compute; reflexivity|repeat constructor|reflexivity].
Defined.

(** ** Further properties of the handlers *)

(** X10: a token delta that carries nothing to emit --- no chunk, the finish
    marker, or no tool-call descriptor and content that is null, absent,
    empty or without a text block --- changes nothing: no event, no unit
    opened, and an open unit stays open. *)
Theorem empty_delta_is_ignored (ev : StreamEvent) (m : Machine) :
  carriesNothing ev = true ->
  handleChatModelStream ev m = (Normal tt, m).
Proof.
  unfold carriesNothing, handleChatModelStream.
  destruct (data_chunk ev) as [chunk|] eqn:Hchunk; [|reflexivity].
  destruct (truthy (opt_get (response_metadata chunk) "finish_reason")) eqn:Hfin;
    [reflexivity|].
  cbn [orb]. intros Hnothing. apply andb_true_iff in Hnothing as [Hcall Htext].
  pose proof (handleChatModelStream_run ev chunk m Hchunk Hfin) as Hrun.
  unfold handleChatModelStream in Hrun. rewrite Hchunk, Hfin in Hrun. rewrite Hrun.
  rewrite toolCallBlock_run.
  destruct (toolCallOf chunk); [discriminate|].
  rewrite textBlock_run. cbn zeta.
  rewrite resolveMessageContent_run in Htext. apply negb_true_iff in Htext.
  rewrite Htext. reflexivity.
Qed.

Lemma empty_delta_is_ignored_witness :
  carriesNothing (tokenDelta (mkChunk None JNull None None)) = true
  /\ handleChatModelStream (tokenDelta (mkChunk None JNull None None)) toolUnitMachine
     = (Normal tt, toolUnitMachine).
Proof.
  split; [reflexivity|].
  apply (empty_delta_is_ignored (tokenDelta (mkChunk None JNull None None)) toolUnitMachine).
  reflexivity.
Defined.

(** X11: with message emission off, a token delta emits no TextMessageStart,
    TextMessageContent or TextMessageEnd and opens no text unit: the table is
    as before, or the run's entry is a tool-call unit. *)
Theorem messages_suppressed (ev : StreamEvent) (m : Machine) :
  truthy (shouldEmitMessages ev) = false ->
  Forall (fun e => isTextMessage e = false) (emittedBy (handleChatModelStream ev) m)
  /\ (messagesInProgress (streamState (snd (handleChatModelStream ev m)))
      = messagesInProgress (streamState m)
      \/ exists entry : MessageInProgress,
          isToolCallUnit entry = true
          /\ messagesInProgress (streamState (snd (handleChatModelStream ev m)))
             = <[runId (streamState m) := entry]> (messagesInProgress (streamState m))).
Proof.
  intros Hoff.
  assert (Hidle : forall o, handleChatModelStream ev m = (o, m) ->
            Forall (fun e => isTextMessage e = false) (emittedBy (handleChatModelStream ev) m)
            /\ (messagesInProgress (streamState (snd (handleChatModelStream ev m)))
                = messagesInProgress (streamState m)
                \/ exists entry : MessageInProgress,
                    isToolCallUnit entry = true
                    /\ messagesInProgress (streamState (snd (handleChatModelStream ev m)))
                       = <[runId (streamState m) := entry]>
                           (messagesInProgress (streamState m)))).
  { intros o Hrun. rewrite (emittedBy_run _ _ _ _ [] Hrun (sink_unchanged m)), Hrun.
    split; [constructor|left; reflexivity]. }
  destruct (data_chunk ev) as [chunk|] eqn:Hchunk.
  2:{ apply (Hidle (Normal tt)). unfold handleChatModelStream. rewrite Hchunk. reflexivity. }
  destruct (truthy (opt_get (response_metadata chunk) "finish_reason")) eqn:Hfin.
  { apply (Hidle (Normal tt)). unfold handleChatModelStream. rewrite Hchunk, Hfin.
    reflexivity. }
  pose proof (handleChatModelStream_run ev chunk m Hchunk Hfin) as Hrun.
  assert (Htext : textBlock ev chunk (streamState m) m = (Normal tt, m)).
  { rewrite textBlock_run. cbn zeta. rewrite Hoff, andb_false_r. reflexivity. }
  rewrite toolCallBlock_run in Hrun.
  destruct (toolCallOf chunk) as [toolCall|].
  2:{ rewrite Htext in Hrun. apply (Hidle _ Hrun). }
  destruct (startsToolCall ev toolCall m).
  - rewrite (emittedBy_run _ _ _ _ _ Hrun eq_refl), Hrun. split; [repeat constructor|].
    right. eexists. split; [|reflexivity]. cbn. apply idOr_truthy.
  - destruct (streamsToolArgs ev toolCall m).
    2:{ rewrite Htext in Hrun. apply (Hidle _ Hrun). }
    destruct (JSON_stringify (tc_args toolCall)) as [args|e].
    + rewrite (emittedBy_run _ _ _ _ _ Hrun eq_refl), Hrun.
      split; [repeat constructor|left; reflexivity].
    + apply (Hidle _ Hrun).
Qed.

Lemma messages_suppressed_witness :
  truthy (shouldEmitMessages mutedTextDelta) = false
  /\ Forall (fun e => isTextMessage e = false)
       (emittedBy (handleChatModelStream mutedTextDelta) sampleMachine).
Proof.
  split; [reflexivity|].
  apply (messages_suppressed mutedTextDelta sampleMachine). reflexivity.
Defined.

(** X12: a second generation end in a row is a no-op: closing a run that is
    already closed (or was never opened) emits nothing and changes nothing. *)
Theorem generation_end_is_idempotent (m : Machine) :
  (handleChatModelEnd ;;; handleChatModelEnd) m = handleChatModelEnd m
  /\ handleChatModelEnd (snd (handleChatModelEnd m))
     = (Normal tt, snd (handleChatModelEnd m))
  /\ emittedBy handleChatModelEnd (snd (handleChatModelEnd m)) = [].
Proof.
  assert (Hclosed : forall m0 : Machine,
            currentUnit m0 = None -> handleChatModelEnd m0 = (Normal tt, m0)).
  { intros m0 Hnone. rewrite handleChatModelEnd_run, Hnone.
    destruct m0 as [[run table node err] log supply drawn].
    unfold currentUnit, getMessageInProgress in Hnone. cbn in Hnone.
    unfold withTable, withEmitted, closingEvents. cbn.
    rewrite app_nil_r, (delete_id _ _ Hnone). reflexivity. }
  assert (Hafter : currentUnit (snd (handleChatModelEnd m)) = None).
  { rewrite handleChatModelEnd_run. cbn [snd]. rewrite currentUnit_withTable. cbn.
    apply lookup_delete_eq. }
  split; [|split].
  - unfold bind at 1. destruct (handleChatModelEnd m) as [[[]|e] m1] eqn:Hrun.
    + apply (Hclosed m1 Hafter).
    + rewrite handleChatModelEnd_run in Hrun. discriminate.
  - apply (Hclosed _ Hafter).
  - apply (emittedBy_run _ _ _ _ [] (Hclosed _ Hafter)). apply sink_unchanged.
Qed.

Lemma serializeJSONProperty_defined (v : JsValue) :
  serializeJSONProperty v = Normal None -> v = JUndefined.
Proof.
  destruct v as [| |b|z|z|s|items|props]; cbn; try discriminate; [reflexivity| |].
  - match goal with |- context [match ?c with Normal _ => _ | Throw _ => _ end] =>
      destruct c end; discriminate.
  - match goal with |- context [match ?c with Normal _ => _ | Throw _ => _ end] =>
      destruct c end; discriminate.
Qed.

Lemma JSON_stringify_text (v args : JsValue) :
  truthy v = true ->
  JSON_stringify v = Normal args ->
  match args with JStr _ => true | _ => false end = true.
Proof.
  unfold JSON_stringify. intros Htruthy.
  destruct (serializeJSONProperty v) as [[text|]|e] eqn:Hser; intros [= <-]; [reflexivity|].
  apply serializeJSONProperty_defined in Hser. subst v. discriminate.
Qed.

Lemma handleChatModelStream_wellFormed ev m :
  match handleChatModelStream ev m with
  | (Normal _, m') =>
      exists evs : list RuntimeEvent,
        sink m' = sink m ++ map SinkNext evs
        /\ Forall (fun e => wellFormedEvent e = true) evs
  | (Throw _, m') => m' = m
  end.
Proof.
  assert (Hidle : exists evs : list RuntimeEvent,
            sink m = sink m ++ map SinkNext evs
            /\ Forall (fun e => wellFormedEvent e = true) evs)
    by (exists []; split; [apply sink_unchanged|constructor]).
  unfold handleChatModelStream.
  destruct (data_chunk ev) as [chunk|] eqn:Hchunk; [|exact Hidle].
  destruct (truthy (opt_get (response_metadata chunk) "finish_reason")) eqn:Hfin;
    [exact Hidle|].
  pose proof (handleChatModelStream_run ev chunk m Hchunk Hfin) as Hrun.
  unfold handleChatModelStream in Hrun. rewrite Hchunk, Hfin in Hrun. rewrite Hrun.
  clear Hrun.
  assert (Htext : match textBlock ev chunk (streamState m) m with
                  | (Normal _, m') =>
                      exists evs : list RuntimeEvent,
                        sink m' = sink m ++ map SinkNext evs
                        /\ Forall (fun e => wellFormedEvent e = true) evs
                  | (Throw _, m') => m' = m
                  end).
  { rewrite textBlock_run. cbn zeta.
    destruct (truthy (resolvedText (content chunk))) eqn:Htruthy; [|exact Hidle].
    destruct (truthy (shouldEmitMessages ev)); [|exact Hidle]. cbn [andb].
    destruct (negb (unitOpen m) || truthy_str (currentUnit m ≫= toolCallId)) eqn:Hopen.
    - eexists. split; [reflexivity|].
      repeat constructor; cbn; unfold nonEmpty; rewrite idOr_truthy; [reflexivity|].
      exact Htruthy.
    - apply orb_false_iff in Hopen as [Hid _]. apply negb_false_iff in Hid.
      eexists. split; [reflexivity|]. repeat constructor. cbn.
      unfold unitOpen in Hid. destruct (currentUnit m) as [entry|]; [|discriminate].
      cbn in *. unfold nonEmpty. rewrite Hid. exact Htruthy. }
  rewrite toolCallBlock_run.
  destruct (toolCallOf chunk) as [toolCall|]; [|exact Htext].
  destruct (startsToolCall ev toolCall m) eqn:Hstart.
  - unfold startsToolCall in Hstart.
    apply andb_true_iff in Hstart as [_ Hstart].
    apply andb_true_iff in Hstart as [_ Hname].
    eexists. split; [reflexivity|]. repeat constructor. cbn. unfold nonEmpty.
    rewrite idOr_truthy. destruct (tc_name toolCall) as [name|]; [exact Hname|discriminate].
  - destruct (streamsToolArgs ev toolCall m) eqn:Hargs; [|exact Htext].
    unfold streamsToolArgs in Hargs.
    apply andb_true_iff in Hargs as [_ Hargs].
    apply andb_true_iff in Hargs as [Hargs Htruthy].
    apply andb_true_iff in Hargs as [_ Hcall].
    destruct (JSON_stringify (tc_args toolCall)) as [args|e] eqn:Hjson; [|reflexivity].
    eexists. split; [reflexivity|]. repeat constructor. cbn. unfold nonEmpty.
    rewrite (JSON_stringify_text _ _ Htruthy Hjson), andb_true_r.
    destruct (currentUnit m ≫= toolCallId) as [callId|]; [exact Hcall|discriminate].
Qed.

Lemma closingEvents_wellFormed (unit : option MessageInProgress) :
  Forall (fun e => wellFormedEvent e = true) (closingEvents unit).
Proof.
  destruct unit as [entry|]; [|constructor]. cbn.
  destruct (isToolCallUnit entry) eqn:Hcall.
  - repeat constructor. cbn. unfold isToolCallUnit in Hcall.
    destruct (toolCallId entry) as [callId|]; [exact Hcall|discriminate].
  - destruct (isTextUnit entry) eqn:Htext; [|constructor].
    repeat constructor. cbn. unfold isTextUnit in Htext.
    apply andb_true_iff in Htext as [_ Hid]. exact Hid.
Qed.

(** X13: every runtime event the dispatcher sends is well formed, whatever the
    event and the state: ids are never empty, a started action has a name,
    ActionExecutionArgs carries a JSON text (a string, never undefined),
    TextMessageContent carries truthy content, and a RunError has the code
    LANGGRAPH_EVENT_ERROR. *)
Theorem emitted_events_are_well_formed `{Externals}
  (ev : StreamEvent) (debug : bool) (m : Machine) :
  Forall (fun e => wellFormedEvent e = true) (emittedBy (handleLangGraphEvent ev debug) m).
Proof.
  assert (Hgen : forall m0 : Machine,
            match dispatch ev debug m0 with
            | (Normal _, m') =>
                exists evs : list RuntimeEvent,
                  sink m' = sink m0 ++ map SinkNext evs
                  /\ Forall (fun e => wellFormedEvent e = true) evs
            | (Throw _, m') => m' = m0
            end).
  { intros m0.
    assert (Hidle : exists evs : list RuntimeEvent,
              sink m0 = sink m0 ++ map SinkNext evs
              /\ Forall (fun e => wellFormedEvent e = true) evs)
      by (exists []; split; [apply sink_unchanged|constructor]).
    unfold dispatch.
    destruct (String.eqb (event ev) "on_chat_model_stream");
      [apply handleChatModelStream_wellFormed|].
    destruct (String.eqb (event ev) "on_chat_model_end").
    { rewrite handleChatModelEnd_run. eexists. split; [reflexivity|].
      apply closingEvents_wellFormed. }
    destruct (String.eqb (event ev) "on_custom_event"); [destruct debug; exact Hidle|].
    destruct (String.eqb (event ev) "on_chain_start"); [|destruct debug; exact Hidle].
    unfold handleChainStart. destruct (truthy _ && negb _); [|exact Hidle].
    exists []. cbn. split; [symmetry; apply app_nil_r|constructor]. }
  specialize (Hgen (adoptRunId ev m)).
  pose proof (handleLangGraphEvent_run ev debug m) as Hrun.
  destruct (dispatch ev debug (adoptRunId ev m)) as [[[]|e] m'].
  - destruct Hgen as (evs & Hsink & Hwf). rewrite sink_adoptRunId in Hsink.
    rewrite (emittedBy_run _ _ _ _ _ Hrun Hsink). exact Hwf.
  - subst m'.
    rewrite (emittedBy_run _ _ _ _ [runErrorFor e] Hrun).
    + repeat constructor.
    + cbn. rewrite sink_adoptRunId. reflexivity.
Qed.

(** ** Further compositions *)

(** X14: a delta with argument data for the open tool call emits one
    ActionExecutionArgs with the call id of the table entry and changes
    nothing else: no entry is written and no identifier generated; when the
    arguments cannot be serialized, it throws having changed nothing. *)
Theorem tool_arguments_keep_state
  (ev : StreamEvent) (chunk : AIMessageChunk) (toolCall : ToolCall) (m : Machine) :
  data_chunk ev = Some chunk ->
  truthy (opt_get (response_metadata chunk) "finish_reason") = false ->
  toolCallOf chunk = Some toolCall ->
  streamsToolArgs ev toolCall m = true ->
  handleChatModelStream ev m
  = match JSON_stringify (tc_args toolCall) with
    | Normal args =>
        (Normal tt,
         withEmitted
           [ActionExecutionArgs (default "" (currentUnit m ≫= toolCallId)) args] m)
    | Throw e => (Throw e, m)
    end.
Proof.
  intros Hchunk Hfin Hcall Hargs.
  rewrite (handleChatModelStream_run ev chunk m Hchunk Hfin), toolCallBlock_run, Hcall, Hargs.
  assert (Hstart : startsToolCall ev toolCall m = false).
  { unfold streamsToolArgs in Hargs. unfold startsToolCall.
    apply andb_true_iff in Hargs as [_ Hargs].
    apply andb_true_iff in Hargs as [Hargs _].
    apply andb_true_iff in Hargs as [Hopen _].
    rewrite Hopen. cbn. apply andb_false_r. }
  rewrite Hstart. destruct (JSON_stringify (tc_args toolCall)); reflexivity.
Qed.

Lemma tool_arguments_keep_state_witness :
  streamsToolArgs (toolCallDelta (mkToolCall None (Some "search") argsQueryCats))
    (mkToolCall None (Some "search") argsQueryCats) toolUnitMachine = true
  /\ handleChatModelStream (toolCallDelta (mkToolCall None (Some "search") argsQueryCats))
       toolUnitMachine
     = (Normal tt,
        withEmitted [ActionExecutionArgs "call_1" (JStr json_query_cats)] toolUnitMachine).
Proof.
  split; [reflexivity|].
  apply (tool_arguments_keep_state
           (toolCallDelta (mkToolCall None (Some "search") argsQueryCats))
           (mkChunk None (JStr "") (Some [mkToolCall None (Some "search") argsQueryCats]) None)
           (mkToolCall None (Some "search") argsQueryCats) toolUnitMachine); reflexivity.
Defined.

Section Clearing.
Context `{Externals}.

(** X15: whatever the events before it did, a generation end leaves the
    table as it was before them without the entry of the run: a unit's
    lifetime leaves nothing behind, and other runs are as they were. *)
Theorem generation_end_clears_the_run
  (evs : list StreamEvent) (ev : StreamEvent) (debug : bool) (m : Machine) :
  truthy_str (Some (runId (streamState m))) = true ->
  event ev = "on_chat_model_end" ->
  messagesInProgress
    (streamState (snd (forAwait (yieldAll evs (SourceYield ev SourceEnd)) debug m)))
  = delete (runId (streamState m)) (messagesInProgress (streamState m)).
Proof.
  intros Hrun Hkind.
  destruct (forAwait_yieldAll evs (SourceYield ev SourceEnd) debug m) as (m1 & -> & Hm1).
  pose proof (forAwait_footprint (yieldAll evs SourceEnd) debug m Hrun) as Hfoot.
  rewrite <- Hm1 in Hfoot. destruct Hfoot as (Hid & _ & _ & _ & _ & Hframe).
  assert (Hrun1 : truthy_str (Some (runId (streamState m1))) = true)
    by (rewrite Hid; exact Hrun).
  cbn [forAwait]. unfold bind.
  rewrite (handleLangGraphEvent_generation_end ev debug m1 Hkind Hrun1).
  rewrite handleChatModelEnd_run. cbn. rewrite Hid.
  apply map_eq. intros key.
  destruct (decide (key = runId (streamState m))) as [->|Hother].
  - rewrite !lookup_delete_eq. reflexivity.
  - rewrite !lookup_delete_ne by congruence. apply Hframe. exact Hother.
Qed.

End Clearing.

Lemma generation_end_clears_the_run_witness :
  truthy_str (Some (runId (streamState toolUnitMachine))) = true
  /\ messagesInProgress
       (streamState
          (snd (@forAwait sampleExternals
                  (yieldAll [textDelta "a"; customEvent; textDelta "b"]
                     (SourceYield generationEnd SourceEnd)) false toolUnitMachine)))
     = delete "run-1" (messagesInProgress (streamState toolUnitMachine)).
Proof.
  split; [reflexivity|].
  apply (@generation_end_clears_the_run sampleExternals
           [textDelta "a"; customEvent; textDelta "b"] generationEnd false toolUnitMachine);
    reflexivity.
Defined.

(** ** The input conversion and [process] *)

Section Adapter.
Context `{Externals} `{LangChain}.

Lemma find_last {A} (p : A -> bool) (l : list A) (x : A) :
  find p (l ++ [x]) = match find p l with
                      | Some y => Some y
                      | None => if p x then Some x else None
                      end.
Proof.
  induction l as [|y rest IH]; [reflexivity|].
  cbn [app find]. destruct (p y); [reflexivity|exact IH].
Qed.

Lemma filterSystemMessages_run (instructions : JsValue) (messages : list BaseMessage) :
  filterSystemMessages instructions messages
  = (List.filter (fun msg => negb (isSystemMessage msg)) messages,
     match find isSystemMessage (rev messages) with
     | Some msg => message_content msg
     | None => instructions
     end).
Proof.
  revert instructions. induction messages as [|msg rest IH]; intros instructions;
    [reflexivity|].
  cbn [filterSystemMessages List.filter rev]. rewrite find_last.
  destruct (isSystemMessage msg) eqn:Hsys; cbn [negb].
  - rewrite IH. destruct (find isSystemMessage (rev rest)); reflexivity.
  - rewrite IH. destruct (find isSystemMessage (rev rest)); reflexivity.
Qed.

Lemma map_each_normal {A B} (f : A -> Completion B) (items : list A) :
  Forall (fun x => returnsNormally (f x) = true) items ->
  exists results : list B,
    map_each f items = Normal results
    /\ Forall2 (fun x y => f x = Normal y) items results.
Proof.
  induction 1 as [|x rest Hx _ (results & Hmap & Hall)].
  - exists []. split; [reflexivity|constructor].
  - destruct (f x) as [y|e] eqn:Hfx; [|discriminate].
    exists (y :: results). split.
    + cbn. rewrite Hfx. cbn. rewrite Hmap. reflexivity.
    + constructor; assumption.
Qed.

Lemma map_each_throw {A B} (f : A -> Completion B) (before after : list A) (bad : A)
  (e : JsError) :
  Forall (fun x => returnsNormally (f x) = true) before ->
  f bad = Throw e ->
  map_each f (before ++ bad :: after) = Throw e.
Proof.
  intros Hbefore Hbad. induction Hbefore as [|x rest Hx _ IH].
  - cbn. rewrite Hbad. reflexivity.
  - cbn. destruct (f x) as [y|e']; [|discriminate]. cbn. rewrite IH. reflexivity.
Qed.

Lemma filter_defined_messages (messages : list Message) (converted : list (option BaseMessage)) :
  Forall2 (fun msg c => convertMessageToLangChainMessage msg = Normal c) messages converted ->
  filter_defined converted = omap convertedMessage messages.
Proof.
  induction 1 as [|msg c messages converted Hc _ IH]; [reflexivity|].
  unfold filter_defined in *. cbn. unfold convertedMessage at 1. rewrite Hc, <- IH.
  destruct c; reflexivity.
Qed.

Lemma filter_defined_tools (actions : list ActionInput)
  (converted : list (option DynamicStructuredTool)) :
  Forall2 (fun action c => convertActionInputToLangChainTool action = Normal c)
    actions converted ->
  filter_defined converted = omap convertedTool actions.
Proof.
  induction 1 as [|action c actions converted Hc _ IH]; [reflexivity|].
  unfold filter_defined in *. cbn. unfold convertedTool at 1. rewrite Hc, <- IH.
  destruct c; reflexivity.
Qed.

(** X16: when every single conversion returns, the input conversion keeps the
    order of messages and of actions and drops exactly those the converters
    answer with [undefined]. *)
Theorem conversion_keeps_order
  (messages : list Message) (actions : list ActionInput) (debug : bool) :
  Forall (fun msg => returnsNormally (convertMessageToLangChainMessage msg) = true)
    messages ->
  Forall (fun action => returnsNormally (convertActionInputToLangChainTool action) = true)
    actions ->
  convertCopilotKitToLangGraphInput (Some messages) (Some actions) debug
  = Normal (mkLangGraphInput (omap convertedMessage messages) (omap convertedTool actions)).
Proof.
  intros Hmessages Hactions.
  destruct (map_each_normal _ messages Hmessages) as (converted & Hmap1 & Hall1).
  destruct (map_each_normal _ actions Hactions) as (tools & Hmap2 & Hall2).
  unfold convertCopilotKitToLangGraphInput.
  destruct debug; cbn; rewrite Hmap1; cbn; rewrite Hmap2; cbn;
    rewrite (filter_defined_messages _ _ Hall1), (filter_defined_tools _ _ Hall2);
    reflexivity.
Qed.

(** X17: the input conversion fails as a whole: the first message whose
    conversion throws ends it, and what the caller sees is that error after
    the standard conversion; no partial input is returned. *)
Theorem conversion_fails_as_a_whole
  (before after : list Message) (bad : Message) (e : JsError)
  (actions : list ActionInput) (debug : bool) :
  Forall (fun msg => returnsNormally (convertMessageToLangChainMessage msg) = true)
    before ->
  convertMessageToLangChainMessage bad = Throw e ->
  convertCopilotKitToLangGraphInput (Some (before ++ bad :: after)) (Some actions) debug
  = Throw (convertServiceAdapterError e "LangGraph").
Proof.
  intros Hbefore Hbad.
  unfold convertCopilotKitToLangGraphInput.
  destruct debug; cbn; rewrite (map_each_throw _ before after bad e Hbefore Hbad);
    reflexivity.
Qed.

(** X18: a [null] message array is an error, not an empty conversation: the
    conversion throws, the converted TypeError of [messages.map] without
    debug output, and the bare TypeError of [messages.length], raised by the
    debug output before the [try], in debug mode. *)
Theorem null_messages_throw (actions : option (list ActionInput)) :
  convertCopilotKitToLangGraphInput None actions false
  = Throw (convertServiceAdapterError
             (TypeError "Cannot read properties of null (reading 'map')") "LangGraph")
  /\ convertCopilotKitToLangGraphInput None actions true
     = Throw (TypeError "Cannot read properties of null (reading 'length')").
Proof. split; reflexivity. Qed.

Lemma process_run (adapter : LangGraphServiceAdapter) (request : ChatCompletionRequest)
  (m : Machine) :
  process adapter request m
  = match convertCopilotKitToLangGraphInput (request_messages request)
            (request_actions request) (adapter_debug adapter) with
    | Normal input =>
        (Normal
           (mkOutcome
              (mkResponse (idOr (request_threadId request) 0 m) (request_runId request))
              match systemPromptStrategy adapter with
              | inject =>
                  mkLangGraphInput
                    (List.filter (fun msg => negb (isSystemMessage msg)) (input_messages input))
                    (input_tools input)
              | passthrough => input
              end
              match systemPromptStrategy adapter with
              | inject => mkStreamConfig "v2" (Some (lastSystemContent (input_messages input)))
              | passthrough => mkStreamConfig "v2" None
              end),
         withDrawn (drawnFor (request_threadId request)) m)
    | Throw e => (Throw (convertServiceAdapterError e "LangGraph"), m)
    end.
Proof.
  unfold process, try_catch. unfold bind at 1. unfold lift.
  destruct (convertCopilotKitToLangGraphInput _ _ _) as [input|e]; [|reflexivity].
  unfold lastSystemContent.
  destruct (systemPromptStrategy adapter).
  - unfold bind at 1. unfold bind at 1.
    destruct (adapter_debug adapter); cbn [when console_log ret];
      rewrite (bind_run _ _ _ _ _ (or_randomUUID_run _ _)); reflexivity.
  - rewrite filterSystemMessages_run.
    unfold bind at 1. unfold bind at 1.
    destruct (adapter_debug adapter); cbn [when console_log ret];
      rewrite (bind_run _ _ _ _ _ (or_randomUUID_run _ _)); reflexivity.
Qed.

End Adapter.

Section Process.
Context `{Externals} `{LangChain}.

(** X19: under the "inject" strategy [process] hands the agent the converted
    messages without the system messages, in their order, with the tools
    unchanged, and passes the content of the last system message (the empty
    string when there is none) as [copilotkit_instructions]. *)
Theorem process_injects_system_prompt
  (adapter : LangGraphServiceAdapter) (request : ChatCompletionRequest)
  (input : LangGraphInput) (m : Machine) :
  systemPromptStrategy adapter = inject ->
  convertCopilotKitToLangGraphInput (request_messages request) (request_actions request)
    (adapter_debug adapter) = Normal input ->
  exists outcome : ProcessOutcome,
    fst (process adapter request m) = Normal outcome
    /\ input_messages (streamInput outcome)
       = List.filter (fun msg => negb (isSystemMessage msg)) (input_messages input)
    /\ Forall (fun msg => isSystemMessage msg = false) (input_messages (streamInput outcome))
    /\ input_tools (streamInput outcome) = input_tools input
    /\ streamConfig outcome
       = mkStreamConfig "v2" (Some (lastSystemContent (input_messages input))).
Proof.
  intros Hstrategy Hinput. rewrite process_run, Hinput, Hstrategy.
  eexists. split; [reflexivity|]. cbn. split; [reflexivity|]. split; [|split; reflexivity].
  apply Forall_forall. intros msg Hin. apply list_elem_of_In, filter_In in Hin as [_ Hkept].
  apply negb_true_iff in Hkept. exact Hkept.
Qed.

(** X20: an adapter built without a strategy uses "passthrough": [process]
    hands the agent the converted input as it is, system messages included,
    and sets no [configurable] field. *)
Theorem process_passes_through_by_default
  (config : LangGraphServiceAdapterConfig) (request : ChatCompletionRequest)
  (input : LangGraphInput) (m : Machine) :
  config_systemPromptStrategy config = None ->
  convertCopilotKitToLangGraphInput (request_messages request) (request_actions request)
    (adapter_debug (newLangGraphServiceAdapter config)) = Normal input ->
  exists outcome : ProcessOutcome,
    fst (process (newLangGraphServiceAdapter config) request m) = Normal outcome
    /\ streamInput outcome = input
    /\ streamConfig outcome = mkStreamConfig "v2" None.
Proof.
  intros Hstrategy Hinput. rewrite process_run, Hinput.
  unfold newLangGraphServiceAdapter. cbn [systemPromptStrategy]. rewrite Hstrategy.
  eexists. split; [reflexivity|]. split; reflexivity.
Qed.

(** X21: a successful [process] answers with the thread id of the request, or
    with a generated one when the request has none or an empty one, and
    echoes the run id; it generates at most that one identifier and, the
    callback it registers apart, neither touches the stream state nor sends
    anything to the sink. *)
Theorem process_response
  (adapter : LangGraphServiceAdapter) (request : ChatCompletionRequest)
  (input : LangGraphInput) (m : Machine) :
  convertCopilotKitToLangGraphInput (request_messages request) (request_actions request)
    (adapter_debug adapter) = Normal input ->
  exists (outcome : ProcessOutcome) (m' : Machine),
    process adapter request m = (Normal outcome, m')
    /\ response_threadId (response outcome)
       = (if truthy_str (request_threadId request)
          then default "" (request_threadId request)
          else nextUUID 0 m)
    /\ response_threadId (response outcome) <> ""
    /\ response_runId (response outcome) = request_runId request
    /\ streamState m' = streamState m
    /\ sink m' = sink m
    /\ uuidDrawn m' = (if truthy_str (request_threadId request) then 0 else 1) + uuidDrawn m.
Proof.
  intros Hinput. rewrite process_run, Hinput.
  eexists _, _. split; [reflexivity|]. cbn.
  split; [reflexivity|]. split; [|repeat split; reflexivity].
  pose proof (idOr_truthy (request_threadId request) 0 m) as Htruthy.
  apply negb_true_iff, String.eqb_neq in Htruthy. exact Htruthy.
Qed.

(** X22: a failure of the input conversion rejects the whole call before any
    streaming: [process] throws the converted error, generates no
    identifier, and leaves the stream state and the sink as they were. *)
Theorem process_rejects_failed_conversion
  (adapter : LangGraphServiceAdapter) (request : ChatCompletionRequest)
  (e : JsError) (m : Machine) :
  convertCopilotKitToLangGraphInput (request_messages request) (request_actions request)
    (adapter_debug adapter) = Throw e ->
  process adapter request m = (Throw (convertServiceAdapterError e "LangGraph"), m).
Proof. intros Hinput. rewrite process_run, Hinput. reflexivity. Qed.

End Process.

Lemma conversion_keeps_order_witness :
  Forall (fun msg => returnsNormally (@convertMessageToLangChainMessage sampleLangChain msg)
                     = true)
    [("system", "Be brief."); ("user", "Hello"); ("", "?"); ("user", "Bye")]
  /\ Forall (fun action => returnsNormally
                             (@convertActionInputToLangChainTool sampleLangChain action)
                           = true) ["search"]
  /\ @convertCopilotKitToLangGraphInput sampleExternals sampleLangChain
       (Some [("system", "Be brief."); ("user", "Hello"); ("", "?"); ("user", "Bye")])
       (Some ["search"]) false
     = Normal (@mkLangGraphInput sampleLangChain
                 [("system", "Be brief."); ("user", "Hello"); ("user", "Bye")]
                 ["search"]).
Proof.
  assert (Hmessages :
    Forall (fun msg => returnsNormally (@convertMessageToLangChainMessage sampleLangChain msg)
                       = true)
      [("system", "Be brief."); ("user", "Hello"); ("", "?"); ("user", "Bye")])
    by (repeat constructor).
  assert (Hactions :
    Forall (fun action => returnsNormally
                            (@convertActionInputToLangChainTool sampleLangChain action)
                          = true) ["search"])
    by (repeat constructor).
  split; [exact Hmessages|]. split; [exact Hactions|].
  exact (@conversion_keeps_order sampleExternals sampleLangChain _ _ false Hmessages Hactions).
Defined.

Lemma conversion_fails_as_a_whole_witness :
  Forall (fun msg => returnsNormally (@convertMessageToLangChainMessage sampleLangChain msg)
                     = true) [("user", "Hello")]
  /\ @convertMessageToLangChainMessage sampleLangChain ("broken", "?")
     = Throw (mkError "Error" "Unknown message")
  /\ @convertCopilotKitToLangGraphInput sampleExternals sampleLangChain
       (Some ([("user", "Hello")] ++ ("broken", "?") :: [("user", "Bye")]))
       (Some ["search"]) false
     = Throw (@convertServiceAdapterError sampleExternals
                (mkError "Error" "Unknown message") "LangGraph").
Proof.
  assert (Hbefore :
    Forall (fun msg => returnsNormally (@convertMessageToLangChainMessage sampleLangChain msg)
                       = true) [("user", "Hello")])
    by (repeat constructor).
  split; [exact Hbefore|]. split; [reflexivity|].
  exact (@conversion_fails_as_a_whole sampleExternals sampleLangChain
           [("user", "Hello")] [("user", "Bye")] ("broken", "?")
           (mkError "Error" "Unknown message") ["search"] false Hbefore eq_refl).
Defined.

Lemma process_injects_system_prompt_witness :
  systemPromptStrategy (sampleAdapter inject) = inject
  /\ exists outcome : @ProcessOutcome sampleLangChain,
      fst (@process sampleExternals sampleLangChain (sampleAdapter inject) sampleRequest
             sampleMachine) = Normal outcome
      /\ input_messages (streamInput outcome) = [("user", "Hello"); ("user", "Bye")]
      /\ streamConfig outcome = mkStreamConfig "v2" (Some (JStr "Be kind.")).
Proof.
  split; [reflexivity|].
  destruct (@process_injects_system_prompt sampleExternals sampleLangChain
              (sampleAdapter inject) sampleRequest
              (@mkLangGraphInput sampleLangChain
                 [("system", "Be brief."); ("user", "Hello");
                  ("system", "Be kind."); ("user", "Bye")] ["search"])
              sampleMachine eq_refl eq_refl)
    as (outcome & Hrun & Hmessages & _ & _ & Hconfig).
  exists outcome. split; [exact Hrun|]. split; [exact Hmessages|exact Hconfig].
Defined.

Lemma process_passes_through_by_default_witness :
  @config_systemPromptStrategy sampleLangChain
    (@mkAdapterConfig sampleLangChain (fun _ _ => SourceEnd) None None) = None
  /\ exists outcome : @ProcessOutcome sampleLangChain,
      fst (@process sampleExternals sampleLangChain
             (newLangGraphServiceAdapter
                (@mkAdapterConfig sampleLangChain (fun _ _ => SourceEnd) None None))
             sampleRequest sampleMachine) = Normal outcome
      /\ streamInput outcome
         = @mkLangGraphInput sampleLangChain
             [("system", "Be brief."); ("user", "Hello");
              ("system", "Be kind."); ("user", "Bye")] ["search"]
      /\ streamConfig outcome = mkStreamConfig "v2" None.
Proof.
  split; [reflexivity|].
  apply (@process_passes_through_by_default sampleExternals sampleLangChain
           (@mkAdapterConfig sampleLangChain (fun _ _ => SourceEnd) None None)
           sampleRequest); reflexivity.
Defined.

Lemma process_response_witness :
  @convertCopilotKitToLangGraphInput sampleExternals sampleLangChain
    (request_messages sampleRequest) (request_actions sampleRequest) false
  = Normal (@mkLangGraphInput sampleLangChain
              [("system", "Be brief."); ("user", "Hello");
               ("system", "Be kind."); ("user", "Bye")] ["search"])
  /\ exists (outcome : @ProcessOutcome sampleLangChain) (m' : Machine),
      @process sampleExternals sampleLangChain (sampleAdapter passthrough) sampleRequest
        sampleMachine = (Normal outcome, m')
      /\ response_threadId (response outcome) = "00000000-0000-0000-0000-000000000000"
      /\ response_runId (response outcome) = Some "client-run".
Proof.
  split; [reflexivity|].
  destruct (@process_response sampleExternals sampleLangChain (sampleAdapter passthrough)
              sampleRequest
              (@mkLangGraphInput sampleLangChain
                 [("system", "Be brief."); ("user", "Hello");
                  ("system", "Be kind."); ("user", "Bye")] ["search"])
              sampleMachine eq_refl)
    as (outcome & m' & Hrun & Hthread & _ & Hrunid & _).
  exists outcome, m'. split; [exact Hrun|]. split; [exact Hthread|exact Hrunid].
Defined.

Lemma process_rejects_failed_conversion_witness :
  @convertCopilotKitToLangGraphInput sampleExternals sampleLangChain
    (request_messages brokenRequest) (request_actions brokenRequest) false
  = Throw (mkError "CopilotKitLowLevelError" "LangGraph: Unknown message")
  /\ @process sampleExternals sampleLangChain (sampleAdapter passthrough) brokenRequest
       sampleMachine
     = (Throw (mkError "CopilotKitLowLevelError" "LangGraph: LangGraph: Unknown message"),
        sampleMachine).
Proof.
  split; [reflexivity|].
  apply (@process_rejects_failed_conversion sampleExternals sampleLangChain
           (sampleAdapter passthrough) brokenRequest
           (mkError "CopilotKitLowLevelError" "LangGraph: Unknown message") sampleMachine).
  reflexivity.
Defined.
